(** * Fantasy-football agent: the tool-calling loop and its data handlers

    A shallow embedding of [src/main.py] (the conversation driver
    [analyze_with_openai] and its retry wrapper [responses_with_backoff]) and
    of [src/fantasy_data.py] (the three tool handlers), followed by the
    properties of the specification stated and settled against them.

    Conventions.
    - Python values that cross the JSON boundary are terms of [pyval];
      Python floats are modelled by the exact rational they denote ([Q]),
      without NaN and infinities.
    - A Python call that may raise returns a [result]: [Return v] or
      [Raise e].
    - [print] and every outbound call are recorded as [event]s, in program
      order. *)

From Stdlib Require Import ZArith QArith Qround Qabs Qminmax List String Ascii Bool Lia.
From Stdlib Require Import Sorted Permutation DecimalString DecimalZ Lqa.
Import ListNotations.

Open Scope string_scope.
Open Scope Z_scope.

(** ** Python values *)

Set Warnings "-register-all".

Inductive pyval : Type :=
| PyNone
| PyBool (b : bool)
| PyInt (z : Z)
| PyFloat (q : Q)
| PyStr (s : string)
| PyList (l : list pyval)
| PyDict (d : list (string * pyval)).

(** Exceptions that the modelled code can meet. [HostError] stands for
    whatever the model host's client raises; [RetryError] is what the retry
    wrapper raises once its attempts are used up. *)
Inductive exn : Type :=
| TypeError (msg : string)
| AttributeError (msg : string)
| HostError (msg : string)
| RetryError (last : exn).

Inductive result (A : Type) : Type :=
| Return (a : A)
| Raise (e : exn).
Arguments Return {A} a.
Arguments Raise {A} e.

Definition returned {A} (r : result A) : bool :=
  match r with Return _ => true | Raise _ => false end.

(** Truth value of a Python object ([if x:], [not x]). *)
Definition py_truthy (v : pyval) : bool :=
  match v with
  | PyNone => false
  | PyBool b => b
  | PyInt z => negb (z =? 0)
  | PyFloat q => negb (Qeq_bool q 0)
  | PyStr s => negb (String.eqb s "")
  | PyList l => match l with [] => false | _ => true end
  | PyDict d => match d with [] => false | _ => true end
  end.

(** [v == s] for a [str] literal [s]. *)
Definition py_eq_str (v : pyval) (s : string) : bool :=
  match v with
  | PyStr t => String.eqb t s
  | _ => false
  end.

(** [v == z] for an [int] [z]: Python compares numbers by value, and
    [True == 1]. *)
Definition py_eq_int (v : pyval) (z : Z) : bool :=
  match v with
  | PyInt n => n =? z
  | PyBool b => (if b then 1 else 0) =? z
  | PyFloat q => Qeq_bool q (inject_Z z)
  | _ => false
  end.

(** [v in [s1, s2, ...]] for a list of [str] literals. *)
Definition py_in_strs (v : pyval) (l : list string) : bool :=
  existsb (py_eq_str v) l.

(** Lookup in an insertion-ordered dictionary with [str] keys. *)
Fixpoint assoc {A} (k : string) (d : list (string * A)) : option A :=
  match d with
  | [] => None
  | (k', v) :: d' => if String.eqb k k' then Some v else assoc k d'
  end.

Fixpoint assocZ {A} (k : Z) (d : list (Z * A)) : option A :=
  match d with
  | [] => None
  | (k', v) :: d' => if k =? k' then Some v else assocZ k d'
  end.

(** [key in v] when [v] is a [dict]. *)
Definition py_has_key (v : pyval) (k : string) : bool :=
  match v with
  | PyDict d => match assoc k d with Some _ => true | None => false end
  | _ => false
  end.

(** [v[key]] when [v] is a [dict] that has the key. *)
Definition py_item (v : pyval) (k : string) : pyval :=
  match v with
  | PyDict d => match assoc k d with Some x => x | None => PyNone end
  | _ => PyNone
  end.

(** [len(v)] of a list. *)
Definition py_len (v : pyval) : Z :=
  match v with
  | PyList l => Z.of_nat (List.length l)
  | _ => 0
  end.

(** [tool_args.get(key, default)]: the method exists on [dict] only; on
    any other JSON value the attribute lookup raises. *)
Definition py_get (v : pyval) (k : string) (default : pyval) : result pyval :=
  match v with
  | PyDict d => Return (match assoc k d with Some x => x | None => default end)
  | _ => Raise (AttributeError "object has no attribute 'get'")
  end.

Definition opt_int (o : option Z) : pyval :=
  match o with Some z => PyInt z | None => PyNone end.

Definition opt_str (o : option string) : pyval :=
  match o with Some s => PyStr s | None => PyNone end.

(** *** Text of values, as f-strings print them *)

Definition string_of_Z (z : Z) : string :=
  NilZero.string_of_int (Z.to_int z).

Definition digit_char (d : Z) : string :=
  String (ascii_of_nat (48 + Z.to_nat d)) "".

(** The first [n] decimals of a fraction [0 <= r < 1]. *)
Fixpoint frac_digits (n : nat) (r : Q) : string :=
  match n with
  | O => ""
  | S n' =>
      if Qeq_bool r 0 then ""
      else
        let x := (r * 10)%Q in
        let d := Qfloor x in
        digit_char d ++ frac_digits n' (x - inject_Z d)%Q
  end.

(** Decimal text of a float: Python prints the shortest decimal that reads
    back to the same double; on the short decimals met here that is the
    exact expansion, which is what this gives (16 decimals at most). *)
Definition float_repr (q : Q) : string :=
  let a := Qabs q in
  let i := Qfloor a in
  let f := frac_digits 16 (a - inject_Z i)%Q in
  (if Qle_bool 0 q then "" else "-") ++ string_of_Z i ++ "." ++
  (if String.eqb f "" then "0" else f).

Definition join_with (sep : string) (l : list string) : string :=
  match l with
  | [] => ""
  | x :: xs => fold_left (fun acc y => acc ++ sep ++ y) xs x
  end.

(** [repr(v)]; a [str] is quoted without escapes. *)
Fixpoint py_repr (v : pyval) : string :=
  match v with
  | PyNone => "None"
  | PyBool true => "True"
  | PyBool false => "False"
  | PyInt z => string_of_Z z
  | PyFloat q => float_repr q
  | PyStr s => "'" ++ s ++ "'"
  | PyList l => "[" ++ join_with ", " (map py_repr l) ++ "]"
  | PyDict d =>
      "{" ++ join_with ", "
               (map (fun kv => "'" ++ fst kv ++ "': " ++ py_repr (snd kv)) d)
          ++ "}"
  end.

(** [str(v)], which is what [f"{v}"] inserts. *)
Definition py_str (v : pyval) : string :=
  match v with
  | PyStr s => s
  | _ => py_repr v
  end.

(** *** Numbers *)

(** [round(x, ndigits)] on a float: to the nearest multiple of
    [10^-ndigits], ties to the even one. *)
Definition round_half_even (x : Q) : Z :=
  let f := Qfloor x in
  match Qcompare (x - inject_Z f) (1 # 2) with
  | Lt => f
  | Gt => f + 1
  | Eq => if Z.even f then f else f + 1
  end.

Definition py_round (x : Q) (ndigits : nat) : Q :=
  let s := Z.to_pos (10 ^ Z.of_nat ndigits) in
  Qred (round_half_even (x * inject_Z (Zpos s)) # s).

(** *** Sequences *)

(** [sorted(l, key=key)] and [l.sort(key=key)]: a stable sort; [before a b]
    says that key [a] may stay in front of key [b].  With [reverse=True]
    the order is descending and equal keys still keep their original order. *)
Section Sorted.
Context {A K : Type} (before : K -> K -> bool) (key : A -> K).

Fixpoint insert_stable (x : A) (l : list A) : list A :=
  match l with
  | [] => [x]
  | y :: l' =>
      if before (key x) (key y) then x :: y :: l'
      else y :: insert_stable x l'
  end.

Fixpoint py_sorted (l : list A) : list A :=
  match l with
  | [] => []
  | x :: l' => insert_stable x (py_sorted l')
  end.
End Sorted.

(** [l[:n]] for an [int] [n]: a negative [n] counts from the end. *)
Definition slice_to {A} (n : Z) (l : list A) : list A :=
  if 0 <=? n then firstn (Z.to_nat n) l
  else firstn (List.length l - Z.to_nat (- n)) l.

(** [l[:size]] for an arbitrary object [size]: [None] keeps everything, an
    [int] (or [bool]) slices, anything else is a [TypeError]. *)
Definition py_slice_to {A} (size : pyval) (l : list A) : result (list A) :=
  match size with
  | PyNone => Return l
  | PyInt n => Return (slice_to n l)
  | PyBool b => Return (slice_to (if b then 1 else 0) l)
  | _ => Raise (TypeError "slice indices must be integers or None or have an __index__ method")
  end.

(** *** Text *)

Definition newline : string := String (ascii_of_nat 10) "".

(** [f"{x:.1f}"]: one decimal, the nearest, ties to even, with the sign of
    [x] (so a small negative number prints as [-0.0]). *)
Definition format_1f (x : Q) : string :=
  let tenths := round_half_even (Qabs x * 10) in
  (if Qle_bool 0 x then "" else "-") ++
  string_of_Z (tenths / 10) ++ "." ++ digit_char (tenths mod 10).

(** [int(s)] for a text of decimal digits with an optional minus sign, as
    an f-string prints an int; [None] is a [ValueError] (the empty text
    among others). *)
Definition py_int (s : string) : option Z :=
  option_map Z.of_int (NilZero.int_of_string s).

(** [s.split(sep)[0]]: the text before the first [sep]. *)
Fixpoint first_field (sep : ascii) (s : string) : string :=
  match s with
  | EmptyString => EmptyString
  | String c s' => if Ascii.eqb c sep then EmptyString else String c (first_field sep s')
  end.

Fixpoint string_rev (s : string) : string :=
  match s with
  | EmptyString => EmptyString
  | String c s' => string_rev s' ++ String c EmptyString
  end.

Definition in_chars (c : ascii) (chars : list ascii) : bool :=
  existsb (Ascii.eqb c) chars.

Fixpoint lstrip (chars : list ascii) (s : string) : string :=
  match s with
  | EmptyString => EmptyString
  | String c s' => if in_chars c chars then lstrip chars s' else s
  end.

(** [s.strip(chars)]: without the leading and the trailing characters that
    are in [chars]. *)
Definition py_strip (chars : list ascii) (s : string) : string :=
  string_rev (lstrip chars (string_rev (lstrip chars s))).

Definition upper_char (c : ascii) : ascii :=
  let n := nat_of_ascii c in
  if ((97 <=? n) && (n <=? 122))%nat then ascii_of_nat (n - 32) else c.

(** [s.upper()] on ASCII text (identifiers here are ASCII). *)
Fixpoint py_upper (s : string) : string :=
  match s with
  | EmptyString => EmptyString
  | String c s' => String (upper_char c) (py_upper s')
  end.

(** *** Sequencing of calls that may raise *)

Definition bind {A B} (r : result A) (k : A -> result B) : result B :=
  match r with
  | Return a => k a
  | Raise e => Raise e
  end.

Notation "x <- c ;; k" := (bind c (fun x => k))
  (at level 61, c at next level, right associativity).

(** A loop that runs [f] on each element in turn and stops at the first
    exception. *)
Fixpoint for_each {A B} (f : A -> result B) (l : list A) : result (list B) :=
  match l with
  | [] => Return []
  | x :: l' =>
      y <- f x ;;
      ys <- for_each f l' ;;
      Return (y :: ys)
  end.

(** ** [src/fantasy_data.py] *)

Module FantasyData.

(** 2025 NFL bye weeks. *)
Definition BYE_WEEKS : list (string * Z) :=
  [ ("ARI", 8); ("ATL", 5); ("BAL", 7); ("BUF", 7); ("CAR", 14); ("CHI", 5);
    ("CIN", 10); ("CLE", 9); ("DAL", 10); ("DEN", 12); ("DET", 8); ("GB", 5);
    ("HOU", 6); ("IND", 11); ("JAX", 8); ("KC", 10); ("LV", 8); ("LAC", 12);
    ("LAR", 8); ("MIA", 12); ("MIN", 6); ("NE", 14); ("NO", 11); ("NYG", 14);
    ("NYJ", 9); ("PHI", 9); ("PIT", 5); ("SF", 14); ("SEA", 8); ("TB", 9);
    ("TEN", 10); ("WSH", 12) ].

(** *** The league snapshot, as the provider (espn_api) hands it over.

    An attribute that the code reads behind [hasattr] is an [option]: [None]
    when the object does not have it.  An int that defaults a float is the
    float of the same value. *)

(** One week of [player.stats]: a dict with the keys the code reads. *)
Record WeekStats : Type := {
  ws_projected_points : option Q;
  ws_points : option Q;
  ws_projected_breakdown : option (list (string * Q))
}.

Record Player : Type := {
  playerId : option Z;
  name : option string;
  position : option string;
  proTeam : option string;
  (** [Some d] when [player.stats] exists and is a dict keyed by week. *)
  stats : option (list (Z * WeekStats));
  projected_avg_points : option Q;
  lineupSlot : option string;
  injuryStatus : option string;
  (** What [str(player)] gives. *)
  player_str : string
}.

Record Team : Type := {
  team_id : option Z;
  team_name : string;
  wins : Z;
  losses : Z;
  points_for : Q;
  points_against : option Q;
  roster : option (list Player)
}.

Record League : Type := {
  teams : list Team;
  current_week : Z;
  (** [league.free_agents(size=n)]. *)
  free_agents : Z -> list Player
}.

(** Get bye week for a player based on their NFL team. *)
Definition get_player_bye_week (player : Player) : option Z :=
  match proTeam player with
  | Some t => assoc t BYE_WEEKS
  | None => None
  end.

(** The block that the three summaries share (lines 136-140, 265-269,
    321-325): the current week's projection, 0 when there is none. *)
Definition weekly_projection (league : League) (player : Player) : Q :=
  match stats player with
  | Some d =>
      match assocZ (current_week league) d with
      | Some w =>
          match ws_projected_points w with
          | Some q => q
          | None => 0%Q
          end
      | None => 0%Q
      end
  | None => 0%Q
  end.

(** *** get_waiver_wire_for_tool *)

(** The dict [player_info] of lines 145-153. *)
Record player_info : Type := {
  pi_player_id : option Z;
  pi_name : string;
  pi_position : string;
  pi_team : string;
  pi_projected_points : Q;
  pi_bye_week : option Z;
  pi_injury_status : option string
}.

Definition player_info_dict (p : player_info) : pyval :=
  PyDict [ ("player_id", opt_int (pi_player_id p));
           ("name", PyStr (pi_name p));
           ("position", PyStr (pi_position p));
           ("team", PyStr (pi_team p));
           ("projected_points", PyFloat (pi_projected_points p));
           ("bye_week", opt_int (pi_bye_week p));
           ("injury_status", opt_str (pi_injury_status p)) ].

Definition valid_positions : list string :=
  ["QB"; "RB"; "WR"; "TE"; "K"; "D/ST"; "DST"].

(** Handle DST vs D/ST naming (lines 123-124). *)
Definition normalize_position (position : pyval) : pyval :=
  if py_eq_str position "DST" then PyStr "D/ST" else position.

(** The test of line 132: the player is skipped. *)
Definition other_position (position : pyval) (player : Player) : bool :=
  py_truthy position &&
  match FantasyData.position player with
  | Some p => negb (py_eq_str position p)
  | None => false
  end.

(** Lines 142-154: only players with a meaningful weekly projection. *)
Definition meaningful (league : League) (player : Player) : bool :=
  negb (Qle_bool (weekly_projection league player) 2).

Definition waiver_info (league : League) (player : Player) : player_info :=
  {| pi_player_id := playerId player;
     pi_name := match name player with Some n => n | None => player_str player end;
     pi_position := match FantasyData.position player with Some p => p | None => "N/A" end;
     pi_team := match proTeam player with Some t => t | None => "N/A" end;
     pi_projected_points := weekly_projection league player;
     pi_bye_week := get_player_bye_week player;
     pi_injury_status := injuryStatus player |}.

(** The loop of lines 130-154. *)
Definition waiver_players (league : League) (position : pyval) : list player_info :=
  let fetch_size := if py_truthy position then 75 else 50 in
  map (waiver_info league)
      (filter (fun player => negb (other_position position player)
                             && meaningful league player)
              (free_agents league fetch_size)).

(** Line 157: sort by projected points for this week, highest first, and
    limit to the requested size. *)
Definition waiver_data (league : League) (position size : pyval)
  : result (list player_info) :=
  py_slice_to size
    (py_sorted (fun a b => Qle_bool b a) pi_projected_points
               (waiver_players league position)).

(** Lines 163-164: round projected points for cleaner output. *)
Definition round_points (p : player_info) : player_info :=
  {| pi_player_id := pi_player_id p;
     pi_name := pi_name p;
     pi_position := pi_position p;
     pi_team := pi_team p;
     pi_projected_points := py_round (pi_projected_points p) 1;
     pi_bye_week := pi_bye_week p;
     pi_injury_status := pi_injury_status p |}.

(** Tool-callable method for AI to get waiver wire data. *)
Definition get_waiver_wire_for_tool (league : League) (position size : pyval)
  : result pyval :=
  if py_truthy position && negb (py_in_strs position valid_positions) then
    Return (PyDict [("error",
      PyStr ("Invalid position: " ++ py_str position ++
             ". Valid positions are QB, RB, WR, TE, K, D/ST"))])
  else
    let position := normalize_position position in
    waiver_data <- waiver_data league position size ;;
    match waiver_data with
    | [] =>
        Return (PyDict [("message",
          PyStr (if py_truthy position
                 then "No available players found for position " ++ py_str position
                 else "No available players found"))])
    | _ =>
        let waiver_data := map round_points waiver_data in
        Return (PyDict
          [ ("position", if py_truthy position then position else PyStr "All");
            ("available_players", PyList (map player_info_dict waiver_data));
            ("count", PyInt (Z.of_nat (List.length waiver_data)));
            ("note", PyStr "Use get_player_stats tool with player_id for detailed analysis of any player") ])
    end.

(** *** get_team_details_for_tool *)

(** Calculate overall roster strength score. *)
Definition calculate_roster_strength (team : Team) : Q :=
  let roster := match roster team with Some r => r | None => [] end in
  let total_projected :=
    fold_left (fun total player =>
                 match projected_avg_points player with
                 | Some q => (total + q)%Q
                 | None => total
                 end) roster 0%Q in
  py_round total_projected 2.

(** The dict [player_info] of lines 283-291. *)
Record roster_info : Type := {
  ri_player_id : option Z;
  ri_name : string;
  ri_position : string;
  ri_lineup_slot : string;
  ri_projected_points : Q;
  ri_bye_week : option Z;
  ri_injury_status : option string
}.

Definition roster_info_dict (p : roster_info) : pyval :=
  PyDict [ ("player_id", opt_int (ri_player_id p));
           ("name", PyStr (ri_name p));
           ("position", PyStr (ri_position p));
           ("lineup_slot", PyStr (ri_lineup_slot p));
           ("projected_points", PyFloat (ri_projected_points p));
           ("bye_week", opt_int (ri_bye_week p));
           ("injury_status", opt_str (ri_injury_status p)) ].

Definition in_strs (s : string) (l : list string) : bool :=
  existsb (String.eqb s) l.

(** [l.index(s)] for an [s] that is in [l]. *)
Fixpoint index_of (s : string) (l : list string) : Z :=
  match l with
  | [] => 0
  | x :: l' => if String.eqb s x then 0 else 1 + index_of s l'
  end.

Definition lineup_slot_order : list string :=
  ["QB"; "RB"; "WR"; "TE"; "RB/WR/TE"; "K"; "D/ST"].

Definition roster_entry (league : League) (player : Player) : roster_info :=
  let proj_points := weekly_projection league player in
  let proj_points :=
    if Qeq_bool proj_points 0 then
      match projected_avg_points player with
      | Some q => q
      | None => proj_points
      end
    else proj_points in
  let lineup_slot := match lineupSlot player with Some s => s | None => "BE" end in
  let injury :=
    match injuryStatus player with
    | Some s => if String.eqb s "" then None else Some s
    | None => None
    end in
  {| ri_player_id := playerId player;
     ri_name := match name player with Some n => n | None => "Unknown" end;
     ri_position := match FantasyData.position player with Some p => p | None => "N/A" end;
     ri_lineup_slot := lineup_slot;
     ri_projected_points := py_round proj_points 1;
     ri_bye_week := get_player_bye_week player;
     ri_injury_status := injury |}.

(** Get structured roster summary with clean JSON format including
    player_ids. *)
Definition get_structured_roster_summary_with_ids (league : League) (team : Team)
  : pyval :=
  let roster := match roster team with Some r => r | None => [] end in
  let infos := map (roster_entry league) roster in
  let starters :=
    filter (fun p => negb (in_strs (ri_lineup_slot p) ["BE"; "IR"])) infos in
  let bench :=
    filter (fun p => in_strs (ri_lineup_slot p) ["BE"; "IR"]
                     && negb (in_strs (ri_lineup_slot p) ["IR"])) infos in
  let starters :=
    py_sorted Z.leb
      (fun x => if in_strs (ri_lineup_slot x) lineup_slot_order
                then index_of (ri_lineup_slot x) lineup_slot_order
                else 999)
      starters in
  let bench := py_sorted (fun a b => Qle_bool b a) ri_projected_points bench in
  PyDict [ ("starters", PyList (map roster_info_dict starters));
           ("bench", PyList (map roster_info_dict bench)) ].

(** Tool-callable method to get roster info for a specific team. *)
Definition get_team_details_for_tool (league : League) (team_id : pyval)
  : result pyval :=
  let target_team :=
    find (fun team =>
            match FantasyData.team_id team with
            | Some z => py_eq_int team_id z
            | None => false
            end) (teams league) in
  match target_team with
  | None =>
      Return (PyDict [("error",
        PyStr ("Team with ID '" ++ py_str team_id ++ "' not found"))])
  | Some target_team =>
      let roster_summary := get_structured_roster_summary_with_ids league target_team in
      Return (PyDict
        [ ("team_name", PyStr (team_name target_team));
          ("record", PyStr (string_of_Z (wins target_team) ++ "-" ++
                            string_of_Z (losses target_team)));
          ("points_for", PyFloat (points_for target_team));
          ("points_against",
             match points_against target_team with
             | Some q => PyFloat q
             | None => PyInt 0
             end);
          ("roster_strength", PyFloat (calculate_roster_strength target_team));
          ("lineup", roster_summary);
          ("note", PyStr "Use get_player_stats tool with player_id for detailed player analysis") ])
  end.

(** *** get_player_stats_for_tool *)

(** [round(d.get(key, 0), 1)]: the default is the int 0. *)
Definition round_or_zero (o : option Q) : pyval :=
  match o with
  | Some q => PyFloat (py_round q 1)
  | None => PyInt 0
  end.

Definition rb_wr_te_breakdown (breakdown : list (string * Q)) : pyval :=
  PyDict [ ("rushing_attempts", round_or_zero (assoc "rushingAttempts" breakdown));
           ("rushing_yards", round_or_zero (assoc "rushingYards" breakdown));
           ("rushing_tds", round_or_zero (assoc "rushingTouchdowns" breakdown));
           ("receiving_targets", round_or_zero (assoc "receivingTargets" breakdown));
           ("receiving_receptions", round_or_zero (assoc "receivingReceptions" breakdown));
           ("receiving_yards", round_or_zero (assoc "receivingYards" breakdown));
           ("receiving_tds", round_or_zero (assoc "receivingTouchdowns" breakdown)) ].

Definition qb_breakdown (breakdown : list (string * Q)) : pyval :=
  PyDict [ ("passing_attempts", round_or_zero (assoc "passingAttempts" breakdown));
           ("passing_completions", round_or_zero (assoc "passingCompletions" breakdown));
           ("passing_yards", round_or_zero (assoc "passingYards" breakdown));
           ("passing_tds", round_or_zero (assoc "passingTouchdowns" breakdown));
           ("rushing_attempts", round_or_zero (assoc "rushingAttempts" breakdown));
           ("rushing_yards", round_or_zero (assoc "rushingYards" breakdown)) ].

(** Lines 425-454: one week of the breakdown.  [player.position] is read
    without [hasattr] (line 436). *)
Definition weekly_data (player : Player) (stats : WeekStats) : result pyval :=
  let points := match ws_points stats with Some q => q | None => 0%Q end in
  let weekly_data :=
    [ ("projected_points", round_or_zero (ws_projected_points stats));
      ("actual_points", round_or_zero (ws_points stats));
      ("status", PyStr (if Qle_bool points 0 then "projected" else "completed")) ] in
  match ws_projected_breakdown stats with
  | None => Return (PyDict weekly_data)
  | Some breakdown =>
      match FantasyData.position player with
      | None => Raise (AttributeError "'Player' object has no attribute 'position'")
      | Some pos =>
          if in_strs pos ["RB"; "WR"; "TE"] then
            Return (PyDict (weekly_data ++ [("breakdown", rb_wr_te_breakdown breakdown)]))
          else if String.eqb pos "QB" then
            Return (PyDict (weekly_data ++ [("breakdown", qb_breakdown breakdown)]))
          else Return (PyDict weekly_data)
      end
  end.

(** Lines 418-459: the weekly breakdown, week 0 skipped, weeks in
    chronological order. *)
Definition weekly_stats (player : Player) : result pyval :=
  let weeks :=
    match stats player with
    | Some d => filter (fun ws => negb (fst ws =? 0)) d
    | None => []
    end in
  rows <- for_each (fun ws =>
                      data <- weekly_data player (snd ws) ;;
                      Return (fst ws, data)) weeks ;;
  Return (PyDict (map (fun row => (string_of_Z (fst row), snd row))
                      (py_sorted Z.leb fst rows))).

(** Lines 405-461: the player was found on [team]'s roster.  [player.name]
    is read without [hasattr] (line 408). *)
Definition player_stats (team : Team) (player : Player) : result pyval :=
  match name player with
  | None => Raise (AttributeError "'Player' object has no attribute 'name'")
  | Some player_name =>
      let bye_week := get_player_bye_week player in
      weekly_stats <- weekly_stats player ;;
      Return (PyDict
        [ ("player_id", opt_int (playerId player));
          ("name", PyStr player_name);
          ("position", PyStr (match FantasyData.position player with
                              | Some p => p | None => "N/A" end));
          ("team", PyStr (match proTeam player with Some t => t | None => "N/A" end));
          ("fantasy_team", PyStr (team_name team));
          ("projected_avg_points", round_or_zero (projected_avg_points player));
          ("bye_week", opt_int bye_week);
          ("injury_status", opt_str (injuryStatus player));
          ("weekly_stats", weekly_stats) ])
  end.

(** The test of line 403. *)
Definition has_player_id (player_id : pyval) (player : Player) : bool :=
  match playerId player with
  | Some z => py_eq_int player_id z
  | None => false
  end.

(** The players of all rosters with their teams, in the order in which the
    nested loops of lines 400-402 visit them. *)
Definition rostered (league : League) : list (Team * Player) :=
  flat_map (fun team =>
              map (pair team) (match roster team with Some r => r | None => [] end))
           (teams league).

(** Get detailed stats for a specific player by player_id. *)
Definition get_player_stats_for_tool (league : League) (player_id : pyval)
  : result pyval :=
  match find (fun tp => has_player_id player_id (snd tp)) (rostered league) with
  | Some (team, player) => player_stats team player
  | None =>
      Return (PyDict [("error",
        PyStr ("Player with ID '" ++ py_str player_id ++ "' not found"))])
  end.

(** *** identify_my_team *)

(** An element of [team.owners]: a dict (with its ['id'] when it has one),
    a string, or anything else. *)
Inductive owner_entry : Type :=
| OwnerDict (id : option string)
| OwnerStr (s : string)
| OwnerOther.

(** A team of [league.teams] with the attributes that [identify_my_team]
    reads beside those of [Team]: [owner] and [owners]. *)
Record Member : Type := {
  member_team : Team;
  owner : option string;
  owners : option (list owner_entry)
}.

(** What [int(input(...))] does at one prompt: a number is entered, the
    text entered is no number ([ValueError]), or the user interrupts
    ([KeyboardInterrupt]). *)
Inductive typed : Type :=
| Entered (z : Z)
| NotNumber
| Interrupted.

(** The lines that [identify_my_team] prints. *)
Inductive notice : Type :=
| CouldNotIdentify (swid : string)
| AvailableTeams
| TeamLine (i : Z) (team_name : string)
| InvalidSelection
| UsingFirstTeam.

(** How [identify_my_team] ends: with a team, with the [IndexError] of
    [league.teams[0]] on a league without teams, or with the [EOFError] of
    [input] when nothing more is typed. *)
Inductive identified : Type :=
| Identified (team : Member)
| IndexError
| EOFError.

(** Line 54 and lines 67, 72: remove braces and normalize case. *)
Definition normalize_swid (swid : string) : string :=
  py_upper (py_strip ["{"%char; "}"%char] swid).

(** Lines 64-75: some owner of the team has the target SWID. *)
Definition owner_matches (target_swid : string) (o : owner_entry) : bool :=
  match o with
  | OwnerDict (Some id) => String.eqb (normalize_swid id) target_swid
  | OwnerDict None => false
  | OwnerStr s => String.eqb (normalize_swid s) target_swid
  | OwnerOther => false
  end.

(** Lines 58-75: the team is the user's. *)
Definition is_mine (target_swid : string) (team : Member) : bool :=
  match owner team with
  | Some o => String.eqb o "You"
  | None => false
  end
  || match owners team with
     | Some os => existsb (owner_matches target_swid) os
     | None => false
     end.

(** Lines 84-95: let the user select their team. *)
Fixpoint select_team (teams : list Member) (inputs : list typed)
  : list notice * identified :=
  match inputs with
  | [] => ([], EOFError)
  | Entered z :: inputs' =>
      let selection := z - 1 in
      if (0 <=? selection) && (selection <? Z.of_nat (List.length teams)) then
        ([], match nth_error teams (Z.to_nat selection) with
             | Some team => Identified team
             | None => IndexError
             end)
      else
        let (notices, r) := select_team teams inputs' in
        (InvalidSelection :: notices, r)
  | NotNumber :: _ | Interrupted :: _ =>
      ([UsingFirstTeam],
       match teams with
       | team :: _ => Identified team
       | [] => IndexError
       end)
  end.

(** [enumerate(league.teams, 1)] in lines 80-81. *)
Fixpoint team_lines (i : Z) (teams : list Member) : list notice :=
  match teams with
  | [] => []
  | team :: teams' => TeamLine i (team_name (member_team team)) :: team_lines (i + 1) teams'
  end.

(** Identify user's team in the league.  [teams] is [league.teams];
    [inputs] is what is typed at the prompts. *)
Definition identify_my_team (teams : list Member) (swid : string)
           (inputs : list typed) : list notice * identified :=
  let target_swid := normalize_swid swid in
  match find (is_mine target_swid) teams with
  | Some my_team => ([], Identified my_team)
  | None =>
      let (notices, r) := select_team teams inputs in
      ((CouldNotIdentify swid :: AvailableTeams :: team_lines 1 teams ++ notices)%list, r)
  end.

(** *** get_lightweight_roster_summary *)

(** Lines 320-348: the lineup slot of a player and the line of text about
    him.  [player.name] is read without [hasattr]. *)
Definition player_summary (league : League) (player : Player) : result (string * string) :=
  let proj_points := weekly_projection league player in
  let proj_points :=
    if Qeq_bool proj_points 0 then
      match projected_avg_points player with
      | Some q => q
      | None => proj_points
      end
    else proj_points in
  let lineup_slot := match lineupSlot player with Some s => s | None => "BENCH" end in
  let injury :=
    match injuryStatus player with
    | Some s => if String.eqb s "" then None else Some s
    | None => None
    end in
  let bye_week := get_player_bye_week player in
  match name player with
  | None => Raise (AttributeError "'Player' object has no attribute 'name'")
  | Some player_name =>
      let text :=
        player_name ++ " (" ++
        match FantasyData.position player with Some p => p | None => "N/A" end ++
        ") - " ++ format_1f proj_points ++ "pts" in
      let player_summary :=
        if negb (in_strs lineup_slot ["BE"; "IR"])
        then lineup_slot ++ ": " ++ text
        else text in
      let player_summary :=
        match bye_week with
        | Some week =>
            if week =? 0 then player_summary
            else player_summary ++ " (Bye: W" ++ string_of_Z week ++ ")"
        | None => player_summary
        end in
      let player_summary :=
        match injury with
        | Some i => player_summary ++ " [" ++ i ++ "]"
        | None => player_summary
        end in
      Return (lineup_slot, player_summary)
  end.

(** Lines 316-354: the lines of the starters and of the bench. *)
Definition roster_lines (league : League) (team : Team)
  : result (list string * list string) :=
  let roster := match roster team with Some r => r | None => [] end in
  rows <- for_each (player_summary league) roster ;;
  let starters :=
    map snd (filter (fun row => negb (in_strs (fst row) ["BE"; "IR"])) rows) in
  let bench_highlights :=
    map snd (filter (fun row => in_strs (fst row) ["BE"; "IR"]
                                && negb (in_strs (fst row) ["IR"])) rows) in
  Return (starters, bench_highlights).

(** Get concise roster summary for initial prompt - minimal tokens. *)
Definition get_lightweight_roster_summary (league : League) (team : Team)
  : result string :=
  lines <- roster_lines league team ;;
  let (starters, bench_highlights) := lines in
  let summary := "STARTERS:" ++ newline ++ join_with newline starters in
  Return match bench_highlights with
         | [] => summary
         | _ => summary ++ newline ++ newline ++ "BENCH:" ++ newline ++
                join_with newline bench_highlights
         end.

(** *** get_minimal_league_standings *)

(** The dict of lines 367-372. *)
Record standing : Type := {
  st_team_id : option Z;
  st_name : string;
  st_record : string;
  st_pts : Q
}.

Definition standing_of (team : Team) : standing :=
  {| st_team_id := team_id team;
     st_name := team_name team;
     st_record := string_of_Z (wins team) ++ "-" ++ string_of_Z (losses team);
     st_pts := py_round (points_for team) 1 |}.

(** The sort key of line 375, [(int(x['record'].split('-')[0]), x['pts'])];
    [None] when [int] raises [ValueError]. *)
Definition standing_key (x : standing) : option (Z * Q) :=
  match py_int (first_field "-"%char (st_record x)) with
  | Some w => Some (w, st_pts x)
  | None => None
  end.

Fixpoint keyed (l : list standing) : option (list ((Z * Q) * standing)) :=
  match l with
  | [] => Some []
  | x :: l' =>
      match standing_key x, keyed l' with
      | Some k, Some kl => Some ((k, x) :: kl)
      | _, _ => None
      end
  end.

(** [b <= a] on the keys, as tuples compare: what [reverse=True] needs for
    [a] to stay in front of [b]. *)
Definition key_ge (a b : Z * Q) : bool :=
  (fst b <? fst a) || ((fst b =? fst a) && Qle_bool (snd b) (snd a)).

(** Lines 365-375: the standings, sorted by wins, then by points. *)
Definition ranked_standings (league : League) : option (list standing) :=
  match keyed (map standing_of (teams league)) with
  | Some kl => Some (map snd (py_sorted key_ge fst kl))
  | None => None
  end.

(** Line 380-381: one line of the text. *)
Definition standing_line (i : Z) (team : standing) : string :=
  let team_id_text :=
    match st_team_id team with
    | Some id => if id =? 0 then "" else " (team_id: " ++ string_of_Z id ++ ")"
    | None => ""
    end in
  string_of_Z i ++ ". " ++ st_name team ++ " (" ++ st_record team ++ ") - " ++
  float_repr (st_pts team) ++ "pts" ++ team_id_text.

(** [enumerate(standings, 1)] in lines 379-381. *)
Fixpoint standing_lines (i : Z) (standings : list standing) : list string :=
  match standings with
  | [] => []
  | team :: rest => standing_line i team :: standing_lines (i + 1) rest
  end.

(** Get minimal league standings for prompt - just names, records, ranks;
    [None] when the sort key raises [ValueError]. *)
Definition get_minimal_league_standings (league : League) : option string :=
  match ranked_standings league with
  | Some standings => Some (join_with newline (standing_lines 1 standings))
  | None => None
  end.

End FantasyData.

(** ** The model host's protocol (the Responses API, as [src/main.py] reads
    and writes it) *)

(** [json.dumps(v)]: the text that serialises [v].  The text is kept as
    the value it serialises. *)
Inductive json : Type :=
| json_dumps (v : pyval).

Record content_item : Type := {
  content_type : option string;
  content_text : option string
}.

(** A tool-call request: a [function_call] item.  Each attribute is read
    behind [hasattr] (lines 254-262). *)
Record tool_call : Type := {
  tc_name : option string;
  tc_arguments : option string;
  tc_call_id : option string
}.

(** An item of [response.output], by its [type]. *)
Inductive item : Type :=
| web_search_call (query : option string)
| function_call (call : tool_call)
| message (content : option (list content_item))
| other_item.

Record Response : Type := {
  id : string;
  usage : option (Z * Z);
  output : list item;
  output_text : option string
}.

(** A tool-call result (lines 299-303). *)
Record function_call_output : Type := {
  fco_type : string;
  fco_call_id : option string;
  fco_output : json
}.

Inductive request_input : Type :=
| Prompt (text : string)
| Outputs (function_call_outputs : list function_call_output).

Record Request : Type := {
  model : string;
  instructions : string;
  previous_response_id : option string;
  input : request_input;
  tools : list string
}.

(** *** What the run does to the outside, in order *)

(** The lines that [analyze_with_openai] prints. *)
Inductive line : Type :=
| StartingAnalysis
| TokenUsage (input_tokens output_tokens : Z)
| ToolCall (tool_name : string)
| Query (query : string)
| WebSearchExecuted
| Parameters (tool_args : json)
| FoundPlayers (count : Z)
| RetrievedTeam (team_name : pyval)
| RetrievedStats (player_name : pyval)
| Error (error : pyval)
| AnalysisComplete.

Inductive event : Type :=
| Print (l : line)
(** A handler is called: a read-only query of the league data. *)
| Invoke (tool_name : string) (call_id : option string) (args : list pyval)
(** One call of [openai_client.responses.create]. *)
| Create (r : Request)
(** The retry wrapper waits. *)
| Sleep (seconds : Q).

(** The outside of a run: what the host answers to its [n]-th call, and the
    random number in [0, 1] drawn for the wait after that call. *)
Record world : Type := {
  host : nat -> Request -> result Response;
  uniform : nat -> Q
}.

(** Code that prints and may raise. *)
Definition logged (A : Type) : Type := (list event * result A)%type.

Definition lret {A} (a : A) : logged A := ([], Return a).

Definition lbind {A B} (m : logged A) (k : A -> logged B) : logged B :=
  match m with
  | (ev, Return a) => let (ev', r) := k a in ((ev ++ ev')%list, r)
  | (ev, Raise e) => (ev, Raise e)
  end.

Definition print (l : line) : logged unit := ([Print l], Return tt).

Definition lift {A} (r : result A) : logged A := ([], r).

(** Code that also calls the host: it starts after [n] calls and says how
    many were made when it stops. *)
Definition io (A : Type) : Type := nat -> (list event * nat * result A)%type.

Definition ret {A} (a : A) : io A := fun n => ([], n, Return a).

Definition iobind {A B} (m : io A) (k : A -> io B) : io B :=
  fun n =>
    match m n with
    | (ev, n', Return a) =>
        match k a n' with
        | (ev', n'', r) => ((ev ++ ev')%list, n'', r)
        end
    | (ev, n', Raise e) => (ev, n', Raise e)
    end.

Definition run_logged {A} (m : logged A) : io A :=
  fun n => (fst m, n, snd m).

Declare Scope logged_scope.
Declare Scope io_scope.
Delimit Scope logged_scope with logged.
Delimit Scope io_scope with io.
Notation "x <- c ;; k" := (lbind c (fun x => k))
  (at level 61, c at next level, right associativity) : logged_scope.
Notation "c ;; k" := (lbind c (fun _ => k))
  (at level 61, right associativity) : logged_scope.
Notation "x <- c ;; k" := (iobind c (fun x => k))
  (at level 61, c at next level, right associativity) : io_scope.
Notation "c ;; k" := (iobind c (fun _ => k))
  (at level 61, right associativity) : io_scope.

(** ** The retry decorator *)

Module Tenacity.

(** Modelled from the spec: the backoff of the retry decorator that
    [src/main.py] imports from the [tenacity] package, which is not under
    [src/]: exponential in the attempt number, bounded by a floor [min] and
    a ceiling [max] ([wait_exponential(multiplier=1, exp_base=2)]). *)
Definition wait_exponential (min max : Q) (attempt_number : nat) : Q :=
  Qmax (Qmax 0 min)
       (Qmin (inject_Z (2 ^ Z.of_nat (attempt_number - 1))) max).

(** Modelled from the spec: the randomized wait of the same decorator
    ([wait_random_exponential(min, max)]), drawn between the floor and the
    backoff: [random.uniform(min, high)] with [u] the number drawn in
    [0, 1]. *)
Definition wait_random_exponential (min max : Q) (attempt_number : nat) (u : Q) : Q :=
  let high := wait_exponential min max attempt_number in
  (min + u * (high - min))%Q.

Section Retry.
Context {A : Type}.
Variable wait : nat -> Q -> Q.
Variable stop_after_attempt : nat.
Variable reraise : bool.
Variable w : world.
Variable fn : io A.

(** Modelled from the spec: the retry loop of the same decorator.  The
    spec's policy: a fixed maximum number of attempts; a retry on any
    exception of the wrapped call; a wait between attempts; once the
    attempts are used up, the last exception goes to the caller, inside a
    [RetryError] unless [reraise] is set (as the package does).  This is
    attempt number [attempt_number], with [remaining] more allowed. *)
Fixpoint attempt (remaining attempt_number : nat) : io A :=
  fun n =>
    match fn n with
    | (ev, n', Return a) => (ev, n', Return a)
    | (ev, n', Raise e) =>
        match remaining with
        | O => (ev, n', Raise (if reraise then e else RetryError e))
        | S remaining' =>
            let seconds := wait attempt_number (uniform w n) in
            match attempt remaining' (S attempt_number) n' with
            | (ev', n'', r) => ((ev ++ Sleep seconds :: ev')%list, n'', r)
            end
        end
    end.

Definition retry : io A := attempt (stop_after_attempt - 1) 1.
End Retry.

End Tenacity.

(** ** [src/main.py] *)

Module Main.

Section Analyze.
(** [json.loads]: [None] when it raises. *)
Variable json_loads : string -> option pyval.
Variable league : FantasyData.League.
(** The text of lines 118-148. *)
Variable instructions_text : string.
Variable w : world.

Definition declared_tools : list string :=
  ["web_search"; "get_waiver_wire"; "get_team_details"; "get_player_stats"].

Definition create (r : Request) : io Response :=
  fun n => ([Create r], S n, host w n r).

(** Lines 206-209: the completion function with exponential backoff. *)
Definition responses_with_backoff (r : Request) : io Response :=
  Tenacity.retry (Tenacity.wait_random_exponential 1 60) 6 false w (create r).

(** Lines 231-245: the function calls that need our handling (not web
    search). *)
Fixpoint scan_output (output : list item) : logged (list tool_call) :=
  match output with
  | [] => lret []
  | web_search_call query :: output' =>
      (print (ToolCall "web_search") ;;
       match query with
       | Some q => print (Query q)
       | None => lret tt
       end ;;
       print WebSearchExecuted ;;
       scan_output output')%logged
  | function_call call :: output' =>
      (function_calls_to_execute <- scan_output output' ;;
       lret (call :: function_calls_to_execute))%logged
  | _ :: output' => scan_output output'
  end.

(** Lines 255-261: parse JSON arguments if they're in string format. *)
Definition parse_arguments (call : tool_call) : pyval :=
  match tc_arguments call with
  | Some arguments =>
      match json_loads arguments with
      | Some tool_args => tool_args
      | None => PyDict []
      end
  | None => PyDict []
  end.

(** Lines 269-295: execute the appropriate tool; [None] when no branch
    assigns [result]. *)
Definition execute_tool (tool_name : string) (tool_call_id : option string)
           (tool_args : pyval) : logged (option pyval) :=
  if String.eqb tool_name "get_waiver_wire" then
    (position <- lift (py_get tool_args "position" PyNone) ;;
     size <- lift (py_get tool_args "size" (PyInt 3)) ;;
     result <- (([Invoke tool_name tool_call_id [position; size]],
                 FantasyData.get_waiver_wire_for_tool league position size)
                : logged pyval) ;;
     (if py_has_key result "available_players"
      then print (FoundPlayers (py_len (py_item result "available_players")))
      else lret tt) ;;
     lret (Some result))%logged
  else if String.eqb tool_name "get_team_details" then
    (team_id <- lift (py_get tool_args "team_id" PyNone) ;;
     result <- (([Invoke tool_name tool_call_id [team_id]],
                 FantasyData.get_team_details_for_tool league team_id)
                : logged pyval) ;;
     (if py_has_key result "team_name"
      then print (RetrievedTeam (py_item result "team_name"))
      else if py_has_key result "error"
      then print (Error (py_item result "error"))
      else lret tt) ;;
     lret (Some result))%logged
  else if String.eqb tool_name "get_player_stats" then
    (player_id <- lift (py_get tool_args "player_id" PyNone) ;;
     result <- (([Invoke tool_name tool_call_id [player_id]],
                 FantasyData.get_player_stats_for_tool league player_id)
                : logged pyval) ;;
     (if py_has_key result "name"
      then print (RetrievedStats (py_item result "name"))
      else if py_has_key result "error"
      then print (Error (py_item result "error"))
      else lret tt) ;;
     lret (Some result))%logged
  else lret None.

(** Lines 254-303: the body of the loop over the collected calls; the
    outputs so far come in and go out. *)
Definition dispatch (call : tool_call)
           (function_call_outputs : list function_call_output)
  : logged (list function_call_output) :=
  let tool_args := parse_arguments call in
  let tool_call_id := tc_call_id call in
  match tc_name call with
  | Some tool_name =>
      if String.eqb tool_name "" then lret function_call_outputs
      else
        (print (ToolCall tool_name) ;;
         (if py_truthy tool_args
          then print (Parameters (json_dumps tool_args))
          else lret tt) ;;
         result <- execute_tool tool_name tool_call_id tool_args ;;
         match result with
         | Some result =>
             lret (function_call_outputs ++
                   [ {| fco_type := "function_call_output";
                        fco_call_id := tool_call_id;
                        fco_output := json_dumps result |} ])%list
         | None => lret function_call_outputs
         end)%logged
  | None => lret function_call_outputs
  end.

(** Lines 252-303: execute function calls and collect results for this
    iteration. *)
Fixpoint execute_function_calls (function_calls_to_execute : list tool_call)
         (function_call_outputs : list function_call_output)
  : logged (list function_call_output) :=
  match function_calls_to_execute with
  | [] => lret function_call_outputs
  | call :: rest =>
      (function_call_outputs <- dispatch call function_call_outputs ;;
       execute_function_calls rest function_call_outputs)%logged
  end.

Definition continuation (previous : Response)
           (function_call_outputs : list function_call_output) : Request :=
  {| model := "gpt-5";
     instructions := instructions_text;
     previous_response_id := Some (id previous);
     input := Outputs function_call_outputs;
     tools := declared_tools |}.

(** Lines 225-317: loop until no more function calls are needed.  The
    source loop has no bound; [fuel] counts the turns allowed, and [None]
    says that they ran out. *)
Fixpoint conversation (fuel : nat) (response : Response) : io (option Response) :=
  match fuel with
  | O => ret None
  | S fuel' =>
      (run_logged match usage response with
                  | Some (i, o) => print (TokenUsage i o)
                  | None => lret tt
                  end ;;
       function_calls_to_execute <- run_logged (scan_output (output response)) ;;
       match function_calls_to_execute with
       | [] => ret (Some response)
       | _ =>
           function_call_outputs <-
             run_logged (execute_function_calls function_calls_to_execute []) ;;
           response <- responses_with_backoff
                         (continuation response function_call_outputs) ;;
           conversation fuel' response
       end)%io
  end.

(** Lines 325-334: text from message content in the output array. *)
Definition message_text (it : item) : string :=
  match it with
  | message (Some content) =>
      String.concat ""
        (map (fun c =>
                match content_type c, content_text c with
                | Some t, Some text => if String.eqb t "output_text" then text else ""
                | _, _ => ""
                end) content)
  | _ => ""
  end.

(** Lines 321-336: extract text output, the SDK convenience property
    first. *)
Definition final_text (response : Response) : string :=
  match output_text response with
  | Some text =>
      if negb (String.eqb text "") then text
      else
        let final_text := String.concat "" (map message_text (output response)) in
        if String.eqb final_text "" then "Analysis complete." else final_text
  | None =>
      let final_text := String.concat "" (map message_text (output response)) in
      if String.eqb final_text "" then "Analysis complete." else final_text
  end.

(** Use OpenAI to analyze roster and provide recommendations.  [prompt]
    is what [build_prompt(league, my_team)] returned (line 115). *)
Definition analyze_with_openai (fuel : nat) (prompt : string) : io (option string) :=
  (run_logged (print StartingAnalysis) ;;
   response <- responses_with_backoff
                 {| model := "gpt-5";
                    instructions := instructions_text;
                    previous_response_id := None;
                    input := Prompt prompt;
                    tools := declared_tools |} ;;
   last <- conversation fuel response ;;
   match last with
   | Some response =>
       run_logged (print AnalysisComplete) ;;
       ret (Some (final_text response))
   | None => ret None
   end)%io.

End Analyze.

End Main.

(** ** A reader for a fragment of JSON

    [json.loads] is a parameter of [Main]; the theorems hold for every
    reader.  The examples need one to run: this one reads objects, arrays,
    strings without escapes, integers, [true], [false] and [null], and
    refuses everything else.  It is used on such documents only. *)

Module JsonLite.

Definition dquote : string := String (ascii_of_nat 34) "".

(** The JSON text of a string without escapes. *)
Definition quoted (s : string) : string := dquote ++ s ++ dquote.

Definition is_ws (c : ascii) : bool :=
  let n := nat_of_ascii c in
  ((n =? 32) || (n =? 9) || (n =? 10) || (n =? 13))%nat.

Definition is_digit (c : ascii) : bool :=
  let n := nat_of_ascii c in ((48 <=? n) && (n <=? 57))%nat.

Fixpoint skip_ws (s : string) : string :=
  match s with
  | String c s' => if is_ws c then skip_ws s' else s
  | EmptyString => s
  end.

(** The digits at the head of [s], most significant first, and the rest. *)
Fixpoint read_digits (s : string) : list Z * string :=
  match s with
  | String c s' =>
      if is_digit c then
        let (ds, rest) := read_digits s' in
        (Z.of_nat (nat_of_ascii c - 48) :: ds, rest)
      else ([], s)
  | EmptyString => ([], s)
  end.

Definition starts_number_tail (s : string) : bool :=
  match s with
  | String c _ =>
      let n := nat_of_ascii c in ((n =? 46) || (n =? 101) || (n =? 69))%nat
  | EmptyString => false
  end.

(** An integer literal: no leading zero, no fraction, no exponent. *)
Definition read_nat_literal (s : string) : option (Z * string) :=
  match read_digits s with
  | ([], _) => None
  | (0 :: _ :: _, _) => None
  | (ds, rest) =>
      if starts_number_tail rest then None
      else Some (fold_left (fun acc d => 10 * acc + d) ds 0, rest)
  end.

(** The characters up to the closing quote. *)
Fixpoint read_string (s : string) : option (string * string) :=
  match s with
  | EmptyString => None
  | String c s' =>
      let n := nat_of_ascii c in
      if (n =? 34)%nat then Some ("", s')
      else if ((n =? 92) || (n <? 32))%nat then None
      else
        match read_string s' with
        | Some (t, rest) => Some (String c t, rest)
        | None => None
        end
  end.

Fixpoint strip_prefix (p s : string) : option string :=
  match p, s with
  | EmptyString, _ => Some s
  | String a p', String b s' => if Ascii.eqb a b then strip_prefix p' s' else None
  | String _ _, EmptyString => None
  end.

(** [d[k] = v] on an insertion-ordered dict. *)
Fixpoint dict_set (k : string) (v : pyval) (d : list (string * pyval))
  : list (string * pyval) :=
  match d with
  | [] => [(k, v)]
  | (k', v') :: d' =>
      if String.eqb k k' then (k, v) :: d' else (k', v') :: dict_set k v d'
  end.

Definition head_is (n : nat) (s : string) : option string :=
  match s with
  | String c s' => if (nat_of_ascii c =? n)%nat then Some s' else None
  | EmptyString => None
  end.

Fixpoint read_value (fuel : nat) (s : string) : option (pyval * string) :=
  match fuel with
  | O => None
  | S fuel' =>
      let s := skip_ws s in
      match head_is 123 s, head_is 91 s, head_is 34 s, head_is 45 s with
      | Some s', _, _, _ =>
          match head_is 125 (skip_ws s') with
          | Some rest => Some (PyDict [], rest)
          | None => read_members fuel' s' []
          end
      | _, Some s', _, _ =>
          match head_is 93 (skip_ws s') with
          | Some rest => Some (PyList [], rest)
          | None => read_elements fuel' s' []
          end
      | _, _, Some s', _ =>
          match read_string s' with
          | Some (t, rest) => Some (PyStr t, rest)
          | None => None
          end
      | _, _, _, Some s' =>
          match read_nat_literal s' with
          | Some (z, rest) => Some (PyInt (- z), rest)
          | None => None
          end
      | None, None, None, None =>
          match strip_prefix "true" s, strip_prefix "false" s, strip_prefix "null" s with
          | Some rest, _, _ => Some (PyBool true, rest)
          | _, Some rest, _ => Some (PyBool false, rest)
          | _, _, Some rest => Some (PyNone, rest)
          | None, None, None =>
              match read_nat_literal s with
              | Some (z, rest) => Some (PyInt z, rest)
              | None => None
              end
          end
      end
  end

with read_elements (fuel : nat) (s : string) (acc : list pyval)
  : option (pyval * string) :=
  match fuel with
  | O => None
  | S fuel' =>
      match read_value fuel' s with
      | Some (v, rest) =>
          let rest := skip_ws rest in
          match head_is 44 rest, head_is 93 rest with
          | Some rest', _ => read_elements fuel' rest' (acc ++ [v])
          | _, Some rest' => Some (PyList (acc ++ [v]), rest')
          | None, None => None
          end
      | None => None
      end
  end

with read_members (fuel : nat) (s : string) (acc : list (string * pyval))
  : option (pyval * string) :=
  match fuel with
  | O => None
  | S fuel' =>
      match head_is 34 (skip_ws s) with
      | Some s1 =>
          match read_string s1 with
          | Some (k, s2) =>
              match head_is 58 (skip_ws s2) with
              | Some s3 =>
                  match read_value fuel' s3 with
                  | Some (v, rest) =>
                      let rest := skip_ws rest in
                      match head_is 44 rest, head_is 125 rest with
                      | Some rest', _ => read_members fuel' rest' (dict_set k v acc)
                      | _, Some rest' => Some (PyDict (dict_set k v acc), rest')
                      | None, None => None
                      end
                  | None => None
                  end
              | None => None
              end
          | None => None
          end
      | None => None
      end
  end.

Definition json_loads (s : string) : option pyval :=
  match read_value (S (String.length s)) s with
  | Some (v, rest) =>
      match skip_ws rest with
      | EmptyString => Some v
      | _ => None
      end
  | None => None
  end.

End JsonLite.

(** ** A small league and some host behaviours, for the examples *)

Module Sample.
Import FantasyData.

Definition week_of (projected : option Q) (points : option Q) : WeekStats :=
  {| ws_projected_points := projected;
     ws_points := points;
     ws_projected_breakdown := None |}.

(** A player with a projection for week 3 when [projected] is given. *)
Definition a_player (pid : Z) (nm pos pro : string) (slot : option string)
           (projected : option Q) : Player :=
  {| playerId := Some pid;
     name := Some nm;
     position := Some pos;
     proTeam := Some pro;
     stats := Some match projected with
                   | Some q => [(3, week_of (Some q) None)]
                   | None => [(2, week_of (Some 9%Q) (Some 11%Q))]
                   end;
     projected_avg_points := None;
     lineupSlot := slot;
     injuryStatus := None;
     player_str := "Player(" ++ nm ++ ")" |}.

Definition quarterback : Player :=
  a_player 101 "Quinn Ball" "QB" "KC" (Some "QB") (Some (187 # 10)).
Definition runner : Player :=
  a_player 102 "Rex Dash" "RB" "SF" (Some "RB") (Some (121 # 10)).
Definition reserve : Player :=
  a_player 201 "Ben Chair" "WR" "DAL" (Some "BE") (Some (64 # 10)).

Definition free_wr : Player :=
  a_player 301 "Will Catch" "WR" "MIA" None (Some 10%Q).
Definition free_rb : Player :=
  a_player 302 "Rob Carry" "RB" "NYJ" None (Some (846 # 100)).
Definition free_qb : Player :=
  a_player 303 "Cal Throw" "QB" "DEN" None (Some (525 # 100)).
Definition free_unprojected : Player :=
  a_player 304 "Ned Idle" "WR" "CHI" None None.
Definition free_low : Player :=
  a_player 305 "Lou Small" "TE" "TB" None (Some (3 # 2)).

Definition home : Team :=
  {| team_id := Some 1; team_name := "Home Side"; wins := 2; losses := 0;
     points_for := 2405 # 10; points_against := Some (1989 # 10);
     roster := Some [quarterback; runner] |}.
Definition away : Team :=
  {| team_id := Some 2; team_name := "Away Side"; wins := 0; losses := 2;
     points_for := 1801 # 10; points_against := None;
     roster := Some [reserve] |}.

Definition league : League :=
  {| teams := [home; away];
     current_week := 3;
     free_agents := fun size =>
       firstn (Z.to_nat size)
              [free_low; free_qb; free_unprojected; free_wr; free_rb] |}.

Definition a_call (nm cid : string) (arguments : string) : tool_call :=
  {| tc_name := Some nm; tc_call_id := Some cid; tc_arguments := Some arguments |}.

Definition a_response (rid : string) (items : list item) (text : option string)
  : Response :=
  {| id := rid; usage := None; output := items; output_text := text |}.

Definition said (text : string) : item :=
  message (Some [ {| content_type := Some "output_text";
                     content_text := Some text |} ]).

(** A host that answers its first call with [first] and every later call
    with [later]. *)
Definition two_step_host (first later : Response) : world :=
  {| host := fun n _ => match n with O => Return first | S _ => Return later end;
     uniform := fun _ => 1 # 2 |}.

(** A host whose first [failures] calls raise and whose later calls
    answer [answer]. *)
Definition flaky_host (failures : nat) (answer : Response) : world :=
  {| host := fun n _ =>
       if (n <? failures)%nat then Raise (HostError "connection reset")
       else Return answer;
     uniform := fun n => Z.of_nat (n mod 9) # 8 |}.

(** The JSON text [{key: value}] for a value already in JSON. *)
Definition object1 (key value : string) : string :=
  "{" ++ JsonLite.quoted key ++ ": " ++ value ++ "}".

(** Requests: for a tool that does not exist, for the statistics of the
    free agent 301, for the waiver wire with a size that is not a number,
    with arguments that are not JSON, and with an array as arguments. *)
Definition unknown_call : tool_call := a_call "does_not_exist" "call_1" "{}".
Definition stats_call : tool_call :=
  a_call "get_player_stats" "call_2" (object1 "player_id" "301").
Definition waiver_call : tool_call :=
  a_call "get_waiver_wire" "call_3" (object1 "position" (JsonLite.quoted "RB")).
Definition bad_size_call : tool_call :=
  a_call "get_waiver_wire" "call_4" (object1 "size" (JsonLite.quoted "ten")).
Definition malformed_call : tool_call :=
  a_call "get_waiver_wire" "call_5" "{position: RB".
Definition array_call : tool_call :=
  a_call "get_team_details" "call_6" "[1]".

Definition instructions_text : string :=
  "You are an expert fantasy football analyst with deep NFL knowledge.".

Definition the_end : Response := a_response "resp_2" [said "done"] None.

(** A response after two web searches, with its text in a message item;
    and one with neither text nor message. *)
Definition searched : Response :=
  a_response "resp_1" [web_search_call (Some "week 3 injuries");
                       web_search_call None;
                       said "Start "; said "Quinn."] None.
Definition silent : Response :=
  a_response "resp_1" [web_search_call (Some "week 3 weather"); other_item] None.

(** Responses that ask for one tool call each. *)
Definition asks_unknown : Response :=
  a_response "resp_1" [web_search_call (Some "week 3 injuries");
                       function_call unknown_call] None.
Definition asks_bad_size : Response :=
  a_response "resp_1" [function_call bad_size_call] None.

Definition analyze (w : world) : io (option string) :=
  Main.analyze_with_openai JsonLite.json_loads league instructions_text w 8
                           "Analyze this fantasy football team".

(** More players, for the further properties: one on injured reserve, one
    without a lineup slot, one without a name, one with several weeks of
    statistics (week 0 among them). *)
Definition on_reserve : Player :=
  a_player 103 "Ian Hurt" "WR" "BUF" (Some "IR") (Some (44 # 10)).
Definition kicker : Player :=
  a_player 104 "Kim Boot" "K" "GB" (Some "K") (Some (71 # 10)).
Definition unslotted : Player :=
  a_player 105 "Uma Loose" "TE" "LV" None (Some (58 # 10)).
Definition nameless : Player :=
  {| playerId := Some 106; name := None; position := Some "RB"; proTeam := Some "FA";
     stats := None; projected_avg_points := Some (21 # 10); lineupSlot := Some "BE";
     injuryStatus := Some "QUESTIONABLE"; player_str := "Player(?)" |}.
Definition veteran : Player :=
  {| playerId := Some 107; name := Some "Vic Long"; position := Some "QB";
     proTeam := Some "PHI";
     stats := Some [ (2, week_of (Some (161 # 10)) (Some (204 # 10)));
                     (0, week_of (Some 250%Q) (Some 265%Q));
                     (1, week_of (Some (155 # 10)) (Some (98 # 10)));
                     (3, week_of (Some (172 # 10)) None) ];
     projected_avg_points := Some (163 # 10); lineupSlot := Some "BE";
     injuryStatus := None; player_str := "Player(Vic Long)" |}.

Definition deep : Team :=
  {| team_id := Some 3; team_name := "Deep Bench"; wins := 1; losses := 1;
     points_for := 2102 # 10; points_against := Some (2050 # 10);
     roster := Some [reserve; kicker; on_reserve; unslotted; quarterback; veteran] |}.
Definition careless : Team :=
  {| team_id := Some 0; team_name := "No Names"; wins := 1; losses := 1;
     points_for := 2204 # 10; points_against := None;
     roster := Some [runner; nameless] |}.

Definition big_league : League :=
  {| teams := [home; away; deep; careless];
     current_week := 3;
     free_agents := fun _ => [] |}.

(** The teams of [league] with their owners. *)
Definition members : list FantasyData.Member :=
  [ {| member_team := home; owner := None;
       owners := Some [OwnerDict (Some "{1111aaaa-22bb}")] |};
    {| member_team := away; owner := None;
       owners := Some [OwnerOther; OwnerStr "{3333cccc-44dd}"] |};
    {| member_team := deep; owner := None; owners := None |} ].

End Sample.

(** ** Notions used in the statements *)

(** Descending order of a rational key, as [reverse=True] gives it. *)
Definition descending {A} (key : A -> Q) : list A -> Prop :=
  StronglySorted (fun a b => key b <= key a)%Q.

(** The current week's projection of a player, when the provider gives
    one. *)
Definition current_projection (league : FantasyData.League)
           (player : FantasyData.Player) : option Q :=
  match FantasyData.stats player with
  | Some d =>
      match assocZ (FantasyData.current_week league) d with
      | Some w => FantasyData.ws_projected_points w
      | None => None
      end
  | None => None
  end.

(** The number of free agents that [get_waiver_wire_for_tool] asks the
    provider for. *)
Definition fetch_size (position : pyval) : Z :=
  if py_truthy position then 75 else 50.

(** Some player on some team's roster has this [player_id]. *)
Definition on_a_roster (league : FantasyData.League) (player_id : pyval) : Prop :=
  exists tp, In tp (FantasyData.rostered league) /\
             FantasyData.has_player_id player_id (snd tp) = true.

(** What the provider means by a free agent: a player on no roster. *)
Definition free_agents_unrostered (league : FantasyData.League) : Prop :=
  forall n fa, In fa (FantasyData.free_agents league n) ->
               ~ on_a_roster league (opt_int (FantasyData.playerId fa)).

(** The payload of line 463: the player was not found. *)
Definition player_not_found (player_id : pyval) : pyval :=
  PyDict [("error", PyStr ("Player with ID '" ++ py_str player_id ++ "' not found"))].

(** The tools that [analyze_with_openai] has a branch for. *)
Definition registered_tools : list string :=
  ["get_waiver_wire"; "get_team_details"; "get_player_stats"].

Definition has_local_handler (call : tool_call) : bool :=
  match tc_name call with
  | Some tool_name => existsb (String.eqb tool_name) registered_tools
  | None => false
  end.

(** The tool-call requests of an output sequence, in its order. *)
Definition function_calls_of (output : list item) : list tool_call :=
  flat_map (fun it => match it with function_call call => [call] | _ => [] end)
           output.

(** A result that answers a request. *)
Definition answers (call : tool_call) (out : function_call_output) : Prop :=
  fco_type out = "function_call_output" /\ fco_call_id out = tc_call_id call.

Definition is_print (e : event) : Prop :=
  match e with Print _ => True | _ => False end.

(** The handler calls of a trace: tool name and call id, in order. *)
Definition invocations (ev : list event) : list (string * option string) :=
  flat_map (fun e => match e with
                     | Invoke tool_name call_id _ => [(tool_name, call_id)]
                     | _ => []
                     end) ev.

(** The calls of the host in a trace. *)
Definition creates (ev : list event) : list Request :=
  flat_map (fun e => match e with Create r => [r] | _ => [] end) ev.

Definition invocation_of (call : tool_call) : string * option string :=
  (match tc_name call with Some n => n | None => "" end, tc_call_id call).

(** [d.get(key, default)] on the entries of a dict. *)
Definition dict_get (d : list (string * pyval)) (k : string) (default : pyval) : pyval :=
  match assoc k d with Some x => x | None => default end.

(** What the handler that serves a request does on the parameters taken
    from the arguments [d]: the value it returns or the exception it
    raises. *)
Inductive handler_outcome (league : FantasyData.League)
  : option string -> list (string * pyval) -> result pyval -> Prop :=
| waiver_wire_outcome d :
    handler_outcome league (Some "get_waiver_wire") d
      (FantasyData.get_waiver_wire_for_tool
         league (dict_get d "position" PyNone) (dict_get d "size" (PyInt 3)))
| team_details_outcome d :
    handler_outcome league (Some "get_team_details") d
      (FantasyData.get_team_details_for_tool league (dict_get d "team_id" PyNone))
| player_stats_outcome d :
    handler_outcome league (Some "get_player_stats") d
      (FantasyData.get_player_stats_for_tool league (dict_get d "player_id" PyNone)).

(** The text fragments of the message items of an output sequence, in
    order. *)
Definition text_fragments (output : list item) : list string :=
  flat_map (fun it =>
              match it with
              | message (Some content) =>
                  flat_map (fun c =>
                              match content_type c, content_text c with
                              | Some t, Some text =>
                                  if String.eqb t "output_text" then [text] else []
                              | _, _ => []
                              end) content
              | _ => []
              end) output.

(** The line that a round prints about the tokens used, if any. *)
Definition usage_events (response : Response) : list event :=
  match usage response with
  | Some (i, o) => [Print (TokenUsage i o)]
  | None => []
  end.

(** The waits of a trace, in order. *)
Definition sleeps (ev : list event) : list Q :=
  flat_map (fun e => match e with Sleep d => [d] | _ => [] end) ev.

(** An event that stays on this side: a line printed or a handler called,
    not a call of the host and not a wait. *)
Definition is_local (e : event) : Prop :=
  match e with
  | Print _ | Invoke _ _ _ => True
  | Create _ | Sleep _ => False
  end.

(** The result that carries [r] for a request (lines 299-303). *)
Definition result_for (call : tool_call) (r : pyval) : function_call_output :=
  {| fco_type := "function_call_output";
     fco_call_id := tc_call_id call;
     fco_output := json_dumps r |}.

(** The first request of a run (lines 212-222). *)
Definition first_request (instructions_text prompt : string) : Request :=
  {| model := "gpt-5";
     instructions := instructions_text;
     previous_response_id := None;
     input := Prompt prompt;
     tools := Main.declared_tools |}.

(** ** Notions used in the further properties *)

(** The position passes the check of line 119: it is empty, or one of the
    valid positions. *)
Definition acceptable_position (position : pyval) : bool :=
  negb (py_truthy position && negb (py_in_strs position FantasyData.valid_positions)).

(** The object can be the bound of a slice: [None], an [int] or a [bool]. *)
Definition sliceable (size : pyval) : bool :=
  match size with
  | PyNone | PyInt _ | PyBool _ => true
  | _ => false
  end.

(** The payload of line 120. *)
Definition invalid_position (position : pyval) : pyval :=
  PyDict [("error",
    PyStr ("Invalid position: " ++ py_str position ++
           ". Valid positions are QB, RB, WR, TE, K, D/ST"))].

(** The payload of line 160. *)
Definition no_players (position : pyval) : pyval :=
  PyDict [("message",
    PyStr (if py_truthy position
           then "No available players found for position " ++ py_str position
           else "No available players found"))].

(** The free agents that pass the filters of [get_waiver_wire_for_tool],
    as it lists them before sorting. *)
Definition eligible (league : FantasyData.League) (position : pyval)
  : list FantasyData.player_info :=
  FantasyData.waiver_players league (FantasyData.normalize_position position).


(** The payload of line 187. *)
Definition team_not_found (team_id : pyval) : pyval :=
  PyDict [("error", PyStr ("Team with ID '" ++ py_str team_id ++ "' not found"))].

(** The rank of a lineup slot in the order of line 300; a slot that is not
    in it ranks last (the key of line 301). *)
Definition slot_rank (slot : string) : Z :=
  if FantasyData.in_strs slot FantasyData.lineup_slot_order
  then FantasyData.index_of slot FantasyData.lineup_slot_order
  else 999.

(** The roster of a team, empty when it has none. *)
Definition roster_of (team : FantasyData.Team) : list FantasyData.Player :=
  match FantasyData.roster team with Some r => r | None => [] end.

(** [(team, player)] is the first player, in the order of teams and of
    rosters, with this [player_id]. *)
Definition first_with_id (league : FantasyData.League) (player_id : pyval)
           (team : FantasyData.Team) (player : FantasyData.Player) : Prop :=
  exists before after,
    FantasyData.rostered league = (before ++ (team, player) :: after)%list /\
    FantasyData.has_player_id player_id player = true /\
    Forall (fun tp => FantasyData.has_player_id player_id (snd tp) = false) before.

(** The weeks of a player's statistics, as the provider lists them. *)
Definition weeks_of (player : FantasyData.Player) : list Z :=
  match FantasyData.stats player with
  | Some d => map fst d
  | None => []
  end.

(** Some week other than week 0 of the player's statistics has a projected
    breakdown. *)
Definition has_breakdown (player : FantasyData.Player) : Prop :=
  exists d week ws,
    FantasyData.stats player = Some d /\
    In (week, ws) d /\
    week <> 0 /\
    FantasyData.ws_projected_breakdown ws <> None.

(** The lightweight summary lists the player under STARTERS: his lineup
    slot is neither BE nor IR, or he has none. *)
Definition listed_as_starter (player : FantasyData.Player) : bool :=
  match FantasyData.lineupSlot player with
  | Some slot => negb (String.eqb slot "BE") && negb (String.eqb slot "IR")
  | None => true
  end.

(** The lightweight summary lists the player under BENCH: his lineup slot
    is BE. *)
Definition listed_on_bench (player : FantasyData.Player) : bool :=
  match FantasyData.lineupSlot player with
  | Some slot => String.eqb slot "BE"
  | None => false
  end.

(** [text] is the line of the lightweight summary about [player]. *)
Definition summary_line (league : FantasyData.League)
           (player : FantasyData.Player) (text : string) : Prop :=
  exists slot, FantasyData.player_summary league player = Return (slot, text).

(** The points of a team as the standings show them. *)
Definition shown_points (team : FantasyData.Team) : Q :=
  py_round (FantasyData.points_for team) 1.

(** [a] stands at least as high as [b]: more wins, or as many wins and at
    least as many points. *)
Definition outranks (a b : FantasyData.Team) : Prop :=
  FantasyData.wins b < FantasyData.wins a \/
  (FantasyData.wins b = FantasyData.wins a /\ (shown_points b <= shown_points a)%Q).

(** The two teams tie: as many wins and as many points. *)
Definition tied (a b : FantasyData.Team) : bool :=
  (FantasyData.wins a =? FantasyData.wins b) && Qeq_bool (shown_points a) (shown_points b).

(** The key by which the standings are sorted. *)
Definition team_key (team : FantasyData.Team) : Z * Q :=
  (FantasyData.wins team, shown_points team).

(** What is typed is a number that selects no team of [teams]. *)
Definition selects_none (teams : list FantasyData.Member) (t : FantasyData.typed) : Prop :=
  exists z, t = FantasyData.Entered z /\ ~ (1 <= z <= Z.of_nat (List.length teams)).

(** The outcome of [identify_my_team], without what it prints. *)
Definition identified_team (teams : list FantasyData.Member) (swid : string)
           (inputs : list FantasyData.typed) : FantasyData.identified :=
  snd (FantasyData.identify_my_team teams swid inputs).


(** The value is a JSON object. *)
Definition is_object (v : pyval) : bool :=
  match v with PyDict _ => true | _ => false end.

(** * Properties *)

(** ** Sorting, slicing, rounding *)

Section SortedFacts.
Context {A K : Type} (before : K -> K -> bool) (key : A -> K).

Lemma insert_stable_In (x y : A) (l : list A) :
  In y (insert_stable before key x l) <-> y = x \/ In y l.
Proof.
  induction l as [|z l IH]; simpl.
  - intuition.
  - destruct (before (key x) (key z)); simpl; [|rewrite IH]; intuition.
Qed.

Lemma py_sorted_In (y : A) (l : list A) :
  In y (py_sorted before key l) <-> In y l.
Proof.
  induction l as [|x l IH]; simpl; [tauto|].
  rewrite insert_stable_In, IH. intuition.
Qed.

End SortedFacts.

Lemma insert_descending {A} (key : A -> Q) (x : A) (l : list A) :
  descending key l ->
  descending key (insert_stable (fun a b => Qle_bool b a) key x l).
Proof.
  unfold descending. induction 1 as [|z l Hl IH Hz]; simpl.
  - repeat constructor.
  - destruct (Qle_bool (key z) (key x)) eqn:E.
    + apply Qle_bool_iff in E.
      constructor; [now constructor|].
      constructor; [exact E|].
      eapply Forall_impl; [|exact Hz]. simpl. intros a Ha. lra.
    + assert (key x < key z)%Q as Hlt.
      { apply Qnot_le_lt. intro H. apply Qle_bool_iff in H. congruence. }
      constructor; [exact IH|].
      apply Forall_forall. intros a Ha.
      apply insert_stable_In in Ha. destruct Ha as [->|Ha]; [lra|].
      rewrite Forall_forall in Hz. now apply Hz.
Qed.

Lemma py_sorted_descending {A} (key : A -> Q) (l : list A) :
  descending key (py_sorted (fun a b => Qle_bool b a) key l).
Proof.
  induction l as [|x l IH]; simpl.
  - constructor.
  - now apply insert_descending.
Qed.

Lemma In_firstn {A} (n : nat) (l : list A) (x : A) :
  In x (firstn n l) -> In x l.
Proof.
  revert n. induction l as [|y l IH]; intros [|n]; simpl; try tauto.
  intros [->|H]; [now left|right; eauto].
Qed.

Lemma firstn_descending {A} (key : A -> Q) (n : nat) (l : list A) :
  descending key l -> descending key (firstn n l).
Proof.
  unfold descending. intros H. revert n.
  induction H as [|x l Hl IH Hx]; intros [|n]; simpl; try constructor.
  - apply IH.
  - apply Forall_forall. intros a Ha. apply In_firstn in Ha.
    rewrite Forall_forall in Hx. now apply Hx.
Qed.

Lemma slice_to_descending {A} (key : A -> Q) (n : Z) (l : list A) :
  descending key l -> descending key (slice_to n l).
Proof.
  unfold slice_to. destruct (0 <=? n); apply firstn_descending.
Qed.

Lemma slice_to_In {A} (n : Z) (l : list A) (x : A) :
  In x (slice_to n l) -> In x l.
Proof.
  unfold slice_to. destruct (0 <=? n); apply In_firstn.
Qed.

Lemma slice_to_length {A} (n : Z) (l : list A) :
  0 <= n -> Z.of_nat (List.length (slice_to n l)) <= n.
Proof.
  intros Hn. unfold slice_to.
  destruct (0 <=? n) eqn:E; [|apply Z.leb_gt in E; lia].
  rewrite length_firstn. lia.
Qed.

Lemma round_half_even_bounds (x : Q) :
  Qfloor x <= round_half_even x <= Qfloor x + 1.
Proof.
  unfold round_half_even.
  destruct (_ ?= _)%Q; [destruct (Z.even _)| |]; lia.
Qed.

Lemma round_half_even_mono (x y : Q) :
  (x <= y)%Q -> round_half_even x <= round_half_even y.
Proof.
  intros Hxy.
  pose proof (Qfloor_resp_le x y Hxy) as Hf.
  destruct (Z.eq_dec (Qfloor x) (Qfloor y)) as [E|NE].
  - unfold round_half_even. rewrite E.
    destruct (Qcompare_spec (x - inject_Z (Qfloor y)) (1 # 2)) as [H1|H1|H1];
      destruct (Qcompare_spec (y - inject_Z (Qfloor y)) (1 # 2)) as [H2|H2|H2];
      try destruct (Z.even (Qfloor y)); try lia; exfalso; lra.
  - pose proof (round_half_even_bounds x).
    pose proof (round_half_even_bounds y). lia.
Qed.

Lemma Qmake_le (a b : Z) (s : positive) : a <= b -> (a # s <= b # s)%Q.
Proof.
  intros H. unfold Qle. simpl. apply Z.mul_le_mono_nonneg_r; lia.
Qed.

Lemma py_round_mono (x y : Q) (ndigits : nat) :
  (x <= y)%Q -> (py_round x ndigits <= py_round y ndigits)%Q.
Proof.
  intros H. unfold py_round. rewrite !Qred_correct.
  apply Qmake_le, round_half_even_mono.
  apply Qmult_le_compat_r; [exact H|].
  unfold Qle. simpl. lia.
Qed.

Lemma map_descending {A B} (f : A -> B) (key : A -> Q) (key' : B -> Q) (l : list A) :
  (forall a b, key b <= key a -> key' (f b) <= key' (f a))%Q ->
  descending key l -> descending key' (map f l).
Proof.
  intros Hf. unfold descending. induction 1 as [|x l Hl IH Hx]; simpl.
  - constructor.
  - constructor; [exact IH|].
    apply Forall_forall. intros b Hb. apply in_map_iff in Hb.
    destruct Hb as (a & <- & Ha). apply Hf.
    rewrite Forall_forall in Hx. now apply Hx.
Qed.

(** ** The waiver wire (C9) *)

Lemma weekly_projection_current (league : FantasyData.League) (player : FantasyData.Player) :
  FantasyData.weekly_projection league player =
  match current_projection league player with Some q => q | None => 0%Q end.
Proof.
  unfold FantasyData.weekly_projection, current_projection.
  destruct (FantasyData.stats player) as [d|]; [|reflexivity].
  destruct (assocZ _ d) as [w|]; reflexivity.
Qed.

Lemma meaningful_projection (league : FantasyData.League) (player : FantasyData.Player) :
  FantasyData.meaningful league player = true ->
  exists q, current_projection league player = Some q /\ (2 < q)%Q.
Proof.
  unfold FantasyData.meaningful. rewrite weekly_projection_current.
  intros H. apply negb_true_iff in H.
  assert (~ (match current_projection league player with
             | Some q => q | None => 0%Q end <= 2)%Q) as Hn.
  { intro Hle. apply Qle_bool_iff in Hle. congruence. }
  destruct (current_projection league player) as [q|].
  - exists q. split; [reflexivity|]. now apply Qnot_le_lt.
  - exfalso. apply Hn. unfold Qle. simpl. lia.
Qed.

Lemma truthy_normalize_position (position : pyval) :
  py_truthy (FantasyData.normalize_position position) = py_truthy position.
Proof.
  unfold FantasyData.normalize_position.
  destruct (py_eq_str position "DST") eqn:E; [|reflexivity].
  destruct position; simpl in E; try discriminate.
  apply String.eqb_eq in E. now subst.
Qed.

Lemma waiver_players_origin (league : FantasyData.League) (position : pyval)
      (p : FantasyData.player_info) :
  In p (FantasyData.waiver_players league position) ->
  exists fa q,
    In fa (FantasyData.free_agents league (fetch_size position)) /\
    current_projection league fa = Some q /\ (2 < q)%Q /\
    p = FantasyData.waiver_info league fa.
Proof.
  unfold FantasyData.waiver_players. intros H.
  apply in_map_iff in H. destruct H as (fa & <- & H).
  apply filter_In in H. destruct H as (Hin & Hok).
  apply andb_true_iff in Hok. destruct Hok as (_ & Hm).
  destruct (meaningful_projection _ _ Hm) as (q & Hq & Hgt).
  exists fa, q. auto.
Qed.

Lemma waiver_data_sound (league : FantasyData.League) (position size : pyval)
      (l : list FantasyData.player_info) :
  FantasyData.waiver_data league position size = Return l ->
  (forall p, In p l -> In p (FantasyData.waiver_players league position)) /\
  descending FantasyData.pi_projected_points l /\
  (forall n, size = PyInt n -> 0 <= n -> Z.of_nat (List.length l) <= n).
Proof.
  unfold FantasyData.waiver_data.
  set (sorted := py_sorted _ _ _).
  assert (descending FantasyData.pi_projected_points sorted) as Hs
      by apply py_sorted_descending.
  assert (forall p, In p sorted -> In p (FantasyData.waiver_players league position)) as Hi
      by (intros p; apply py_sorted_In).
  destruct size; simpl; intros H; inversion H; subst; clear H.
  - repeat split; auto. intros n Hn. discriminate.
  - repeat split.
    + intros p Hp. eauto using slice_to_In.
    + now apply slice_to_descending.
    + intros n Hn. discriminate.
  - repeat split.
    + intros p Hp. eauto using slice_to_In.
    + now apply slice_to_descending.
    + intros n Hn Hpos. inversion Hn; subst. now apply slice_to_length.
Qed.

Lemma waiver_wire_returned_list (league : FantasyData.League) (position size r : pyval) :
  FantasyData.get_waiver_wire_for_tool league position size = Return r ->
  py_has_key r "available_players" = true ->
  exists l,
    FantasyData.waiver_data league (FantasyData.normalize_position position) size
    = Return l /\
    py_item r "available_players"
    = PyList (map FantasyData.player_info_dict (map FantasyData.round_points l)) /\
    py_item r "count" = PyInt (Z.of_nat (List.length (map FantasyData.round_points l))).
Proof.
  unfold FantasyData.get_waiver_wire_for_tool.
  destruct (py_truthy position && negb (py_in_strs position FantasyData.valid_positions)).
  { intros H. inversion H; subst. discriminate. }
  destruct (FantasyData.waiver_data league (FantasyData.normalize_position position) size)
    as [l|e]; simpl; [|discriminate].
  destruct l as [|p0 l]; intros H; inversion H; subst; clear H; [discriminate|].
  intros _. exists (p0 :: l). repeat split; reflexivity.
Qed.

Lemma waiver_entry_origin (league : FantasyData.League) (position size : pyval)
      (l : list FantasyData.player_info) (p : FantasyData.player_info) :
  FantasyData.waiver_data league (FantasyData.normalize_position position) size
  = Return l ->
  In p l ->
  exists fa q,
    In fa (FantasyData.free_agents league (fetch_size position)) /\
    current_projection league fa = Some q /\ (2 < q)%Q /\
    p = FantasyData.waiver_info league fa.
Proof.
  intros Hd Hp.
  destruct (waiver_data_sound _ _ _ _ Hd) as (Hin & _ & _).
  apply Hin, waiver_players_origin in Hp.
  destruct Hp as (fa & q & Hfa & Hq & Hgt & ->).
  unfold fetch_size in Hfa. rewrite truthy_normalize_position in Hfa.
  exists fa, q. auto.
Qed.

(** C9, as amended: on every call of [get_waiver_wire_for_tool] that
    returns an [available_players] list, every entry is a free agent whose
    projection for the current week exists and exceeds 2.0 (so a free agent
    without one is left out), carrying that projection rounded to one
    decimal, a whole number of tenths; the entries are in non-increasing
    order of projected points; [count] is their number; and when [size] is
    an integer that is not negative there are at most [size] of them. *)
Theorem C9_waiver_wire_listing
        (league : FantasyData.League) (position size r : pyval) :
  FantasyData.get_waiver_wire_for_tool league position size = Return r ->
  py_has_key r "available_players" = true ->
  exists players : list FantasyData.player_info,
    py_item r "available_players" = PyList (map FantasyData.player_info_dict players) /\
    py_item r "count" = PyInt (Z.of_nat (List.length players)) /\
    Forall (fun p =>
              exists fa q,
                In fa (FantasyData.free_agents league (fetch_size position)) /\
                current_projection league fa = Some q /\ (2 < q)%Q /\
                p = FantasyData.round_points (FantasyData.waiver_info league fa) /\
                FantasyData.pi_projected_points p = py_round q 1 /\
                exists tenths : Z,
                  (FantasyData.pi_projected_points p == tenths # 10)%Q)
           players /\
    descending FantasyData.pi_projected_points players /\
    (forall n, size = PyInt n -> 0 <= n -> Z.of_nat (List.length players) <= n).
Proof.
  intros Hr Hk.
  destruct (waiver_wire_returned_list _ _ _ _ Hr Hk) as (l & Hd & Hitems & Hcount).
  destruct (waiver_data_sound _ _ _ _ Hd) as (_ & Hdesc & Hlen).
  exists (map FantasyData.round_points l).
  split; [exact Hitems|]. split; [exact Hcount|]. split; [|split].
  - apply Forall_forall. intros p Hp.
    apply in_map_iff in Hp. destruct Hp as (p' & <- & Hp').
    destruct (waiver_entry_origin _ _ _ _ _ Hd Hp') as (fa & q & Hfa & Hq & Hgt & ->).
    exists fa, q. repeat split; auto.
    + simpl. rewrite weekly_projection_current, Hq. reflexivity.
    + exists (round_half_even (q * 10)). simpl.
      rewrite weekly_projection_current, Hq. apply Qred_correct.
  - eapply map_descending; [|exact Hdesc].
    intros a b Hab. simpl. now apply py_round_mono.
  - intros n Hn Hpos. rewrite length_map. now apply Hlen.
Qed.

(** The sample league, asked for three players of any position. *)
Lemma C9_waiver_wire_listing_witness :
  exists players : list FantasyData.player_info,
    List.length players = 3%nat /\
    descending FantasyData.pi_projected_points players /\
    (forall n, PyInt 3 = PyInt n -> 0 <= n -> Z.of_nat (List.length players) <= n).
Proof.
  destruct (C9_waiver_wire_listing Sample.league PyNone (PyInt 3) _ eq_refl eq_refl)
    as (players & Hitems & Hcount & _ & Hdesc & Hlen).
  exists players. split; [|split; assumption].
  apply (f_equal py_len) in Hitems. simpl in Hitems.
  rewrite length_map in Hitems. lia.
Defined.

(** C9 as stated fails on a negative [size]: the slice [[:size]] then drops
    entries from the end, so the sample league's three eligible free agents
    give two entries for [size = -1], which is more than [size]. *)
Lemma C9_negative_size_counterexample :
  exists players : pyval,
    FantasyData.get_waiver_wire_for_tool Sample.league PyNone (PyInt (-1))
    = Return (PyDict
        [ ("position", PyStr "All");
          ("available_players", players);
          ("count", PyInt 2);
          ("note", PyStr "Use get_player_stats tool with player_id for detailed analysis of any player") ])
    /\ py_len players = 2 /\ ~ (py_len players <= -1).
Proof.
  eexists. split; [vm_compute; reflexivity|]. split; [reflexivity|].
  simpl. lia.
Qed.

(** ** Player statistics (C10) *)

Lemma find_all_false {A} (f : A -> bool) (l : list A) :
  (forall x, In x l -> f x = false) -> find f l = None.
Proof.
  induction l as [|x l IH]; simpl; intros H; [reflexivity|].
  rewrite (H x) by now left. apply IH. intros y Hy. apply H. now right.
Qed.

Lemma player_stats_not_found (league : FantasyData.League) (player_id : pyval) :
  ~ on_a_roster league player_id ->
  FantasyData.get_player_stats_for_tool league player_id =
  Return (player_not_found player_id).
Proof.
  intros Hno. unfold FantasyData.get_player_stats_for_tool.
  rewrite find_all_false; [reflexivity|].
  intros tp Htp.
  destruct (FantasyData.has_player_id player_id (snd tp)) eqn:E; [|reflexivity].
  exfalso. apply Hno. now exists tp.
Qed.

(** C10: [get_player_stats_for_tool] answers the [{"error": ...}] payload
    of a player not found
    for every [player_id] that no player on any team's roster has; and,
    free agents being on no roster, it does so for the [player_id] of every
    entry that [get_waiver_wire_for_tool] returns. *)
Theorem C10_player_stats_rosters_only (league : FantasyData.League) :
  (forall player_id,
      ~ on_a_roster league player_id ->
      FantasyData.get_player_stats_for_tool league player_id
      = Return (player_not_found player_id)) /\
  (free_agents_unrostered league ->
   forall position size r entries entry,
     FantasyData.get_waiver_wire_for_tool league position size = Return r ->
     py_has_key r "available_players" = true ->
     py_item r "available_players" = PyList entries ->
     In entry entries ->
     FantasyData.get_player_stats_for_tool league (py_item entry "player_id")
     = Return (player_not_found (py_item entry "player_id"))).
Proof.
  split.
  - intros player_id Hno. now apply player_stats_not_found.
  - intros Hfree position size r entries entry Hr Hk Hitems Hin.
    destruct (waiver_wire_returned_list _ _ _ _ Hr Hk) as (l & Hd & Hitems' & _).
    rewrite Hitems in Hitems'. inversion Hitems'; subst entries.
    apply in_map_iff in Hin. destruct Hin as (p & <- & Hp).
    apply in_map_iff in Hp. destruct Hp as (p' & <- & Hp').
    destruct (waiver_entry_origin _ _ _ _ _ Hd Hp') as (fa & q & Hfa & _ & _ & ->).
    apply player_stats_not_found. simpl. eapply Hfree. exact Hfa.
Qed.

Lemma sample_rosters (player_id : pyval) :
  on_a_roster Sample.league player_id ->
  py_eq_int player_id 101 = true \/ py_eq_int player_id 102 = true \/
  py_eq_int player_id 201 = true.
Proof.
  intros (tp & Hin & Hid). simpl in Hin.
  destruct Hin as [<-|[<-|[<-|[]]]]; simpl in Hid; auto.
Qed.

Lemma sample_free_agents_unrostered : free_agents_unrostered Sample.league.
Proof.
  intros n fa Hfa Hon. simpl in Hfa. apply In_firstn in Hfa.
  apply sample_rosters in Hon.
  simpl in Hfa.
  destruct Hfa as [<-|[<-|[<-|[<-|[<-|[]]]]]]; simpl in Hon;
    destruct Hon as [H|[H|H]]; discriminate.
Defined.

(** The sample league: no roster has the id 301, and the second entry of
    its waiver wire (the free agent 302) is not found either. *)
Lemma C10_player_stats_rosters_only_witness :
  FantasyData.get_player_stats_for_tool Sample.league (PyInt 301)
  = Return (player_not_found (PyInt 301)) /\
  FantasyData.get_player_stats_for_tool Sample.league (PyInt 302)
  = Return (player_not_found (PyInt 302)).
Proof.
  split.
  - apply (proj1 (C10_player_stats_rosters_only Sample.league)).
    intros Hon. apply sample_rosters in Hon. simpl in Hon.
    destruct Hon as [H|[H|H]]; discriminate.
  - exact (proj2 (C10_player_stats_rosters_only Sample.league)
                 sample_free_agents_unrostered PyNone (PyInt 3) _ _ _
                 eq_refl eq_refl eq_refl (or_intror (or_introl eq_refl))).
Defined.

(** ** Scanning the output of a response *)

Lemma scan_output_calls (output : list item) :
  Main.scan_output output
  = (fst (Main.scan_output output), Return (function_calls_of output)) /\
  Forall is_print (fst (Main.scan_output output)).
Proof.
  induction output as [|it output (IH & IHp)]; [split; [reflexivity|constructor]|].
  destruct it as [query|call|content|]; cbn [Main.scan_output function_calls_of flat_map];
    try (split; assumption).
  - destruct (Main.scan_output output) as (ev & r). simpl in IH, IHp.
    inversion IH; subst r.
    destruct query; simpl; split; try reflexivity; repeat constructor; exact IHp.
  - destruct (Main.scan_output output) as (ev & r). simpl in IH, IHp.
    inversion IH; subst r. simpl. rewrite app_nil_r. split; [reflexivity|exact IHp].
Qed.

(** Web-search items leave the collected requests as they are. *)
Lemma function_calls_of_web_search (query : option string) (before after : list item) :
  function_calls_of (before ++ web_search_call query :: after)
  = function_calls_of (before ++ after).
Proof.
  unfold function_calls_of. rewrite !flat_map_app. reflexivity.
Qed.

(** ** The dispatcher *)

Section DispatchFacts.
Variable json_loads : string -> option pyval.
Variable league : FantasyData.League.

Let dispatch := Main.dispatch json_loads league.
Let execute_function_calls := Main.execute_function_calls json_loads league.

Lemma no_handler_execute_tool (tool_name : string) (call_id : option string)
      (tool_args : pyval) :
  existsb (String.eqb tool_name) registered_tools = false ->
  Main.execute_tool league tool_name call_id tool_args = lret None.
Proof.
  unfold registered_tools. simpl. intros H.
  repeat (apply orb_false_iff in H; destruct H as (? & H)).
  unfold Main.execute_tool.
  repeat match goal with E : String.eqb _ _ = false |- _ => rewrite E; clear E end.
  reflexivity.
Qed.

(** A request without a local handler: nothing is called, nothing is
    added, nothing is raised. *)
Lemma dispatch_no_handler (call : tool_call) (outs : list function_call_output) :
  has_local_handler call = false ->
  snd (dispatch call outs) = Return outs /\
  Forall is_print (fst (dispatch call outs)).
Proof.
  unfold has_local_handler, dispatch, Main.dispatch. intros H.
  destruct (tc_name call) as [tool_name|]; [|split; [reflexivity|constructor]].
  destruct (String.eqb tool_name ""); [split; [reflexivity|constructor]|].
  rewrite no_handler_execute_tool by exact H.
  destruct (py_truthy _); simpl; split; try reflexivity;
    repeat constructor.
Qed.

(** A request with a local handler: when [dispatch] returns, it has added
    exactly one result, which answers the request. *)
Lemma dispatch_handler (call : tool_call) (outs outs' : list function_call_output) :
  has_local_handler call = true ->
  snd (dispatch call outs) = Return outs' ->
  exists out, outs' = (outs ++ [out])%list /\ answers call out /\
              invocations (fst (dispatch call outs)) = [invocation_of call].
Proof.
  unfold has_local_handler, dispatch, Main.dispatch, invocation_of.
  destruct (tc_name call) as [tool_name|]; [|discriminate].
  intros H.
  destruct (String.eqb tool_name "") eqn:E0.
  { apply String.eqb_eq in E0. subst. discriminate. }
  unfold Main.execute_tool.
  destruct (String.eqb tool_name "get_waiver_wire") eqn:E1;
    [|destruct (String.eqb tool_name "get_team_details") eqn:E2;
      [|destruct (String.eqb tool_name "get_player_stats") eqn:E3]].
  4: { simpl in H. rewrite E1, E2, E3 in H. discriminate. }
  all: destruct (Main.parse_arguments json_loads call) as [| | | | | |d];
    try (destruct (py_truthy _); simpl; discriminate).
  all: unfold py_get; cbn [lift lbind print lret py_truthy].
  - destruct (FantasyData.get_waiver_wire_for_tool _ _ _) as [r|e];
      [|destruct d; simpl; discriminate].
    destruct d, (py_has_key r "available_players"); simpl;
      intros Ho; inversion Ho; subst; eexists; repeat split.
  - destruct (FantasyData.get_team_details_for_tool _ _) as [r|e];
      [|destruct d; simpl; discriminate].
    destruct d, (py_has_key r "team_name"), (py_has_key r "error"); simpl;
      intros Ho; inversion Ho; subst; eexists; repeat split.
  - destruct (FantasyData.get_player_stats_for_tool _ _) as [r|e];
      [|destruct d; simpl; discriminate].
    destruct d, (py_has_key r "name"), (py_has_key r "error"); simpl;
      intros Ho; inversion Ho; subst; eexists; repeat split.
Qed.

(** Whatever [dispatch] does, it calls at most the handler of its
    request. *)
Lemma dispatch_invocations (call : tool_call) (outs : list function_call_output) :
  has_local_handler call = true ->
  invocations (fst (dispatch call outs)) = [] \/
  invocations (fst (dispatch call outs)) = [invocation_of call].
Proof.
  unfold has_local_handler, dispatch, Main.dispatch, invocation_of.
  destruct (tc_name call) as [tool_name|]; [|discriminate].
  intros H.
  destruct (String.eqb tool_name "") eqn:E0; [now left|].
  unfold Main.execute_tool.
  destruct (String.eqb tool_name "get_waiver_wire") eqn:E1;
    [|destruct (String.eqb tool_name "get_team_details") eqn:E2;
      [|destruct (String.eqb tool_name "get_player_stats") eqn:E3]].
  4: { simpl in H. rewrite E1, E2, E3 in H. discriminate. }
  all: destruct (Main.parse_arguments json_loads call) as [| | | | | |d];
    try (destruct (py_truthy _); simpl; now left).
  all: unfold py_get; cbn [lift lbind print lret py_truthy].
  - destruct (FantasyData.get_waiver_wire_for_tool _ _ _) as [r|e];
      [|destruct d; simpl; now right].
    destruct d, (py_has_key r "available_players"); simpl; now right.
  - destruct (FantasyData.get_team_details_for_tool _ _) as [r|e];
      [|destruct d; simpl; now right].
    destruct d, (py_has_key r "team_name"), (py_has_key r "error"); simpl; now right.
  - destruct (FantasyData.get_player_stats_for_tool _ _) as [r|e];
      [|destruct d; simpl; now right].
    destruct d, (py_has_key r "name"), (py_has_key r "error"); simpl; now right.
Qed.

(** [dispatch] prints and calls handlers; it never calls the host. *)
Lemma dispatch_local (call : tool_call) (outs : list function_call_output) :
  Forall is_local (fst (dispatch call outs)).
Proof.
  unfold dispatch, Main.dispatch.
  destruct (tc_name call) as [tool_name|]; [|constructor].
  destruct (String.eqb tool_name ""); [constructor|].
  unfold Main.execute_tool.
  destruct (String.eqb tool_name "get_waiver_wire");
    [|destruct (String.eqb tool_name "get_team_details");
      [|destruct (String.eqb tool_name "get_player_stats")]].
  4: { destruct (py_truthy _); simpl; repeat constructor. }
  all: destruct (Main.parse_arguments json_loads call) as [| | | | | |d];
    try (destruct (py_truthy _); simpl; solve [repeat constructor]).
  all: unfold py_get; cbn [lift lbind print lret py_truthy].
  - destruct (FantasyData.get_waiver_wire_for_tool _ _ _) as [r|e];
      [|destruct d; simpl; repeat constructor].
    destruct d, (py_has_key r "available_players"); simpl; repeat constructor.
  - destruct (FantasyData.get_team_details_for_tool _ _) as [r|e];
      [|destruct d; simpl; repeat constructor].
    destruct d, (py_has_key r "team_name"), (py_has_key r "error"); simpl;
      repeat constructor.
  - destruct (FantasyData.get_player_stats_for_tool _ _) as [r|e];
      [|destruct d; simpl; repeat constructor].
    destruct d, (py_has_key r "name"), (py_has_key r "error"); simpl;
      repeat constructor.
Qed.

End DispatchFacts.

(** ** One turn: the collected requests and their results *)

Section TurnFacts.
Variable json_loads : string -> option pyval.
Variable league : FantasyData.League.

Let dispatch := Main.dispatch json_loads league.
Let execute_function_calls := Main.execute_function_calls json_loads league.

Lemma invocations_app (ev ev' : list event) :
  invocations (ev ++ ev') = (invocations ev ++ invocations ev')%list.
Proof. unfold invocations. apply flat_map_app. Qed.

Lemma invocations_prints (ev : list event) :
  Forall is_print ev -> invocations ev = [].
Proof.
  induction 1 as [|e ev He _ IH]; [reflexivity|].
  destruct e; simpl in *; try contradiction. exact IH.
Qed.

Lemma execute_cons (call : tool_call) (rest : list tool_call)
      (outs : list function_call_output) :
  execute_function_calls (call :: rest) outs =
  lbind (dispatch call outs) (execute_function_calls rest).
Proof. reflexivity. Qed.

(** The calls are executed one after the other: the events of the first
    calls all come before those of the later ones. *)
Lemma execute_app (calls rest : list tool_call) (outs : list function_call_output) :
  execute_function_calls (calls ++ rest) outs =
  lbind (execute_function_calls calls outs) (execute_function_calls rest).
Proof.
  revert outs. induction calls as [|call calls IH]; intros outs.
  - simpl. unfold lbind, lret.
    destruct (execute_function_calls rest outs). reflexivity.
  - change ((call :: calls) ++ rest)%list with (call :: (calls ++ rest))%list.
    rewrite !execute_cons. unfold lbind.
    destruct (dispatch call outs) as (ev & [outs1|e]); [|reflexivity].
    rewrite IH. unfold lbind.
    destruct (execute_function_calls calls outs1) as (ev1 & [outs2|e]).
    + destruct (execute_function_calls rest outs2) as (ev2 & r).
      now rewrite app_assoc.
    + reflexivity.
Qed.

(** When a turn's execution returns, it has added one result for each
    request that has a local handler, in the order of the requests, and the
    handlers were called in that order. *)
Lemma execute_returns (calls : list tool_call) (outs outs' : list function_call_output) :
  snd (execute_function_calls calls outs) = Return outs' ->
  exists new,
    outs' = (outs ++ new)%list /\
    Forall2 answers (filter has_local_handler calls) new /\
    invocations (fst (execute_function_calls calls outs))
    = map invocation_of (filter has_local_handler calls).
Proof.
  revert outs. induction calls as [|call calls IH]; intros outs.
  - simpl. intros H. inversion H; subst. exists []. rewrite app_nil_r.
    repeat split. constructor.
  - rewrite execute_cons. unfold lbind.
    destruct (dispatch call outs) as (ev & [outs1|e]) eqn:Hd; [|discriminate].
    destruct (execute_function_calls calls outs1) as (ev1 & r1) eqn:He.
    simpl. intros Hr. subst r1.
    destruct (IH outs1) as (new & -> & Hnew & Hinv); [now rewrite He|].
    rewrite He in Hinv. simpl in Hinv.
    rewrite invocations_app, Hinv. cbn [filter].
    destruct (has_local_handler call) eqn:Hh.
    + destruct (dispatch_handler json_loads league call outs outs1 Hh) as (out & -> & Hans & Hi).
      { fold dispatch. now rewrite Hd. }
      fold dispatch in Hi. rewrite Hd in Hi. simpl in Hi.
      exists (out :: new). rewrite <- app_assoc. repeat split.
      * now constructor.
      * rewrite Hi. reflexivity.
    + destruct (dispatch_no_handler json_loads league call outs Hh) as (Hs & Hp).
      fold dispatch in Hs, Hp. rewrite Hd in Hs, Hp. simpl in Hs, Hp.
      inversion Hs; subst outs1.
      exists new. repeat split; auto.
      now rewrite (invocations_prints _ Hp).
Qed.

(** Whatever happens, the handlers called so far are the first of the
    requests that have one, in order. *)
Lemma execute_invocations_prefix (calls : list tool_call) (outs : list function_call_output) :
  exists later,
    map invocation_of (filter has_local_handler calls)
    = (invocations (fst (execute_function_calls calls outs)) ++ later)%list.
Proof.
  revert outs. induction calls as [|call calls IH]; intros outs.
  - exists []. reflexivity.
  - rewrite execute_cons. unfold lbind.
    destruct (dispatch call outs) as (ev & [outs1|e]) eqn:Hd.
    + destruct (IH outs1) as (later & Hl).
      destruct (execute_function_calls calls outs1) as (ev1 & r1) eqn:He.
      cbn [fst snd filter] in *. rewrite invocations_app.
      destruct (has_local_handler call) eqn:Hh.
      * destruct (dispatch_handler json_loads league call outs outs1 Hh) as (out & _ & _ & Hi).
        { fold dispatch. now rewrite Hd. }
        fold dispatch in Hi. rewrite Hd in Hi. simpl in Hi.
        exists later. simpl. rewrite Hi, Hl. reflexivity.
      * destruct (dispatch_no_handler json_loads league call outs Hh) as (_ & Hp).
        fold dispatch in Hp. rewrite Hd in Hp. simpl in Hp.
        exists later. now rewrite (invocations_prints _ Hp), Hl.
    + cbn [fst snd filter].
      destruct (has_local_handler call) eqn:Hh.
      * destruct (dispatch_invocations json_loads league call outs Hh) as [Hi|Hi];
          fold dispatch in Hi; rewrite Hd in Hi; simpl in Hi; rewrite Hi.
        -- eexists. reflexivity.
        -- eexists. reflexivity.
      * destruct (dispatch_no_handler json_loads league call outs Hh) as (Hs & _).
        fold dispatch in Hs. rewrite Hd in Hs. discriminate.
Qed.

Lemma execute_local (calls : list tool_call) (outs : list function_call_output) :
  Forall is_local (fst (execute_function_calls calls outs)).
Proof.
  revert outs. induction calls as [|call calls IH]; intros outs; [constructor|].
  rewrite execute_cons. unfold lbind.
  pose proof (dispatch_local json_loads league call outs) as Hd. fold dispatch in Hd.
  destruct (dispatch call outs) as (ev & [outs1|e]); [|exact Hd].
  specialize (IH outs1).
  destruct (execute_function_calls calls outs1) as (ev1 & r1).
  simpl in *. apply Forall_app. now split.
Qed.

End TurnFacts.

Lemma creates_app (ev ev' : list event) :
  creates (ev ++ ev') = (creates ev ++ creates ev')%list.
Proof. unfold creates. apply flat_map_app. Qed.

Lemma local_no_create (ev : list event) : Forall is_local ev -> creates ev = [].
Proof.
  induction 1 as [|e ev He _ IH]; [reflexivity|].
  destruct e; simpl in *; try contradiction; exact IH.
Qed.

Lemma print_is_local (ev : list event) : Forall is_print ev -> Forall is_local ev.
Proof.
  apply Forall_impl. intros [] H; simpl in *; auto.
Qed.

Lemma usage_events_print (response : Response) :
  Forall is_print (usage_events response).
Proof.
  unfold usage_events. destruct (usage response) as [[i o]|]; repeat constructor.
Qed.

(** Before a round calls the host, everything it does is local. *)
Lemma round_prefix_local json_loads league (response : Response)
      (calls : list tool_call) (outs : list function_call_output) :
  Forall is_local
         ((usage_events response ++ fst (Main.scan_output (output response))) ++
          fst (Main.execute_function_calls json_loads league calls outs)).
Proof.
  apply Forall_app. split; [apply Forall_app; split|].
  - apply print_is_local, usage_events_print.
  - apply print_is_local, scan_output_calls.
  - apply execute_local.
Qed.

(** ** The conversation loop *)

Section ConversationFacts.
Variable json_loads : string -> option pyval.
Variable league : FantasyData.League.
Variable instructions_text : string.
Variable w : world.

Let conversation := Main.conversation json_loads league instructions_text w.
Let execute_function_calls := Main.execute_function_calls json_loads league.
Let responses_with_backoff := Main.responses_with_backoff w.
Let continuation := Main.continuation instructions_text.

(** One round of the loop, case by case. *)
Lemma conversation_step (fuel : nat) (response : Response) (n : nat) :
  conversation (S fuel) response n =
  let ev0 := (usage_events response ++ fst (Main.scan_output (output response)))%list in
  match function_calls_of (output response) with
  | [] => (ev0, n, Return (Some response))
  | calls =>
      match execute_function_calls calls [] with
      | (ev1, Raise e) => ((ev0 ++ ev1)%list, n, Raise e)
      | (ev1, Return outs) =>
          match responses_with_backoff (continuation response outs) n with
          | (ev2, n', Raise e) => ((ev0 ++ ev1 ++ ev2)%list, n', Raise e)
          | (ev2, n', Return response') =>
              match conversation fuel response' n' with
              | (ev3, n'', r) => ((ev0 ++ ev1 ++ ev2 ++ ev3)%list, n'', r)
              end
          end
      end
  end.
Proof.
  unfold conversation at 1. cbn [Main.conversation].
  unfold iobind, run_logged, usage_events.
  destruct (scan_output_calls (output response)) as (Hs & _).
  assert (match usage response with
          | Some (i, o) => print (TokenUsage i o)
          | None => lret tt
          end
          = (match usage response with
             | Some (i, o) => [Print (TokenUsage i o)]
             | None => []
             end, Return tt)) as Hu.
  { destruct (usage response) as [[i o]|]; reflexivity. }
  rewrite Hu. cbn [fst snd]. rewrite Hs. cbn [fst snd].
  destruct (function_calls_of (output response)) as [|call calls].
  - unfold ret. now rewrite app_nil_r.
  - fold execute_function_calls.
    destruct (execute_function_calls (call :: calls) []) as (ev1 & [outs|e]); cbn [fst snd].
    + fold continuation. fold responses_with_backoff.
      destruct (responses_with_backoff (continuation response outs) n)
        as ((ev2 & n') & [response'|e]).
      * fold conversation.
        destruct (conversation fuel response' n') as ((ev3 & n'') & r).
        now rewrite <- !app_assoc.
      * now rewrite <- !app_assoc.
    + now rewrite <- !app_assoc.
Qed.

(** The loop hands back a response only when that response asks for no
    tool call. *)
Lemma conversation_last (fuel : nat) (response last : Response) (n n' : nat)
      (ev : list event) :
  conversation fuel response n = (ev, n', Return (Some last)) ->
  function_calls_of (output last) = [].
Proof.
  revert response n ev. induction fuel as [|fuel IH]; intros response n ev.
  - discriminate.
  - rewrite conversation_step. cbv zeta.
    destruct (function_calls_of (output response)) as [|call calls] eqn:Hc.
    + intros H. inversion H; subst. exact Hc.
    + destruct (execute_function_calls (call :: calls) []) as (ev1 & [outs|e]);
        [|discriminate].
      destruct (responses_with_backoff (continuation response outs) n)
        as ((ev2 & n1) & [response'|e]); [|discriminate].
      destruct (conversation fuel response' n1) as ((ev3 & n2) & r) eqn:Hconv.
      intros H. inversion H; subst. eapply IH. exact Hconv.
Qed.

End ConversationFacts.

(** ** The retry wrapper *)

Lemma wait_exponential_bounds (attempt_number : nat) :
  (1 <= Tenacity.wait_exponential 1 60 attempt_number <= 60)%Q.
Proof.
  unfold Tenacity.wait_exponential. split.
  - eapply Qle_trans; [|apply Q.le_max_l]. apply Q.le_max_r.
  - apply Q.max_lub.
    + apply Q.max_lub; unfold Qle; simpl; lia.
    + apply Q.le_min_r.
Qed.

(** A wait drawn with [u] in [0, 1] lies between the floor and the
    ceiling. *)
Lemma wait_random_exponential_bounds (attempt_number : nat) (u : Q) :
  (0 <= u <= 1)%Q ->
  (1 <= Tenacity.wait_random_exponential 1 60 attempt_number u <= 60)%Q.
Proof.
  intros Hu. unfold Tenacity.wait_random_exponential.
  pose proof (wait_exponential_bounds attempt_number) as Hh.
  set (high := Tenacity.wait_exponential 1 60 attempt_number) in *.
  cbv zeta. split; nra.
Qed.

Section RetryFacts.
Variable wait : nat -> Q -> Q.
Variable reraise : bool.
Variable w : world.
Variable req : Request.

Let attempt := Tenacity.attempt wait reraise w (Main.create w req).

Lemma attempt_last (attempt_number n : nat) :
  attempt 0 attempt_number n =
  match host w n req with
  | Return r => ([Create req], S n, Return r)
  | Raise e => ([Create req], S n, Raise (if reraise then e else RetryError e))
  end.
Proof.
  unfold attempt. simpl. unfold Main.create. now destruct (host w n req).
Qed.

Lemma attempt_again (remaining attempt_number n : nat) :
  attempt (S remaining) attempt_number n =
  match host w n req with
  | Return r => ([Create req], S n, Return r)
  | Raise e =>
      match attempt remaining (S attempt_number) (S n) with
      | (ev, n', r) =>
          (Create req :: Sleep (wait attempt_number (uniform w n)) :: ev, n', r)
      end
  end.
Proof.
  unfold attempt. simpl. unfold Main.create at 1. now destruct (host w n req).
Qed.

(** The first [k] calls raise and the next one answers: the wrapper
    returns that answer after [k + 1] calls and [k] waits. *)
Lemma attempt_succeeds (remaining : nat) :
  forall (attempt_number n k : nat) (r : Response),
    (k <= remaining)%nat ->
    (forall i, (i < k)%nat -> returned (host w (n + i) req) = false) ->
    host w (n + k) req = Return r ->
    exists ev,
      attempt remaining attempt_number n = (ev, (n + k + 1)%nat, Return r) /\
      creates ev = repeat req (k + 1) /\
      List.length (sleeps ev) = k.
Proof.
  induction remaining as [|remaining IH]; intros a n k r Hk Hfail Hok.
  - assert (k = 0)%nat by lia. subst k.
    rewrite Nat.add_0_r in Hok.
    exists [Create req]. rewrite attempt_last, Hok.
    repeat split. f_equal. f_equal. lia.
  - rewrite attempt_again. destruct k as [|k].
    + rewrite Nat.add_0_r in Hok.
      exists [Create req]. rewrite Hok. repeat split. f_equal. f_equal. lia.
    + pose proof (Hfail 0%nat ltac:(lia)) as H0. rewrite Nat.add_0_r in H0.
      destruct (IH (S a) (S n) k r) as (ev & Hev & Hc & Hs).
      * lia.
      * intros i Hi. replace (S n + i)%nat with (n + S i)%nat by lia.
        apply Hfail. lia.
      * replace (S n + k)%nat with (n + S k)%nat by lia. exact Hok.
      * destruct (host w n req) as [r0|e]; [discriminate|].
        rewrite Hev.
        eexists. split; [|split].
        -- f_equal. f_equal. lia.
        -- simpl. now rewrite Hc.
        -- simpl. now rewrite Hs.
Qed.

(** Every call raises: the wrapper gives up after [remaining + 1] calls
    with the exception of the last one. *)
Lemma attempt_exhausted (remaining : nat) :
  forall (attempt_number n : nat),
    (forall i, (i <= remaining)%nat -> returned (host w (n + i) req) = false) ->
    exists ev e,
      attempt remaining attempt_number n
      = (ev, (n + remaining + 1)%nat, Raise (if reraise then e else RetryError e)) /\
      host w (n + remaining) req = Raise e /\
      creates ev = repeat req (remaining + 1) /\
      List.length (sleeps ev) = remaining.
Proof.
  induction remaining as [|remaining IH]; intros a n Hfail.
  - pose proof (Hfail 0%nat ltac:(lia)) as H0. rewrite Nat.add_0_r in *.
    rewrite attempt_last.
    destruct (host w n req) as [r0|e]; [discriminate|].
    exists [Create req], e. repeat split. f_equal. f_equal. lia.
  - pose proof (Hfail 0%nat ltac:(lia)) as H0. rewrite Nat.add_0_r in H0.
    destruct (IH (S a) (S n)) as (ev & e & Hev & He & Hc & Hs).
    { intros i Hi. replace (S n + i)%nat with (n + S i)%nat by lia.
      apply Hfail. lia. }
    rewrite attempt_again.
    destruct (host w n req) as [r0|e0]; [discriminate|].
    rewrite Hev.
    eexists. exists e. split; [|split; [|split]].
    + f_equal. f_equal. lia.
    + replace (n + S remaining)%nat with (S n + remaining)%nat by lia. exact He.
    + simpl. now rewrite Hc.
    + simpl. now rewrite Hs.
Qed.

(** Every wait of the wrapper is [wait] of some attempt and some draw. *)
Lemma attempt_sleeps (remaining : nat) :
  forall (attempt_number n : nat) (d : Q),
    In d (sleeps (fst (fst (attempt remaining attempt_number n)))) ->
    exists a m, d = wait a (uniform w m).
Proof.
  induction remaining as [|remaining IH]; intros a n d.
  - rewrite attempt_last. destruct (host w n req); simpl; tauto.
  - rewrite attempt_again.
    destruct (host w n req) as [r0|e0]; [simpl; tauto|].
    destruct (attempt remaining (S a) (S n)) as ((ev & n') & r) eqn:E.
    simpl. intros [<-|H]; [eauto|].
    apply (IH (S a) (S n)). now rewrite E.
Qed.

End RetryFacts.

(** ** Results per request (C1, C2) *)

Lemma attempt_head wait reraise (w : world) (req : Request) (remaining a n : nat) :
  exists ev,
    fst (fst (Tenacity.attempt wait reraise w (Main.create w req) remaining a n))
    = Create req :: ev.
Proof.
  destruct remaining as [|remaining].
  - rewrite attempt_last. destruct (host w n req); eexists; reflexivity.
  - rewrite attempt_again. destruct (host w n req); [eexists; reflexivity|].
    destruct (Tenacity.attempt _ _ _ _ _ _ _) as ((ev & n') & r).
    eexists; reflexivity.
Qed.

Lemma Forall2_filter_all {A B} (P : A -> B -> Prop) (f : A -> bool)
      (l : list A) (l' : list B) :
  forallb f l = true -> Forall2 P (filter f l) l' -> Forall2 P l l'.
Proof.
  intros Hall. replace (filter f l) with l; [auto|].
  induction l as [|x l IH]; [reflexivity|].
  simpl in *. apply andb_true_iff in Hall. destruct Hall as (Hx & Hl).
  rewrite Hx. f_equal. auto.
Qed.

(** C1, as amended: when the execution of a turn's collected requests
    returns, the results it hands over are, in the order of the requests,
    exactly one for each request whose tool has a local handler, each with
    the call id of its request (so one per request when every tool has a
    handler); and these results are the input of the request that the
    driver then sends to the host.  A request whose tool has no handler
    gets no result. *)
Theorem C1_one_result_per_handled_request
        (json_loads : string -> option pyval) (league : FantasyData.League)
        (calls : list tool_call) (outs : list function_call_output) :
  snd (Main.execute_function_calls json_loads league calls []) = Return outs ->
  Forall2 answers (filter has_local_handler calls) outs /\
  List.length outs = List.length (filter has_local_handler calls) /\
  (forallb has_local_handler calls = true -> Forall2 answers calls outs) /\
  (forall instructions_text w fuel response n,
      function_calls_of (output response) = calls ->
      calls <> [] ->
      exists ev ev',
        fst (fst (Main.conversation json_loads league instructions_text w
                                    (S fuel) response n))
        = (ev ++ Create (Main.continuation instructions_text response outs) :: ev')%list
        /\ creates ev = []
        /\ input (Main.continuation instructions_text response outs) = Outputs outs).
Proof.
  intros Hr.
  destruct (execute_returns json_loads league calls [] outs Hr) as (new & -> & Hnew & Hinv).
  cbn [app]. split; [exact Hnew|]. split; [|split].
  - symmetry. eapply Forall2_length. exact Hnew.
  - intros Hall. eapply Forall2_filter_all; eassumption.
  - intros instructions_text w fuel response n Hc Hne.
    rewrite conversation_step. cbv zeta. rewrite Hc.
    destruct calls as [|call calls]; [congruence|].
    destruct (Main.execute_function_calls json_loads league (call :: calls) [])
      as (ev1 & r1) eqn:He.
    cbn [snd] in Hr. subst r1.
    pose proof (round_prefix_local json_loads league response (call :: calls) []) as Hloc.
    rewrite He in Hloc. cbn [fst] in Hloc. apply local_no_create in Hloc.
    unfold Main.responses_with_backoff, Tenacity.retry.
    destruct (attempt_head (Tenacity.wait_random_exponential 1 60) false w
                (Main.continuation instructions_text response new) (6 - 1) 1 n)
      as (ev2 & Hev2).
    destruct (Tenacity.attempt _ _ _ _ _ _ _) as ((ev2' & n') & [response'|e]);
      simpl in Hev2; subst ev2'.
    + destruct (Main.conversation _ _ _ _ fuel response' n') as ((ev3 & n'') & r).
      exists ((usage_events response ++ fst (Main.scan_output (output response))) ++ ev1)%list.
      eexists. split; [|split; [|reflexivity]].
      * cbn [fst]. rewrite <- !app_assoc. reflexivity.
      * exact Hloc.
    + exists ((usage_events response ++ fst (Main.scan_output (output response))) ++ ev1)%list.
      eexists. split; [|split; [|reflexivity]].
      * cbn [fst]. rewrite <- !app_assoc. reflexivity.
      * exact Hloc.
Qed.

(** Three requests on the sample league, the second for a tool that does
    not exist: two results, for the first and the third. *)
Lemma C1_one_result_per_handled_request_witness :
  exists outs,
    snd (Main.execute_function_calls
           JsonLite.json_loads Sample.league
           [Sample.stats_call; Sample.unknown_call; Sample.waiver_call] [])
    = Return outs /\
    map fco_call_id outs = [Some "call_2"; Some "call_3"] /\
    Forall2 answers [Sample.stats_call; Sample.waiver_call] outs.
Proof.
  destruct (C1_one_result_per_handled_request
              JsonLite.json_loads Sample.league
              [Sample.stats_call; Sample.unknown_call; Sample.waiver_call] _ eq_refl)
    as (H1 & _).
  eexists. split; [reflexivity|]. split; [reflexivity|exact H1].
Defined.

(** C1 as stated fails: a turn whose only collected request names a tool
    without a local handler is resubmitted with no result at all, so its
    call id stays unanswered. *)
Lemma C1_unanswered_request_counterexample :
  function_calls_of (output Sample.asks_unknown) = [Sample.unknown_call] /\
  snd (Main.execute_function_calls JsonLite.json_loads Sample.league
                                   [Sample.unknown_call] [])
  = Return [] /\
  exists ev,
    Sample.analyze (Sample.two_step_host Sample.asks_unknown Sample.the_end) 0%nat
    = (ev, 2%nat, Return (Some "done")) /\
    map input (creates ev)
    = [Prompt "Analyze this fantasy football team"; Outputs []].
Proof.
  split; [reflexivity|]. split; [reflexivity|].
  eexists. split; [vm_compute; reflexivity|reflexivity].
Qed.

(** C2, as amended: for every request whose tool name is missing, empty or
    not one of the three tools with a local handler, [dispatch] returns
    without raising, calls no handler and adds no result: the results
    collected so far come back unchanged. *)
Theorem C2_no_handler_no_result
        (json_loads : string -> option pyval) (league : FantasyData.League)
        (call : tool_call) (outs : list function_call_output) :
  has_local_handler call = false ->
  snd (Main.dispatch json_loads league call outs) = Return outs /\
  Forall is_print (fst (Main.dispatch json_loads league call outs)) /\
  invocations (fst (Main.dispatch json_loads league call outs)) = [].
Proof.
  intros H.
  destruct (dispatch_no_handler json_loads league call outs H) as (Hs & Hp).
  repeat split; auto. now apply invocations_prints.
Qed.

Lemma C2_no_handler_no_result_witness :
  snd (Main.dispatch JsonLite.json_loads Sample.league Sample.unknown_call []) = Return [] /\
  Forall is_print
         (fst (Main.dispatch JsonLite.json_loads Sample.league Sample.unknown_call [])) /\
  invocations (fst (Main.dispatch JsonLite.json_loads Sample.league Sample.unknown_call []))
  = [].
Proof.
  apply (C2_no_handler_no_result JsonLite.json_loads Sample.league Sample.unknown_call []).
  reflexivity.
Defined.

(** C2 as stated fails: for the tool name [does_not_exist], [dispatch]
    prints the name and returns the empty list of results that it was
    given; there is no result, hence no error payload. *)
Lemma C2_unknown_tool_counterexample :
  Main.dispatch JsonLite.json_loads Sample.league Sample.unknown_call []
  = ([Print (ToolCall "does_not_exist")], Return []).
Proof. reflexivity. Qed.

(** ** Exceptions and malformed arguments (C3, C4) *)

Lemma dispatch_handler_outcome
      (json_loads : string -> option pyval) (league : FantasyData.League)
      (call : tool_call) (d : list (string * pyval)) (o : result pyval)
      (outs : list function_call_output) :
  Main.parse_arguments json_loads call = PyDict d ->
  handler_outcome league (tc_name call) d o ->
  snd (Main.dispatch json_loads league call outs)
  = match o with
    | Return r => Return (outs ++ [result_for call r])%list
    | Raise e => Raise e
    end.
Proof.
  intros Hargs Ho. unfold Main.dispatch. rewrite Hargs.
  inversion Ho as [d' Hn Hd Hr|d' Hn Hd Hr|d' Hn Hd Hr]; subst d';
    cbn [String.eqb Ascii.eqb Bool.eqb]; unfold Main.execute_tool;
    cbn [String.eqb Ascii.eqb Bool.eqb]; unfold py_get;
    cbn [lift lbind print lret]; fold (dict_get d "position" PyNone);
    fold (dict_get d "size" (PyInt 3)); fold (dict_get d "team_id" PyNone);
    fold (dict_get d "player_id" PyNone); rewrite Hr;
    destruct o as [r|e]; destruct (py_truthy (PyDict d)); try reflexivity.
  - destruct (py_has_key r "available_players"); reflexivity.
  - destruct (py_has_key r "available_players"); reflexivity.
  - destruct (py_has_key r "team_name"), (py_has_key r "error"); reflexivity.
  - destruct (py_has_key r "team_name"), (py_has_key r "error"); reflexivity.
  - destruct (py_has_key r "name"), (py_has_key r "error"); reflexivity.
  - destruct (py_has_key r "name"), (py_has_key r "error"); reflexivity.
Qed.

Lemma execute_raises_at
      (json_loads : string -> option pyval) (league : FantasyData.League)
      (before : list tool_call) (call : tool_call) (after : list tool_call)
      (outs outs1 : list function_call_output) (e : exn) :
  snd (Main.execute_function_calls json_loads league before outs) = Return outs1 ->
  snd (Main.dispatch json_loads league call outs1) = Raise e ->
  snd (Main.execute_function_calls json_loads league (before ++ call :: after) outs)
  = Raise e.
Proof.
  intros Hb Hc. rewrite execute_app. unfold lbind.
  destruct (Main.execute_function_calls json_loads league before outs) as (ev & r).
  simpl in Hb. subst r. rewrite execute_cons. unfold lbind.
  destruct (Main.dispatch json_loads league call outs1) as (ev1 & r1).
  simpl in Hc. subst r1. reflexivity.
Qed.

(** C3, as amended: [dispatch] does not catch what a handler raises.  If
    the handler that serves a request raises [e] on the parameters taken
    from the request's arguments, [dispatch] raises [e] (whereas a value
    that the handler returns, an error payload included, becomes the
    request's result); the execution of the turn's requests raises [e] at
    that request, whatever comes after it; and the conversation loop ends
    there with [e], without another call of the host. *)
Theorem C3_handler_exception_propagates
        (json_loads : string -> option pyval) (league : FantasyData.League) :
  (forall call d e outs,
      Main.parse_arguments json_loads call = PyDict d ->
      handler_outcome league (tc_name call) d (Raise e) ->
      snd (Main.dispatch json_loads league call outs) = Raise e) /\
  (forall call d r outs,
      Main.parse_arguments json_loads call = PyDict d ->
      handler_outcome league (tc_name call) d (Return r) ->
      snd (Main.dispatch json_loads league call outs)
      = Return (outs ++ [result_for call r])%list) /\
  (forall before call after outs outs1 e,
      snd (Main.execute_function_calls json_loads league before outs) = Return outs1 ->
      snd (Main.dispatch json_loads league call outs1) = Raise e ->
      snd (Main.execute_function_calls json_loads league (before ++ call :: after) outs)
      = Raise e) /\
  (forall instructions_text w fuel response n e,
      snd (Main.execute_function_calls json_loads league
                                       (function_calls_of (output response)) [])
      = Raise e ->
      exists ev,
        Main.conversation json_loads league instructions_text w (S fuel) response n
        = (ev, n, Raise e) /\ creates ev = []).
Proof.
  split; [|split; [|split]].
  - intros call d e outs Ha Ho.
    apply (dispatch_handler_outcome json_loads league call d (Raise e) outs Ha Ho).
  - intros call d r outs Ha Ho.
    apply (dispatch_handler_outcome json_loads league call d (Return r) outs Ha Ho).
  - intros. eapply execute_raises_at; eassumption.
  - intros instructions_text w fuel response n e He.
    rewrite conversation_step. cbv zeta.
    pose proof (round_prefix_local json_loads league response
                  (function_calls_of (output response)) []) as Hloc.
    destruct (function_calls_of (output response)) as [|call calls]; [discriminate|].
    destruct (Main.execute_function_calls json_loads league (call :: calls) [])
      as (ev1 & r1).
    cbn [fst snd] in *. subst r1.
    eexists. split; [reflexivity|]. now apply local_no_create.
Qed.

(** The sample league asked for the waiver wire with the size ["ten"]: the
    handler raises a [TypeError], and so do [dispatch] and the loop. *)
Lemma C3_handler_exception_propagates_witness :
  snd (Main.dispatch JsonLite.json_loads Sample.league Sample.bad_size_call [])
  = Raise (TypeError "slice indices must be integers or None or have an __index__ method") /\
  snd (Main.dispatch JsonLite.json_loads Sample.league Sample.stats_call [])
  = Return [result_for Sample.stats_call (player_not_found (PyInt 301))] /\
  exists ev,
    Main.conversation JsonLite.json_loads Sample.league Sample.instructions_text
                      (Sample.two_step_host Sample.asks_bad_size Sample.the_end)
                      1 Sample.asks_bad_size 1%nat
    = (ev, 1%nat,
       Raise (TypeError "slice indices must be integers or None or have an __index__ method"))
    /\ creates ev = [].
Proof.
  destruct (C3_handler_exception_propagates JsonLite.json_loads Sample.league)
    as (Hraise & Hreturn & _ & Hloop).
  split; [|split].
  - exact (Hraise Sample.bad_size_call [("size", PyStr "ten")] _ [] eq_refl
                  (waiver_wire_outcome Sample.league [("size", PyStr "ten")])).
  - exact (Hreturn Sample.stats_call [("player_id", PyInt 301)]
                   (player_not_found (PyInt 301)) [] eq_refl
                   (player_stats_outcome Sample.league [("player_id", PyInt 301)])).
  - apply Hloop. reflexivity.
Defined.

(** C3 as stated fails: the handler of [get_waiver_wire] raises a
    [TypeError] on the size ["ten"]; [dispatch] raises it too instead of
    answering an error payload, and the whole analysis ends with it after
    its first call of the host. *)
Lemma C3_uncaught_handler_exception_counterexample :
  FantasyData.get_waiver_wire_for_tool Sample.league PyNone (PyStr "ten")
  = Raise (TypeError "slice indices must be integers or None or have an __index__ method") /\
  Main.dispatch JsonLite.json_loads Sample.league Sample.bad_size_call []
  = ([Print (ToolCall "get_waiver_wire");
      Print (Parameters (json_dumps (PyDict [("size", PyStr "ten")])));
      Invoke "get_waiver_wire" (Some "call_4") [PyNone; PyStr "ten"]],
     Raise (TypeError "slice indices must be integers or None or have an __index__ method")) /\
  snd (Sample.analyze (Sample.two_step_host Sample.asks_bad_size Sample.the_end) 0%nat)
  = Raise (TypeError "slice indices must be integers or None or have an __index__ method") /\
  snd (fst (Sample.analyze (Sample.two_step_host Sample.asks_bad_size Sample.the_end) 0%nat))
  = 1%nat.
Proof. repeat split; vm_compute; reflexivity. Qed.

Lemma none_on_no_roster (league : FantasyData.League) : ~ on_a_roster league PyNone.
Proof.
  intros (tp & _ & H). unfold FantasyData.has_player_id in H.
  destruct (FantasyData.playerId (snd tp)); discriminate.
Qed.

(** With no arguments at all, each of the three handlers returns. *)
Lemma handlers_return_on_defaults (league : FantasyData.League) :
  (exists r, FantasyData.get_waiver_wire_for_tool league PyNone (PyInt 3) = Return r) /\
  (exists r, FantasyData.get_team_details_for_tool league PyNone = Return r) /\
  FantasyData.get_player_stats_for_tool league PyNone = Return (player_not_found PyNone).
Proof.
  split; [|split].
  - unfold FantasyData.get_waiver_wire_for_tool. simpl.
    destruct (slice_to 3 _); eexists; reflexivity.
  - unfold FantasyData.get_team_details_for_tool.
    destruct (find _ _); eexists; reflexivity.
  - apply player_stats_not_found, none_on_no_roster.
Qed.

Lemma parse_unparseable (json_loads : string -> option pyval) (call : tool_call)
      (s : string) :
  tc_arguments call = Some s -> json_loads s = None ->
  Main.parse_arguments json_loads call = PyDict [].
Proof.
  intros Ha Hs. unfold Main.parse_arguments. now rewrite Ha, Hs.
Qed.

(** C4: when the arguments of a request are not parseable as JSON,
    [dispatch] takes them to be the empty mapping, calls the handler of the
    request's tool with the parameters that an empty mapping gives
    (position None and size 3; team_id None; player_id None), hands over
    the handler's result, and raises nothing. *)
Theorem C4_unparseable_arguments_are_empty
        (json_loads : string -> option pyval) (league : FantasyData.League)
        (call : tool_call) (s : string) (outs : list function_call_output) :
  tc_arguments call = Some s ->
  json_loads s = None ->
  Main.parse_arguments json_loads call = PyDict [] /\
  returned (snd (Main.dispatch json_loads league call outs)) = true /\
  (tc_name call = Some "get_waiver_wire" ->
   exists r,
     FantasyData.get_waiver_wire_for_tool league PyNone (PyInt 3) = Return r /\
     snd (Main.dispatch json_loads league call outs)
     = Return (outs ++ [result_for call r])%list /\
     In (Invoke "get_waiver_wire" (tc_call_id call) [PyNone; PyInt 3])
        (fst (Main.dispatch json_loads league call outs))) /\
  (tc_name call = Some "get_team_details" ->
   exists r,
     FantasyData.get_team_details_for_tool league PyNone = Return r /\
     snd (Main.dispatch json_loads league call outs)
     = Return (outs ++ [result_for call r])%list /\
     In (Invoke "get_team_details" (tc_call_id call) [PyNone])
        (fst (Main.dispatch json_loads league call outs))) /\
  (tc_name call = Some "get_player_stats" ->
   exists r,
     FantasyData.get_player_stats_for_tool league PyNone = Return r /\
     snd (Main.dispatch json_loads league call outs)
     = Return (outs ++ [result_for call r])%list /\
     In (Invoke "get_player_stats" (tc_call_id call) [PyNone])
        (fst (Main.dispatch json_loads league call outs))).
Proof.
  intros Ha Hs.
  pose proof (parse_unparseable json_loads call s Ha Hs) as Hp.
  destruct (handlers_return_on_defaults league) as ((rw & Hw) & (rt & Ht) & Hps).
  assert (tc_name call = Some "get_waiver_wire" ->
          exists r,
            FantasyData.get_waiver_wire_for_tool league PyNone (PyInt 3) = Return r /\
            snd (Main.dispatch json_loads league call outs)
            = Return (outs ++ [result_for call r])%list /\
            In (Invoke "get_waiver_wire" (tc_call_id call) [PyNone; PyInt 3])
               (fst (Main.dispatch json_loads league call outs))) as Cw.
  { intros Hn. exists rw. split; [exact Hw|].
    unfold Main.dispatch. rewrite Hp, Hn.
    cbn [String.eqb Ascii.eqb Bool.eqb]. unfold Main.execute_tool.
    cbn [String.eqb Ascii.eqb Bool.eqb]. simpl. rewrite Hw.
    destruct (py_has_key rw "available_players"); simpl; auto. }
  assert (tc_name call = Some "get_team_details" ->
          exists r,
            FantasyData.get_team_details_for_tool league PyNone = Return r /\
            snd (Main.dispatch json_loads league call outs)
            = Return (outs ++ [result_for call r])%list /\
            In (Invoke "get_team_details" (tc_call_id call) [PyNone])
               (fst (Main.dispatch json_loads league call outs))) as Ct.
  { intros Hn. exists rt. split; [exact Ht|].
    unfold Main.dispatch. rewrite Hp, Hn.
    cbn [String.eqb Ascii.eqb Bool.eqb]. unfold Main.execute_tool.
    cbn [String.eqb Ascii.eqb Bool.eqb]. simpl. rewrite Ht.
    destruct (py_has_key rt "team_name"), (py_has_key rt "error"); simpl; auto. }
  assert (tc_name call = Some "get_player_stats" ->
          exists r,
            FantasyData.get_player_stats_for_tool league PyNone = Return r /\
            snd (Main.dispatch json_loads league call outs)
            = Return (outs ++ [result_for call r])%list /\
            In (Invoke "get_player_stats" (tc_call_id call) [PyNone])
               (fst (Main.dispatch json_loads league call outs))) as Cs.
  { intros Hn. eexists. split; [exact Hps|].
    unfold Main.dispatch. rewrite Hp, Hn.
    cbn [String.eqb Ascii.eqb Bool.eqb]. unfold Main.execute_tool.
    cbn [String.eqb Ascii.eqb Bool.eqb]. simpl. rewrite Hps. simpl. auto. }
  split; [exact Hp|]. split; [|auto].
  destruct (has_local_handler call) eqn:Hh.
  - unfold has_local_handler in Hh.
    destruct (tc_name call) as [tool_name|] eqn:Hn; [|discriminate].
    simpl in Hh. rewrite !orb_true_iff in Hh.
    destruct Hh as [Hh|[Hh|[Hh|Hh]]]; try discriminate;
      apply String.eqb_eq in Hh; subst tool_name.
    + destruct (Cw eq_refl) as (r & _ & -> & _). reflexivity.
    + destruct (Ct eq_refl) as (r & _ & -> & _). reflexivity.
    + destruct (Cs eq_refl) as (r & _ & -> & _). reflexivity.
  - destruct (dispatch_no_handler json_loads league call outs Hh) as (-> & _).
    reflexivity.
Qed.

(** The sample league and a waiver-wire request whose arguments break off
    in the middle: the handler is called with position None and size 3. *)
Lemma C4_unparseable_arguments_are_empty_witness :
  Main.parse_arguments JsonLite.json_loads Sample.malformed_call = PyDict [] /\
  returned (snd (Main.dispatch JsonLite.json_loads Sample.league Sample.malformed_call []))
  = true /\
  In (Invoke "get_waiver_wire" (Some "call_5") [PyNone; PyInt 3])
     (fst (Main.dispatch JsonLite.json_loads Sample.league Sample.malformed_call [])).
Proof.
  destruct (C4_unparseable_arguments_are_empty
              JsonLite.json_loads Sample.league Sample.malformed_call
              "{position: RB" [] eq_refl eq_refl)
    as (Hp & Hr & Hw & _).
  split; [exact Hp|]. split; [exact Hr|].
  destruct (Hw eq_refl) as (r & _ & _ & Hin). exact Hin.
Defined.

(** ** The end of the conversation (C5, C6) *)

Lemma append_empty_r (s : string) : s ++ "" = s.
Proof. induction s as [|c s IH]; simpl; [reflexivity|now rewrite IH]. Qed.

Lemma append_assoc (a b c : string) : (a ++ b) ++ c = a ++ (b ++ c).
Proof. induction a as [|x a IH]; simpl; [reflexivity|now rewrite IH]. Qed.

Lemma concat_cons (x : string) (xs : list string) :
  String.concat "" (x :: xs) = x ++ String.concat "" xs.
Proof.
  destruct xs as [|y ys]; [simpl; now rewrite append_empty_r|reflexivity].
Qed.

Lemma concat_app (l l' : list string) :
  String.concat "" (l ++ l') = String.concat "" l ++ String.concat "" l'.
Proof.
  induction l as [|x l IH]; [reflexivity|].
  change ((x :: l) ++ l')%list with (x :: (l ++ l'))%list.
  now rewrite !concat_cons, IH, append_assoc.
Qed.

(** The text that the fallback of lines 325-334 collects is the
    concatenation of the message items' text fragments, in order. *)
Lemma message_texts_fragments (output : list item) :
  String.concat "" (map Main.message_text output)
  = String.concat "" (text_fragments output).
Proof.
  induction output as [|it output IH]; [reflexivity|].
  change (map Main.message_text (it :: output))
    with (Main.message_text it :: map Main.message_text output).
  unfold text_fragments in *. cbn [flat_map].
  rewrite concat_cons, concat_app, IH. f_equal.
  destruct it as [q|c|[content|]|]; try reflexivity.
  unfold Main.message_text.
  induction content as [|c content IHc]; [reflexivity|].
  cbn [map flat_map]. rewrite concat_cons, concat_app, IHc. f_equal.
  destruct (content_type c) as [t|], (content_text c) as [text|]; try reflexivity.
  destruct (String.eqb t "output_text"); [|reflexivity].
  simpl. reflexivity.
Qed.

Section AnalyzeFacts.
Variable json_loads : string -> option pyval.
Variable league : FantasyData.League.
Variable instructions_text : string.
Variable w : world.

Let analyze_with_openai := Main.analyze_with_openai json_loads league instructions_text w.
Let conversation := Main.conversation json_loads league instructions_text w.

(** A run, case by case. *)
Lemma analyze_step (fuel : nat) (prompt : string) (n : nat) :
  analyze_with_openai fuel prompt n =
  match Main.responses_with_backoff w (first_request instructions_text prompt) n with
  | (ev1, n1, Raise e) => (Print StartingAnalysis :: ev1, n1, Raise e)
  | (ev1, n1, Return response) =>
      match conversation fuel response n1 with
      | (ev2, n2, Raise e) => (Print StartingAnalysis :: ev1 ++ ev2, n2, Raise e)
      | (ev2, n2, Return None) => (Print StartingAnalysis :: ev1 ++ ev2, n2, Return None)
      | (ev2, n2, Return (Some last)) =>
          (Print StartingAnalysis :: ev1 ++ ev2 ++ [Print AnalysisComplete], n2,
           Return (Some (Main.final_text last)))
      end
  end%list.
Proof.
  unfold analyze_with_openai, Main.analyze_with_openai, iobind, run_logged, ret, print.
  cbn [fst snd]. fold (first_request instructions_text prompt).
  destruct (Main.responses_with_backoff w (first_request instructions_text prompt) n)
    as ((ev1 & n1) & [response|e]); [|reflexivity].
  fold conversation.
  destruct (conversation fuel response n1) as ((ev2 & n2) & [[last|]|e]);
    cbn [app]; rewrite ?app_nil_r; reflexivity.
Qed.

End AnalyzeFacts.

Lemma first_attempt_answers (w : world) (req : Request) (n : nat) (response : Response) :
  host w n req = Return response ->
  Main.responses_with_backoff w req n = ([Create req], S n, Return response).
Proof.
  intros H. unfold Main.responses_with_backoff, Tenacity.retry. simpl Nat.sub.
  rewrite attempt_again, H. reflexivity.
Qed.

(** C5: a response whose output has no function-call item ends the loop,
    however many web-search items it has.  The scan of an output collects
    its function-call items, in order, and only prints for the others (a
    web-search item is neither dispatched nor an error, and adding one
    changes nothing of what is collected); on such a response the loop
    returns at once, with no handler called and no further call of the
    host; and a run whose first response is such returns its text after
    that single call. *)
Theorem C5_no_function_call_ends_the_loop
        (json_loads : string -> option pyval) (league : FantasyData.League)
        (instructions_text : string) (w : world) :
  (forall output,
      snd (Main.scan_output output) = Return (function_calls_of output) /\
      Forall is_print (fst (Main.scan_output output))) /\
  (forall query before after,
      function_calls_of (before ++ web_search_call query :: after)
      = function_calls_of (before ++ after)) /\
  (forall fuel response n,
      function_calls_of (output response) = [] ->
      Main.conversation json_loads league instructions_text w (S fuel) response n
      = ((usage_events response ++ fst (Main.scan_output (output response)))%list, n,
         Return (Some response))) /\
  (forall fuel prompt response n,
      host w n (first_request instructions_text prompt) = Return response ->
      function_calls_of (output response) = [] ->
      exists ev,
        Main.analyze_with_openai json_loads league instructions_text w (S fuel) prompt n
        = (ev, S n, Return (Some (Main.final_text response))) /\
        creates ev = [first_request instructions_text prompt] /\
        invocations ev = []).
Proof.
  split; [|split; [|split]].
  - intros output. destruct (scan_output_calls output) as (Hs & Hp).
    split; [now rewrite Hs|exact Hp].
  - apply function_calls_of_web_search.
  - intros fuel response n Hc. rewrite conversation_step. cbv zeta. now rewrite Hc.
  - intros fuel prompt response n Hh Hc.
    rewrite analyze_step, (first_attempt_answers _ _ _ _ Hh).
    rewrite conversation_step. cbv zeta. rewrite Hc.
    eexists. split; [reflexivity|].
    assert (Forall is_print
              (usage_events response ++ fst (Main.scan_output (output response)))) as Hp.
    { apply Forall_app. split; [apply usage_events_print|apply scan_output_calls]. }
    split.
    + cbn [creates flat_map app]. f_equal.
      change (flat_map _ ?l) with (creates l).
      rewrite creates_app, (local_no_create _ (print_is_local _ Hp)). reflexivity.
    + cbn [invocations flat_map app].
      change (flat_map _ ?l) with (invocations l).
      rewrite invocations_app, (invocations_prints _ Hp). reflexivity.
Qed.

(** A first response with two web searches and a message: the run ends
    after its only call of the host and returns the message's text. *)
Lemma C5_no_function_call_ends_the_loop_witness :
  exists ev,
    Sample.analyze (Sample.two_step_host Sample.searched Sample.the_end) 0%nat
    = (ev, 1%nat, Return (Some "Start Quinn.")) /\
    creates ev = [first_request Sample.instructions_text
                                "Analyze this fantasy football team"] /\
    invocations ev = [].
Proof.
  exact (proj2 (proj2 (proj2
           (C5_no_function_call_ends_the_loop
              JsonLite.json_loads Sample.league Sample.instructions_text
              (Sample.two_step_host Sample.searched Sample.the_end))))
           7%nat "Analyze this fantasy football team" Sample.searched 0%nat
           eq_refl eq_refl).
Defined.

Lemma final_text_cases (response : Response) :
  (forall t, output_text response = Some t -> t <> "" -> Main.final_text response = t) /\
  (output_text response = None \/ output_text response = Some "" ->
   String.concat "" (text_fragments (output response)) <> "" ->
   Main.final_text response = String.concat "" (text_fragments (output response))) /\
  (output_text response = None \/ output_text response = Some "" ->
   String.concat "" (text_fragments (output response)) = "" ->
   Main.final_text response = "Analysis complete.").
Proof.
  unfold Main.final_text. rewrite message_texts_fragments.
  set (fallback := String.concat "" (text_fragments (output response))).
  split; [|split].
  - intros t -> Ht. apply String.eqb_neq in Ht. now rewrite Ht.
  - intros Ho Hf. apply String.eqb_neq in Hf.
    destruct Ho as [->| ->]; simpl; now rewrite Hf.
  - intros Ho Hf. destruct Ho as [->| ->]; simpl; now rewrite Hf.
Qed.

(** C6, as amended: when the loop ends with a response, the run returns
    the text extracted from that response, which asks for no tool call: the
    response's [output_text] when it has one that is not empty; otherwise
    the concatenation, in order, of the text fragments of the message items
    of its output, when that is not empty; otherwise the fixed text
    "Analysis complete.". *)
Theorem C6_final_text
        (json_loads : string -> option pyval) (league : FantasyData.League)
        (instructions_text : string) (w : world) :
  (forall fuel prompt n ev1 n1 response ev2 n2 last,
      Main.responses_with_backoff w (first_request instructions_text prompt) n
      = (ev1, n1, Return response) ->
      Main.conversation json_loads league instructions_text w fuel response n1
      = (ev2, n2, Return (Some last)) ->
      Main.analyze_with_openai json_loads league instructions_text w fuel prompt n
      = ((Print StartingAnalysis :: ev1 ++ ev2 ++ [Print AnalysisComplete])%list, n2,
         Return (Some (Main.final_text last)))) /\
  (forall fuel prompt n ev n' text,
      Main.analyze_with_openai json_loads league instructions_text w fuel prompt n
      = (ev, n', Return (Some text)) ->
      exists last,
        function_calls_of (output last) = [] /\ text = Main.final_text last) /\
  (forall last,
      (forall t, output_text last = Some t -> t <> "" -> Main.final_text last = t) /\
      (output_text last = None \/ output_text last = Some "" ->
       String.concat "" (text_fragments (output last)) <> "" ->
       Main.final_text last = String.concat "" (text_fragments (output last))) /\
      (output_text last = None \/ output_text last = Some "" ->
       String.concat "" (text_fragments (output last)) = "" ->
       Main.final_text last = "Analysis complete.")).
Proof.
  split; [|split].
  - intros fuel prompt n ev1 n1 response ev2 n2 last Hr Hc.
    now rewrite analyze_step, Hr, Hc.
  - intros fuel prompt n ev n' text. rewrite analyze_step.
    destruct (Main.responses_with_backoff _ _ _) as ((ev1 & n1) & [response|e]);
      [|discriminate].
    destruct (Main.conversation json_loads league instructions_text w fuel response n1)
      as ((ev2 & n2) & [[last|]|e]) eqn:Hconv; try discriminate.
    intros H. inversion H; subst. exists last.
    split; [eapply conversation_last; exact Hconv|reflexivity].
  - apply final_text_cases.
Qed.

(** The run of the C5 example: its last response has no [output_text], and
    the run returns the concatenation of its two fragments. *)
Lemma C6_final_text_witness :
  (exists last,
      function_calls_of (output last) = [] /\ "Start Quinn." = Main.final_text last) /\
  Main.final_text Sample.searched
  = String.concat "" (text_fragments (output Sample.searched)) /\
  Main.final_text (Sample.a_response "resp_3" [Sample.said "ignored"] (Some "Bench Rex."))
  = "Bench Rex.".
Proof.
  destruct (C6_final_text
              JsonLite.json_loads Sample.league Sample.instructions_text
              (Sample.two_step_host Sample.searched Sample.the_end))
    as (_ & Hrun & Htext).
  split; [|split].
  - exact (Hrun 8%nat "Analyze this fantasy football team" 0%nat _ 1%nat
                "Start Quinn." eq_refl).
  - apply (proj1 (proj2 (Htext Sample.searched))); [now left|discriminate].
  - apply (proj1 (Htext (Sample.a_response "resp_3" [Sample.said "ignored"]
                                            (Some "Bench Rex.")))
                 "Bench Rex."); [reflexivity|discriminate].
Defined.

(** C6 as stated fails: a final response without [output_text] and
    without message text has the empty concatenation of fragments, and the
    run returns "Analysis complete." instead. *)
Lemma C6_default_text_counterexample :
  output_text Sample.silent = None /\
  String.concat "" (text_fragments (output Sample.silent)) = "" /\
  Main.final_text Sample.silent = "Analysis complete." /\
  snd (Sample.analyze (Sample.two_step_host Sample.silent Sample.the_end) 0%nat)
  = Return (Some "Analysis complete.").
Proof. repeat split; vm_compute; reflexivity. Qed.

(** ** Order of dispatch (C7) *)

Lemma answers_call_ids (calls : list tool_call) (outs : list function_call_output) :
  Forall2 answers calls outs ->
  map fco_call_id outs = map snd (map invocation_of calls).
Proof.
  induction 1 as [|call out calls outs (_ & Hid) _ IH]; [reflexivity|].
  simpl. now rewrite Hid, IH.
Qed.

(** C7: the tool-call items of a response are collected in the order of
    its output; the collected requests are executed one after the other in
    that order (the events of the first requests all come before those of
    the later ones, and the handlers called are, in order, those of the
    first requests that have one); and when the execution returns, every
    such handler was called and the results stand in the order of these
    calls, with their call ids. *)
Theorem C7_dispatch_in_output_order
        (json_loads : string -> option pyval) (league : FantasyData.League) :
  (forall output,
      snd (Main.scan_output output) = Return (function_calls_of output)) /\
  (forall calls rest outs,
      Main.execute_function_calls json_loads league (calls ++ rest) outs
      = lbind (Main.execute_function_calls json_loads league calls outs)
              (Main.execute_function_calls json_loads league rest)) /\
  (forall calls outs,
      exists later,
        map invocation_of (filter has_local_handler calls)
        = (invocations (fst (Main.execute_function_calls json_loads league calls outs))
           ++ later)%list) /\
  (forall calls outs outs',
      snd (Main.execute_function_calls json_loads league calls outs) = Return outs' ->
      exists new,
        outs' = (outs ++ new)%list /\
        invocations (fst (Main.execute_function_calls json_loads league calls outs))
        = map invocation_of (filter has_local_handler calls) /\
        map fco_call_id new
        = map snd (invocations
                     (fst (Main.execute_function_calls json_loads league calls outs)))).
Proof.
  split; [|split; [|split]].
  - intros output. destruct (scan_output_calls output) as (Hs & _). now rewrite Hs.
  - apply execute_app.
  - apply execute_invocations_prefix.
  - intros calls outs outs' Hr.
    destruct (execute_returns json_loads league calls outs outs' Hr)
      as (new & -> & Hnew & Hinv).
    exists new. split; [reflexivity|]. split; [exact Hinv|].
    rewrite Hinv. now apply answers_call_ids.
Qed.

(** Three requests on the sample league: the handlers of the first and of
    the third are called in that order, and the two results follow it. *)
Lemma C7_dispatch_in_output_order_witness :
  exists new,
    invocations
      (fst (Main.execute_function_calls
              JsonLite.json_loads Sample.league
              [Sample.waiver_call; Sample.unknown_call; Sample.stats_call] []))
    = [("get_waiver_wire", Some "call_3"); ("get_player_stats", Some "call_2")] /\
    map fco_call_id new = [Some "call_3"; Some "call_2"].
Proof.
  destruct (proj2 (proj2 (proj2
              (C7_dispatch_in_output_order JsonLite.json_loads Sample.league)))
              [Sample.waiver_call; Sample.unknown_call; Sample.stats_call] [] _ eq_refl)
    as (new & _ & Hinv & Hids).
  exists new. split; [exact Hinv|]. rewrite Hids, Hinv. reflexivity.
Defined.

(** ** Retries (C8) *)

(** C8: the retry wrapper around a call of the host.  If the call fails
    [k] times, with whatever exceptions, and then answers, and [k] is at
    most 5, the wrapper returns that answer after [k + 1] attempts and [k]
    waits; if the first six attempts all fail, the wrapper raises after
    exactly six attempts (and five waits), with the sixth exception inside;
    and every wait, drawn with a number in [0, 1], lies between 1 and 60. *)
Theorem C8_retry_six_attempts (w : world) (req : Request) (n : nat) :
  (forall k response,
      (k < 6)%nat ->
      (forall i, (i < k)%nat -> returned (host w (n + i) req) = false) ->
      host w (n + k) req = Return response ->
      exists ev,
        Main.responses_with_backoff w req n = (ev, (n + k + 1)%nat, Return response) /\
        creates ev = repeat req (k + 1) /\
        List.length (sleeps ev) = k) /\
  ((forall i, (i < 6)%nat -> returned (host w (n + i) req) = false) ->
   exists ev e,
     Main.responses_with_backoff w req n = (ev, (n + 6)%nat, Raise (RetryError e)) /\
     host w (n + 5) req = Raise e /\
     creates ev = repeat req 6 /\
     List.length (sleeps ev) = 5%nat) /\
  ((forall m, 0 <= uniform w m <= 1)%Q ->
   forall seconds,
     In seconds (sleeps (fst (fst (Main.responses_with_backoff w req n)))) ->
     (1 <= seconds <= 60)%Q).
Proof.
  unfold Main.responses_with_backoff, Tenacity.retry. simpl Nat.sub.
  split; [|split].
  - intros k response Hk Hfail Hok.
    apply attempt_succeeds; [lia|exact Hfail|exact Hok].
  - intros Hfail.
    destruct (attempt_exhausted (Tenacity.wait_random_exponential 1 60) false w req
                                5 1 n) as (ev & e & Hev & He & Hc & Hs).
    { intros i Hi. apply Hfail. lia. }
    exists ev, e. replace (n + 6)%nat with (n + 5 + 1)%nat by lia. auto.
  - intros Hu seconds Hin.
    apply attempt_sleeps in Hin. destruct Hin as (a & m & ->).
    apply wait_random_exponential_bounds, Hu.
Qed.

Lemma flaky_uniform (failures : nat) (answer : Response) (m : nat) :
  (0 <= uniform (Sample.flaky_host failures answer) m <= 1)%Q.
Proof.
  pose proof (Nat.mod_upper_bound m 9 ltac:(lia)) as H.
  unfold Sample.flaky_host, uniform, Qle. cbn [Qnum Qden]. lia.
Qed.

(** A host that fails five times and then answers: the answer comes back
    at the sixth attempt, after five waits between 1 and 60; one that fails
    six times: the wrapper raises after the sixth. *)
Lemma C8_retry_six_attempts_witness :
  (exists ev,
      Main.responses_with_backoff (Sample.flaky_host 5 Sample.the_end)
                                  (first_request "" "prompt") 0%nat
      = (ev, 6%nat, Return Sample.the_end) /\
      creates ev = repeat (first_request "" "prompt") 6 /\
      List.length (sleeps ev) = 5%nat) /\
  (exists ev e,
      Main.responses_with_backoff (Sample.flaky_host 6 Sample.the_end)
                                  (first_request "" "prompt") 0%nat
      = (ev, 6%nat, Raise (RetryError e)) /\
      host (Sample.flaky_host 6 Sample.the_end) 5 (first_request "" "prompt") = Raise e /\
      creates ev = repeat (first_request "" "prompt") 6 /\
      List.length (sleeps ev) = 5%nat) /\
  (forall seconds,
      In seconds
         (sleeps (fst (fst (Main.responses_with_backoff
                              (Sample.flaky_host 5 Sample.the_end)
                              (first_request "" "prompt") 0%nat)))) ->
      (1 <= seconds <= 60)%Q).
Proof.
  split; [|split].
  - apply (proj1 (C8_retry_six_attempts (Sample.flaky_host 5 Sample.the_end)
                                        (first_request "" "prompt") 0%nat) 5%nat).
    + lia.
    + intros i Hi. simpl.
      destruct (Nat.ltb_spec i 5); [reflexivity|lia].
    + reflexivity.
  - apply (proj1 (proj2 (C8_retry_six_attempts (Sample.flaky_host 6 Sample.the_end)
                                               (first_request "" "prompt") 0%nat))).
    intros i Hi. simpl. destruct (Nat.ltb_spec i 6); [reflexivity|lia].
  - apply (proj2 (proj2 (C8_retry_six_attempts (Sample.flaky_host 5 Sample.the_end)
                                               (first_request "" "prompt") 0%nat))).
    apply flaky_uniform.
Defined.

(** * Further properties of the code *)

(** ** [get_waiver_wire_for_tool] *)

Lemma insert_stable_perm {A K} (before : K -> K -> bool) (key : A -> K)
      (x : A) (l : list A) :
  Permutation (x :: l) (insert_stable before key x l).
Proof.
  induction l as [|y l IH]; simpl; [reflexivity|].
  destruct (before (key x) (key y)); [reflexivity|].
  rewrite perm_swap. now constructor.
Qed.

Lemma py_sorted_perm {A K} (before : K -> K -> bool) (key : A -> K) (l : list A) :
  Permutation l (py_sorted before key l).
Proof.
  induction l as [|x l IH]; simpl; [constructor|].
  rewrite <- insert_stable_perm. now constructor.
Qed.

Lemma descending_split {A} (key : A -> Q) (front back : list A) :
  descending key (front ++ back) ->
  forall a b, In a front -> In b back -> (key b <= key a)%Q.
Proof.
  unfold descending. induction front as [|x front IH]; simpl; [tauto|].
  intros H a b Ha Hb. apply StronglySorted_inv in H. destruct H as (Hs & Hx).
  destruct Ha as [<-|Ha]; [|now apply (IH Hs)].
  rewrite Forall_forall in Hx. apply Hx, in_or_app. now right.
Qed.

Lemma slice_to_nonneg {A} (n : Z) (l : list A) :
  0 <= n -> slice_to n l = firstn (Z.to_nat n) l.
Proof.
  intros H. unfold slice_to. destruct (0 <=? n) eqn:E; [reflexivity|].
  apply Z.leb_gt in E. lia.
Qed.

Lemma acceptable_waiver (league : FantasyData.League) (position size : pyval) :
  acceptable_position position = true ->
  FantasyData.get_waiver_wire_for_tool league position size =
  match FantasyData.waiver_data league (FantasyData.normalize_position position) size with
  | Return [] => Return (no_players (FantasyData.normalize_position position))
  | Return l =>
      Return (PyDict
        [ ("position", if py_truthy (FantasyData.normalize_position position)
                       then FantasyData.normalize_position position else PyStr "All");
          ("available_players",
           PyList (map FantasyData.player_info_dict (map FantasyData.round_points l)));
          ("count", PyInt (Z.of_nat (List.length (map FantasyData.round_points l))));
          ("note", PyStr "Use get_player_stats tool with player_id for detailed analysis of any player") ])
  | Raise e => Raise e
  end.
Proof.
  unfold acceptable_position, FantasyData.get_waiver_wire_for_tool. intros H.
  apply negb_true_iff in H. rewrite H.
  destruct (FantasyData.waiver_data _ _ _) as [[|p l]|e]; reflexivity.
Qed.

(** X1: [get_waiver_wire_for_tool] checks the position before anything
    else: a position that is neither empty nor one of the valid positions
    gives the error payload, whatever [size] is.  With an acceptable
    position the call raises exactly when [size] cannot bound a slice (it
    is not None, an int or a bool), and what it raises is a [TypeError]. *)
Theorem X1_waiver_wire_errors
        (league : FantasyData.League) (position size : pyval) :
  (acceptable_position position = false ->
   FantasyData.get_waiver_wire_for_tool league position size
   = Return (invalid_position position)) /\
  (acceptable_position position = true ->
   returned (FantasyData.get_waiver_wire_for_tool league position size)
   = sliceable size) /\
  (forall e,
      FantasyData.get_waiver_wire_for_tool league position size = Raise e ->
      e = TypeError "slice indices must be integers or None or have an __index__ method").
Proof.
  split; [|split].
  - unfold acceptable_position, FantasyData.get_waiver_wire_for_tool.
    intros H. apply negb_false_iff in H. now rewrite H.
  - intros H. rewrite (acceptable_waiver _ _ _ H).
    unfold FantasyData.waiver_data.
    destruct size; simpl; try reflexivity;
      match goal with |- context [match ?l with [] => _ | _ => _ end] =>
        destruct l; reflexivity end.
  - intros e. destruct (acceptable_position position) eqn:H.
    + rewrite (acceptable_waiver _ _ _ H). unfold FantasyData.waiver_data.
      destruct size; simpl;
        try match goal with |- context [match ?l with [] => _ | _ => _ end] =>
              destruct l end; congruence.
    + unfold acceptable_position, FantasyData.get_waiver_wire_for_tool.
      apply negb_false_iff in H. rewrite H. discriminate.
Qed.

Lemma X1_waiver_wire_errors_witness :
  FantasyData.get_waiver_wire_for_tool Sample.league (PyStr "LB") (PyStr "ten")
  = Return (invalid_position (PyStr "LB")) /\
  returned (FantasyData.get_waiver_wire_for_tool Sample.league (PyStr "RB") (PyFloat 3))
  = false.
Proof.
  destruct (X1_waiver_wire_errors Sample.league (PyStr "LB") (PyStr "ten")) as (H1 & _).
  destruct (X1_waiver_wire_errors Sample.league (PyStr "RB") (PyFloat 3)) as (_ & H2 & _).
  split; [apply H1; reflexivity|apply H2; reflexivity].
Defined.





Lemma eligible_sorted_length (league : FantasyData.League) (position : pyval) :
  List.length (py_sorted (fun a b => Qle_bool b a) FantasyData.pi_projected_points
                         (eligible league position))
  = List.length (eligible league position).
Proof. symmetry. apply Permutation_length, py_sorted_perm. Qed.

(** X3: with an acceptable position and a [size] that is an integer and
    not negative, [get_waiver_wire_for_tool] returns exactly
    min(size, number of eligible free agents) players, and [count] says so;
    when that number is 0 the answer is the message payload, without a
    list.  With the size None it returns all the eligible free agents. *)
Theorem X3_waiver_wire_count
        (league : FantasyData.League) (position : pyval) (n : Z) :
  acceptable_position position = true ->
  0 <= n ->
  (exists r,
      FantasyData.get_waiver_wire_for_tool league position (PyInt n) = Return r /\
      (Z.min n (Z.of_nat (List.length (eligible league position))) = 0 ->
       r = no_players (FantasyData.normalize_position position)) /\
      (0 < Z.min n (Z.of_nat (List.length (eligible league position))) ->
       py_item r "count"
       = PyInt (Z.min n (Z.of_nat (List.length (eligible league position)))) /\
       py_len (py_item r "available_players")
       = Z.min n (Z.of_nat (List.length (eligible league position))))) /\
  (exists r,
      FantasyData.get_waiver_wire_for_tool league position PyNone = Return r /\
      (eligible league position = [] ->
       r = no_players (FantasyData.normalize_position position)) /\
      (eligible league position <> [] ->
       py_len (py_item r "available_players")
       = Z.of_nat (List.length (eligible league position)))).
Proof.
  intros Hacc Hn. split.
  - rewrite (acceptable_waiver _ _ _ Hacc).
    unfold FantasyData.waiver_data, py_slice_to. rewrite (slice_to_nonneg _ _ Hn).
    fold (eligible league position).
    pose proof (eligible_sorted_length league position) as Hlen.
    set (sorted := py_sorted _ _ _) in *.
    assert (Z.of_nat (List.length (firstn (Z.to_nat n) sorted))
            = Z.min n (Z.of_nat (List.length (eligible league position)))) as Hk.
    { rewrite length_firstn, Hlen. lia. }
    destruct (firstn (Z.to_nat n) sorted) as [|x l] eqn:E.
    + eexists. split; [reflexivity|]. split; [reflexivity|].
      simpl in Hk. lia.
    + eexists. split; [reflexivity|]. split.
      * simpl in Hk. lia.
      * intros _. cbn [py_item assoc String.eqb Ascii.eqb Bool.eqb py_len].
        rewrite !length_map, Hk. split; reflexivity.
  - rewrite (acceptable_waiver _ _ _ Hacc).
    unfold FantasyData.waiver_data, py_slice_to.
    fold (eligible league position).
    pose proof (eligible_sorted_length league position) as Hlen.
    set (sorted := py_sorted _ _ _) in *.
    destruct sorted as [|x l] eqn:E.
    + eexists. split; [reflexivity|]. split; [reflexivity|].
      intros Hne. destruct (eligible league position); [congruence|discriminate].
    + eexists. split; [reflexivity|]. split.
      * intros He. rewrite He in Hlen. discriminate.
      * intros _. cbn [py_item assoc String.eqb Ascii.eqb Bool.eqb py_len].
        rewrite !length_map, Hlen. reflexivity.
Qed.

(** Three free agents of the sample league are eligible: a size of 2 gives
    two of them, a size of 0 the message. *)
Lemma X3_waiver_wire_count_witness :
  (exists r,
      FantasyData.get_waiver_wire_for_tool Sample.league PyNone (PyInt 2) = Return r /\
      py_item r "count" = PyInt 2) /\
  FantasyData.get_waiver_wire_for_tool Sample.league PyNone (PyInt 0)
  = Return (no_players PyNone).
Proof.
  split.
  - destruct (proj1 (X3_waiver_wire_count Sample.league PyNone 2 eq_refl ltac:(lia)))
      as (r & Hr & _ & Hpos).
    exists r. split; [exact Hr|]. apply Hpos. reflexivity.
  - destruct (proj1 (X3_waiver_wire_count Sample.league PyNone 0 eq_refl ltac:(lia)))
      as (r & Hr & Hzero & _).
    rewrite Hr. f_equal. apply Hzero. reflexivity.
Defined.

Lemma py_slice_prefix {A} (size : pyval) (l l' : list A) :
  py_slice_to size l = Return l' -> exists m, l' = firstn m l.
Proof.
  unfold py_slice_to, slice_to.
  destruct size as [| b | n | | | |]; intros H; try discriminate;
    injection H as <-.
  - exists (List.length l). symmetry. apply firstn_all.
  - destruct (0 <=? (if b then 1 else 0)); eexists; reflexivity.
  - destruct (0 <=? n); eexists; reflexivity.
Qed.

(** X4: the players that [get_waiver_wire_for_tool] returns are the top of
    the eligible free agents: the eligible ones split into those returned
    and those left out, none lost and none repeated, and no player left out
    has a higher projection than a player returned. *)
Theorem X4_waiver_wire_top
        (league : FantasyData.League) (position size r : pyval) :
  FantasyData.get_waiver_wire_for_tool league position size = Return r ->
  py_has_key r "available_players" = true ->
  exists kept left_out,
    Permutation (kept ++ left_out) (eligible league position) /\
    py_item r "available_players"
    = PyList (map FantasyData.player_info_dict (map FantasyData.round_points kept)) /\
    forall a b, In a kept -> In b left_out ->
                (FantasyData.pi_projected_points b <= FantasyData.pi_projected_points a)%Q.
Proof.
  intros Hr Hk.
  destruct (waiver_wire_returned_list _ _ _ _ Hr Hk) as (l & Hd & Hitems & _).
  unfold FantasyData.waiver_data in Hd. fold (eligible league position) in Hd.
  set (sorted := py_sorted _ _ _) in Hd.
  destruct (py_slice_prefix _ _ _ Hd) as (m & ->).
  exists (firstn m sorted), (skipn m sorted).
  split; [|split].
  - rewrite firstn_skipn. symmetry. apply py_sorted_perm.
  - exact Hitems.
  - apply descending_split. rewrite firstn_skipn. apply py_sorted_descending.
Qed.

Lemma X4_waiver_wire_top_witness :
  exists kept left_out,
    Permutation (kept ++ left_out) (eligible Sample.league PyNone) /\
    List.length kept = 1%nat /\
    forall a b, In a kept -> In b left_out ->
                (FantasyData.pi_projected_points b <= FantasyData.pi_projected_points a)%Q.
Proof.
  destruct (X4_waiver_wire_top Sample.league PyNone (PyInt 1) _ eq_refl eq_refl)
    as (kept & left_out & Hperm & Hitems & Htop).
  exists kept, left_out. split; [exact Hperm|]. split; [|exact Htop].
  apply (f_equal py_len) in Hitems. simpl in Hitems.
  rewrite !length_map in Hitems. lia.
Defined.

(** ** [get_team_details_for_tool] and its roster summary *)

Section StableSort.
Context {A K : Type} (before : K -> K -> bool) (key : A -> K).
Hypothesis before_total : forall a b, before a b = false -> before b a = true.
Hypothesis before_trans :
  forall a b c, before a b = true -> before b c = true -> before a c = true.

Let ordered (x y : A) : Prop := before (key x) (key y) = true.

Lemma insert_stable_sorted (x : A) (l : list A) :
  StronglySorted ordered l -> StronglySorted ordered (insert_stable before key x l).
Proof.
  induction 1 as [|z l Hl IH Hz]; simpl.
  - repeat constructor.
  - destruct (before (key x) (key z)) eqn:E.
    + constructor; [now constructor|].
      constructor; [exact E|].
      eapply Forall_impl; [|exact Hz]. intros a Ha. unfold ordered in *. eauto.
    + constructor; [exact IH|].
      apply Forall_forall. intros a Ha.
      apply insert_stable_In in Ha. destruct Ha as [->|Ha].
      * now apply before_total.
      * rewrite Forall_forall in Hz. now apply Hz.
Qed.

Lemma py_sorted_sorted (l : list A) : StronglySorted ordered (py_sorted before key l).
Proof.
  induction l as [|x l IH]; simpl; [constructor|].
  now apply insert_stable_sorted.
Qed.

End StableSort.

Lemma StronglySorted_weaken {A} (R R' : A -> A -> Prop) (l : list A) :
  (forall x y, R x y -> R' x y) -> StronglySorted R l -> StronglySorted R' l.
Proof.
  intros HR. induction 1 as [|x l Hl IH Hx]; constructor; [exact IH|].
  eapply Forall_impl; [|exact Hx]. auto.
Qed.

Lemma sorted_by_Z {A} (key : A -> Z) (l : list A) :
  StronglySorted (fun x y => key x <= key y) (py_sorted Z.leb key l).
Proof.
  eapply StronglySorted_weaken; [|apply (py_sorted_sorted Z.leb key)].
  - intros x y H. now apply Z.leb_le.
  - intros a b H. apply Z.leb_gt in H. apply Z.leb_le. lia.
  - intros a b c H1 H2. apply Z.leb_le in H1, H2. apply Z.leb_le. lia.
Qed.

Lemma Qeq_bool_inject_Z (a b : Z) : Qeq_bool (inject_Z a) (inject_Z b) = (a =? b).
Proof.
  destruct (Z.eqb_spec a b) as [->|Hne].
  - apply Qeq_bool_iff. reflexivity.
  - destruct (Qeq_bool (inject_Z a) (inject_Z b)) eqn:E; [|reflexivity].
    apply Qeq_bool_iff in E. unfold Qeq in E. simpl in E. lia.
Qed.

Lemma find_ext_in {A} (f g : A -> bool) (l : list A) :
  (forall x, In x l -> f x = g x) -> find f l = find g l.
Proof.
  induction l as [|x l IH]; intros H; [reflexivity|].
  simpl. rewrite (H x) by now left.
  destruct (g x); [reflexivity|]. apply IH. intros y Hy. apply H. now right.
Qed.

(** X5: the ids of the two lookups compare as Python numbers do.  A team
    id given as the float of the same value finds the same team as the
    integer, whereas an id given as text, the digits of an existing id
    included, is never found: [get_team_details_for_tool] and
    [get_player_stats_for_tool] both answer their not-found payload. *)
Theorem X5_lookup_ids_by_value (league : FantasyData.League) :
  (forall z team,
      In team (FantasyData.teams league) ->
      FantasyData.team_id team = Some z ->
      FantasyData.get_team_details_for_tool league (PyFloat (inject_Z z))
      = FantasyData.get_team_details_for_tool league (PyInt z) /\
      exists r, FantasyData.get_team_details_for_tool league (PyInt z) = Return r /\
                py_has_key r "team_name" = true /\ py_has_key r "error" = false) /\
  (forall s,
      FantasyData.get_team_details_for_tool league (PyStr s)
      = Return (team_not_found (PyStr s))) /\
  (forall s,
      FantasyData.get_player_stats_for_tool league (PyStr s)
      = Return (player_not_found (PyStr s))).
Proof.
  split; [|split].
  - intros z team Hin Hid.
    unfold FantasyData.get_team_details_for_tool.
    rewrite (find_ext_in _ (fun team0 =>
               match FantasyData.team_id team0 with
               | Some z0 => py_eq_int (PyInt z) z0
               | None => false
               end) (FantasyData.teams league)).
    2: { intros t _. destruct (FantasyData.team_id t) as [z0|]; [|reflexivity].
         simpl. apply Qeq_bool_inject_Z. }
    destruct (find _ (FantasyData.teams league)) as [t|] eqn:E.
    + split; [reflexivity|]. eexists. split; [reflexivity|]. split; reflexivity.
    + exfalso. eapply find_none in E; [|exact Hin].
      rewrite Hid in E. simpl in E. now rewrite Z.eqb_refl in E.
  - intros s. unfold FantasyData.get_team_details_for_tool.
    rewrite find_all_false; [reflexivity|].
    intros t _. now destruct (FantasyData.team_id t).
  - intros s. apply player_stats_not_found.
    intros (tp & _ & H). unfold FantasyData.has_player_id in H.
    destruct (FantasyData.playerId (snd tp)); discriminate.
Qed.

Lemma X5_lookup_ids_by_value_witness :
  FantasyData.get_team_details_for_tool Sample.league (PyFloat 2)
  = FantasyData.get_team_details_for_tool Sample.league (PyInt 2) /\
  FantasyData.get_team_details_for_tool Sample.league (PyStr "2")
  = Return (team_not_found (PyStr "2")).
Proof.
  destruct (X5_lookup_ids_by_value Sample.league) as (Hnum & Htext & _).
  split.
  - apply (proj1 (Hnum 2 Sample.away (or_intror (or_introl eq_refl)) eq_refl)).
  - apply Htext.
Defined.

Lemma slot_flags (s : string) :
  FantasyData.in_strs s ["BE"; "IR"] = String.eqb s "BE" || String.eqb s "IR" /\
  FantasyData.in_strs s ["IR"] = String.eqb s "IR".
Proof.
  unfold FantasyData.in_strs. simpl. now rewrite !orb_false_r.
Qed.

Lemma roster_partition (l : list FantasyData.roster_info) :
  Permutation
    (filter (fun p => negb (FantasyData.in_strs (FantasyData.ri_lineup_slot p) ["BE"; "IR"])) l
     ++ filter (fun p => FantasyData.in_strs (FantasyData.ri_lineup_slot p) ["BE"; "IR"]
                         && negb (FantasyData.in_strs (FantasyData.ri_lineup_slot p) ["IR"])) l)
    (filter (fun p => negb (String.eqb (FantasyData.ri_lineup_slot p) "IR")) l).
Proof.
  induction l as [|x l IH]; [constructor|].
  cbn [filter].
  destruct (slot_flags (FantasyData.ri_lineup_slot x)) as (E1 & E2).
  rewrite E1, E2.
  destruct (String.eqb (FantasyData.ri_lineup_slot x) "IR") eqn:Eir;
    destruct (String.eqb (FantasyData.ri_lineup_slot x) "BE") eqn:Ebe;
    cbn [orb andb negb].
  - exact IH.
  - exact IH.
  - rewrite <- Permutation_middle. now constructor.
  - cbn [app]. now constructor.
Qed.

(** X6: the roster summary of a team sorts every player of the roster into
    exactly one of three: the starters (a lineup slot other than BE and
    IR), the bench (the slot BE, which a player without a lineup slot gets)
    or, for the slot IR, neither list.  None is lost and none is repeated. *)
Theorem X6_roster_summary_partition
        (league : FantasyData.League) (team : FantasyData.Team) :
  exists starters bench,
    FantasyData.get_structured_roster_summary_with_ids league team
    = PyDict [ ("starters", PyList (map FantasyData.roster_info_dict starters));
               ("bench", PyList (map FantasyData.roster_info_dict bench)) ] /\
    Permutation (starters ++ bench)
                (filter (fun p => negb (String.eqb (FantasyData.ri_lineup_slot p) "IR"))
                        (map (FantasyData.roster_entry league) (roster_of team))) /\
    Forall (fun p => FantasyData.ri_lineup_slot p <> "BE" /\
                     FantasyData.ri_lineup_slot p <> "IR") starters /\
    Forall (fun p => FantasyData.ri_lineup_slot p = "BE") bench /\
    (forall player,
        FantasyData.lineupSlot player = None ->
        FantasyData.ri_lineup_slot (FantasyData.roster_entry league player) = "BE").
Proof.
  unfold FantasyData.get_structured_roster_summary_with_ids.
  fold (roster_of team).
  set (infos := map (FantasyData.roster_entry league) (roster_of team)).
  eexists. eexists. split; [reflexivity|]. split; [|split; [|split]].
  - rewrite <- roster_partition.
    apply Permutation_app; symmetry; apply py_sorted_perm.
  - apply Forall_forall. intros p Hp.
    apply py_sorted_In, filter_In in Hp. destruct Hp as (_ & Hp).
    destruct (slot_flags (FantasyData.ri_lineup_slot p)) as (E & _).
    rewrite E in Hp. apply negb_true_iff, orb_false_iff in Hp.
    destruct Hp as (H1 & H2). split; now apply String.eqb_neq.
  - apply Forall_forall. intros p Hp.
    apply py_sorted_In, filter_In in Hp. destruct Hp as (_ & Hp).
    destruct (slot_flags (FantasyData.ri_lineup_slot p)) as (E1 & E2).
    rewrite E1, E2 in Hp. apply andb_true_iff in Hp. destruct Hp as (H1 & H2).
    apply negb_true_iff in H2. rewrite H2, orb_false_r in H1.
    now apply String.eqb_eq.
  - intros player H. simpl. now rewrite H.
Qed.

(** X7: in the roster summary the starters stand in the order of the
    lineup slots (QB, RB, WR, TE, RB/WR/TE, K, D/ST, any other slot after
    these), and the bench in non-increasing order of projected points. *)
Theorem X7_roster_summary_order
        (league : FantasyData.League) (team : FantasyData.Team) :
  exists starters bench,
    FantasyData.get_structured_roster_summary_with_ids league team
    = PyDict [ ("starters", PyList (map FantasyData.roster_info_dict starters));
               ("bench", PyList (map FantasyData.roster_info_dict bench)) ] /\
    StronglySorted (fun a b => slot_rank (FantasyData.ri_lineup_slot a)
                               <= slot_rank (FantasyData.ri_lineup_slot b)) starters /\
    descending FantasyData.ri_projected_points bench /\
    slot_rank "QB" < slot_rank "RB" < slot_rank "WR" /\
    slot_rank "WR" < slot_rank "TE" < slot_rank "RB/WR/TE" /\
    slot_rank "RB/WR/TE" < slot_rank "K" < slot_rank "D/ST" /\
    slot_rank "D/ST" < 999 /\
    (forall slot,
        FantasyData.in_strs slot FantasyData.lineup_slot_order = false ->
        slot_rank slot = 999).
Proof.
  unfold FantasyData.get_structured_roster_summary_with_ids.
  eexists. eexists. split; [reflexivity|]. split; [|split].
  - apply (sorted_by_Z (fun x => slot_rank (FantasyData.ri_lineup_slot x))).
  - apply py_sorted_descending.
  - repeat split; try reflexivity.
    intros slot H. unfold slot_rank. now rewrite H.
Qed.

(** ** [get_player_stats_for_tool] *)

Lemma find_first {A} (f : A -> bool) (before after : list A) (x : A) :
  f x = true ->
  Forall (fun y => f y = false) before ->
  find f (before ++ x :: after) = Some x.
Proof.
  intros Hx. induction 1 as [|y before Hy _ IH]; simpl.
  - now rewrite Hx.
  - now rewrite Hy.
Qed.

Lemma for_each_raises {A B} (f : A -> result B) (l : list A) (e : exn) :
  for_each f l = Raise e -> exists x, In x l /\ f x = Raise e.
Proof.
  induction l as [|x l IH]; simpl; [discriminate|].
  destruct (f x) as [y|e'] eqn:E; simpl.
  - destruct (for_each f l) as [ys|e'']; simpl; [discriminate|].
    intros H. inversion H; subst.
    destruct (IH eq_refl) as (x' & Hin & Hx'). exists x'. auto.
  - intros H. inversion H; subst. exists x. auto.
Qed.

Lemma for_each_returns {A B} (f : A -> result B) (l : list A) (ys : list B) :
  for_each f l = Return ys -> Forall2 (fun x y => f x = Return y) l ys.
Proof.
  revert ys. induction l as [|x l IH]; simpl; intros ys H.
  - inversion H. constructor.
  - destruct (f x) as [y|e] eqn:E; simpl in H; [|discriminate].
    destruct (for_each f l) as [ys'|e]; simpl in H; [|discriminate].
    inversion H; subst. constructor; auto.
Qed.

Lemma for_each_returned {A B} (f : A -> result B) (l : list A) :
  returned (for_each f l) = forallb (fun x => returned (f x)) l.
Proof.
  induction l as [|x l IH]; simpl; [reflexivity|].
  destruct (f x) as [y|e]; simpl; [|reflexivity].
  rewrite <- IH. now destruct (for_each f l).
Qed.

Lemma forallb_false {A} (p : A -> bool) (l : list A) :
  forallb p l = false <-> exists x, In x l /\ p x = false.
Proof.
  induction l as [|x l IH]; simpl.
  - split; [discriminate|]. intros (x & [] & _).
  - rewrite andb_false_iff, IH. split.
    + intros [H|(y & Hy & Hp)]; [exists x; auto|exists y; auto].
    + intros (y & [<-|Hy] & Hp); [now left|right; exists y; auto].
Qed.

Lemma weekly_data_raises (player : FantasyData.Player) (ws : FantasyData.WeekStats) :
  returned (FantasyData.weekly_data player ws) = false <->
  FantasyData.ws_projected_breakdown ws <> None /\ FantasyData.position player = None.
Proof.
  unfold FantasyData.weekly_data.
  destruct (FantasyData.ws_projected_breakdown ws) as [b|].
  - destruct (FantasyData.position player) as [pos|].
    + destruct (FantasyData.in_strs pos _); [|destruct (String.eqb pos "QB")];
        simpl; split; try discriminate; intros (_ & H); discriminate.
    + simpl. split; [split; [discriminate|reflexivity]|reflexivity].
  - simpl. split; [discriminate|]. intros (H & _). congruence.
Qed.

Lemma weekly_stats_raises (player : FantasyData.Player) :
  returned (FantasyData.weekly_stats player) = false <->
  FantasyData.position player = None /\ has_breakdown player.
Proof.
  unfold FantasyData.weekly_stats.
  set (weeks := match FantasyData.stats player with
                | Some d => filter (fun ws => negb (fst ws =? 0)) d
                | None => []
                end).
  set (f := fun ws : Z * FantasyData.WeekStats =>
              data <- FantasyData.weekly_data player (snd ws) ;; Return (fst ws, data)).
  assert (forall ws, returned (f ws) = returned (FantasyData.weekly_data player (snd ws)))
    as Hf.
  { intros ws. unfold f. now destruct (FantasyData.weekly_data player (snd ws)). }
  assert (returned (rows <- for_each f weeks ;;
                    Return (PyDict (map (fun row => (string_of_Z (fst row), snd row))
                                        (py_sorted Z.leb fst rows))))
          = returned (for_each f weeks)) as Hb
      by now destruct (for_each f weeks).
  rewrite Hb, for_each_returned, forallb_false. split.
  - intros ((week & ws) & Hin & Hr).
    rewrite Hf in Hr. apply weekly_data_raises in Hr. destruct Hr as (Hbd & Hp).
    split; [exact Hp|].
    unfold weeks in Hin. destruct (FantasyData.stats player) as [d|] eqn:Es; [|contradiction].
    apply filter_In in Hin. destruct Hin as (Hin & Hnz).
    exists d, week, ws. repeat split; auto.
    simpl in Hnz. apply negb_true_iff, Z.eqb_neq in Hnz. exact Hnz.
  - intros (Hp & d & week & ws & Hs & Hin & Hnz & Hbd).
    exists (week, ws). split.
    + unfold weeks. rewrite Hs. apply filter_In. split; [exact Hin|].
      simpl. now apply negb_true_iff, Z.eqb_neq.
    + rewrite Hf. apply weekly_data_raises. auto.
Qed.

Lemma player_stats_raises (team : FantasyData.Team) (player : FantasyData.Player) :
  returned (FantasyData.player_stats team player) = false <->
  FantasyData.name player = None \/
  (FantasyData.position player = None /\ has_breakdown player).
Proof.
  unfold FantasyData.player_stats.
  destruct (FantasyData.name player) as [nm|].
  - rewrite <- weekly_stats_raises.
    destruct (FantasyData.weekly_stats player) as [ws|e]; cbn [bind returned].
    + split; [discriminate|]. intros [H|H]; discriminate.
    + split; auto.
  - cbn [returned]. split; auto.
Qed.

Lemma weekly_data_exception (player : FantasyData.Player) (ws : FantasyData.WeekStats)
      (e : exn) :
  FantasyData.weekly_data player ws = Raise e ->
  e = AttributeError "'Player' object has no attribute 'position'".
Proof.
  unfold FantasyData.weekly_data.
  destruct (FantasyData.ws_projected_breakdown ws); [|discriminate].
  destruct (FantasyData.position player) as [pos|]; [|congruence].
  destruct (FantasyData.in_strs pos _); [|destruct (String.eqb pos "QB")]; discriminate.
Qed.

Lemma player_stats_exception (team : FantasyData.Team) (player : FantasyData.Player)
      (e : exn) :
  FantasyData.player_stats team player = Raise e ->
  e = AttributeError "'Player' object has no attribute 'name'" \/
  e = AttributeError "'Player' object has no attribute 'position'".
Proof.
  unfold FantasyData.player_stats, FantasyData.weekly_stats.
  destruct (FantasyData.name player); [|left; congruence].
  destruct (for_each _ _) as [rows|e'] eqn:E; simpl; [discriminate|].
  intros H. inversion H; subst. right.
  apply for_each_raises in E. destruct E as (ws & _ & He).
  destruct (FantasyData.weekly_data player (snd ws)) as [d|e''] eqn:Ew;
    simpl in He; [discriminate|].
  inversion He; subst. eapply weekly_data_exception. exact Ew.
Qed.

Lemma stats_of_first (league : FantasyData.League) (player_id : pyval)
      (team : FantasyData.Team) (player : FantasyData.Player) :
  first_with_id league player_id team player ->
  FantasyData.get_player_stats_for_tool league player_id
  = FantasyData.player_stats team player.
Proof.
  intros (before & after & Hl & Hid & Hb).
  unfold FantasyData.get_player_stats_for_tool. rewrite Hl.
  rewrite (find_first (fun tp => FantasyData.has_player_id player_id (snd tp))
                      before after (team, player)); auto.
Qed.

(** X8: when some rostered player has the [player_id],
    [get_player_stats_for_tool] takes the first one in the order of teams
    and rosters, and it raises exactly when the provider's record of that
    player has no name, or has no position while some week other than week
    0 of his statistics has a projected breakdown; what it raises is the
    [AttributeError] of the missing attribute. *)
Theorem X8_player_stats_raises
        (league : FantasyData.League) (player_id : pyval)
        (team : FantasyData.Team) (player : FantasyData.Player) :
  first_with_id league player_id team player ->
  (returned (FantasyData.get_player_stats_for_tool league player_id) = false <->
   FantasyData.name player = None \/
   (FantasyData.position player = None /\ has_breakdown player)) /\
  (forall e,
      FantasyData.get_player_stats_for_tool league player_id = Raise e ->
      e = AttributeError "'Player' object has no attribute 'name'" \/
      e = AttributeError "'Player' object has no attribute 'position'").
Proof.
  intros Hfirst. rewrite (stats_of_first _ _ _ _ Hfirst). split.
  - apply player_stats_raises.
  - apply player_stats_exception.
Qed.

Lemma nameless_first :
  first_with_id Sample.big_league (PyInt 106) Sample.careless Sample.nameless.
Proof.
  exists [(Sample.home, Sample.quarterback); (Sample.home, Sample.runner);
          (Sample.away, Sample.reserve);
          (Sample.deep, Sample.reserve); (Sample.deep, Sample.kicker);
          (Sample.deep, Sample.on_reserve); (Sample.deep, Sample.unslotted);
          (Sample.deep, Sample.quarterback); (Sample.deep, Sample.veteran);
          (Sample.careless, Sample.runner)], [].
  split; [reflexivity|]. split; [reflexivity|].
  repeat constructor.
Defined.

(** The player 106 of the sample league has no name: the call raises. *)
Lemma X8_player_stats_raises_witness :
  returned (FantasyData.get_player_stats_for_tool Sample.big_league (PyInt 106)) = false.
Proof.
  apply (proj1 (X8_player_stats_raises Sample.big_league (PyInt 106)
                  Sample.careless Sample.nameless nameless_first)).
  now left.
Defined.

Lemma weekly_rows_weeks (player : FantasyData.Player)
      (weeks : list (Z * FantasyData.WeekStats)) (rows : list (Z * pyval)) :
  for_each (fun ws => data <- FantasyData.weekly_data player (snd ws) ;;
                      Return (fst ws, data)) weeks = Return rows ->
  map fst rows = map fst weeks.
Proof.
  intros H. apply for_each_returns in H.
  induction H as [|ws row weeks rows Hrow _ IH]; simpl; [reflexivity|].
  f_equal; [|exact IH].
  destruct (FantasyData.weekly_data player (snd ws)); simpl in Hrow; [|discriminate].
  now inversion Hrow.
Qed.

Lemma map_fst_filter {A B} (p : A -> bool) (l : list (A * B)) :
  map fst (filter (fun x => p (fst x)) l) = filter p (map fst l).
Proof.
  induction l as [|x l IH]; simpl; [reflexivity|].
  destruct (p (fst x)); simpl; now rewrite IH.
Qed.

Lemma StronglySorted_map {A B} (R : B -> B -> Prop) (f : A -> B) (l : list A) :
  StronglySorted (fun x y => R (f x) (f y)) l -> StronglySorted R (map f l).
Proof.
  induction 1 as [|x l Hl IH Hx]; simpl; constructor; [exact IH|].
  apply Forall_map. exact Hx.
Qed.

(** X9: when some rostered player has the [player_id] and
    [get_player_stats_for_tool] returns, the result is the record of the
    first such player: its [fantasy_team] is the name of the team on whose
    roster he was found, and the keys of its [weekly_stats] are the weeks
    of his statistics other than week 0, each as a decimal string, in
    ascending order of the week, whatever the order in which the provider
    lists them. *)
Theorem X9_player_stats_weeks
        (league : FantasyData.League) (player_id : pyval)
        (team : FantasyData.Team) (player : FantasyData.Player) (r : pyval) :
  first_with_id league player_id team player ->
  FantasyData.get_player_stats_for_tool league player_id = Return r ->
  exists d rows weeks,
    r = PyDict d /\
    dict_get d "fantasy_team" PyNone = PyStr (FantasyData.team_name team) /\
    dict_get d "weekly_stats" PyNone = PyDict rows /\
    map fst rows = map string_of_Z weeks /\
    Permutation weeks (filter (fun week => negb (week =? 0)) (weeks_of player)) /\
    StronglySorted Z.le weeks.
Proof.
  intros Hfirst. rewrite (stats_of_first _ _ _ _ Hfirst).
  unfold FantasyData.player_stats, FantasyData.weekly_stats.
  destruct (FantasyData.name player) as [nm|]; [|discriminate].
  destruct (for_each _ _) as [rows0|e] eqn:E; cbn [bind]; [|discriminate].
  intros H. injection H as <-.
  apply weekly_rows_weeks in E.
  eexists _, _, (map fst (py_sorted Z.leb fst rows0)).
  split; [reflexivity|]. split; [reflexivity|]. split; [reflexivity|].
  split; [rewrite !map_map; reflexivity|]. split.
  - rewrite <- (py_sorted_perm Z.leb fst rows0), E.
    unfold weeks_of. destruct (FantasyData.stats player) as [d|]; [|reflexivity].
    now rewrite (map_fst_filter (fun week => negb (week =? 0)) d).
  - apply StronglySorted_map. apply sorted_by_Z.
Qed.

Lemma veteran_first :
  first_with_id Sample.big_league (PyInt 107) Sample.deep Sample.veteran.
Proof.
  exists [(Sample.home, Sample.quarterback); (Sample.home, Sample.runner);
          (Sample.away, Sample.reserve);
          (Sample.deep, Sample.reserve); (Sample.deep, Sample.kicker);
          (Sample.deep, Sample.on_reserve); (Sample.deep, Sample.unslotted);
          (Sample.deep, Sample.quarterback)],
         [(Sample.careless, Sample.runner); (Sample.careless, Sample.nameless)].
  split; [reflexivity|]. split; [reflexivity|].
  repeat constructor.
Defined.

(** The player 107 of the sample league: weeks 2, 0, 1, 3 are listed, the
    keys are those of the weeks 1, 2, 3. *)
Lemma X9_player_stats_weeks_witness :
  exists d rows weeks,
    FantasyData.get_player_stats_for_tool Sample.big_league (PyInt 107) = Return (PyDict d) /\
    dict_get d "fantasy_team" PyNone = PyStr (FantasyData.team_name Sample.deep) /\
    dict_get d "weekly_stats" PyNone = PyDict rows /\
    map fst rows = map string_of_Z weeks /\
    Permutation weeks (filter (fun week => negb (week =? 0)) (weeks_of Sample.veteran)) /\
    StronglySorted Z.le weeks.
Proof.
  destruct (FantasyData.get_player_stats_for_tool Sample.big_league (PyInt 107))
    as [r|e] eqn:Hreturns; [|vm_compute in Hreturns; discriminate].
  destruct (X9_player_stats_weeks Sample.big_league (PyInt 107) Sample.deep Sample.veteran
              r veteran_first Hreturns)
    as (d & rows & weeks & -> & Hteam & Hrows & Hkeys & Hperm & Hsorted).
  exists d, rows, weeks. repeat split; assumption.
Defined.

(** ** [get_lightweight_roster_summary] *)

Lemma Forall2_filter {A B} (R : A -> B -> Prop) (p : A -> bool) (q : B -> bool)
      (l : list A) (l' : list B) :
  (forall x y, R x y -> p x = q y) ->
  Forall2 R l l' -> Forall2 R (filter p l) (filter q l').
Proof.
  intros Hpq. induction 1 as [|x y l l' Hxy _ IH]; simpl; [constructor|].
  rewrite (Hpq x y Hxy). destruct (q y); [constructor|]; assumption.
Qed.

Lemma Forall2_map_r {A B C} (R : A -> C -> Prop) (f : B -> C)
      (l : list A) (l' : list B) :
  Forall2 (fun x y => R x (f y)) l l' -> Forall2 R l (map f l').
Proof.
  induction 1; simpl; constructor; assumption.
Qed.

Lemma player_summary_slot (league : FantasyData.League) (player : FantasyData.Player)
      (slot text : string) :
  FantasyData.player_summary league player = Return (slot, text) ->
  slot = match FantasyData.lineupSlot player with Some s => s | None => "BENCH" end.
Proof.
  unfold FantasyData.player_summary.
  destruct (FantasyData.name player); [|discriminate].
  intros H. now inversion H.
Qed.

Lemma player_summary_raises (league : FantasyData.League) (player : FantasyData.Player) :
  returned (FantasyData.player_summary league player) = false <->
  FantasyData.name player = None.
Proof.
  unfold FantasyData.player_summary.
  destruct (FantasyData.name player); simpl; split; auto; discriminate.
Qed.

Lemma starter_flag (league : FantasyData.League) (player : FantasyData.Player)
      (row : string * string) :
  FantasyData.player_summary league player = Return row ->
  listed_as_starter player = negb (FantasyData.in_strs (fst row) ["BE"; "IR"]).
Proof.
  destruct row as (slot, text). intros H.
  apply player_summary_slot in H. subst slot. cbn [fst].
  destruct (slot_flags (match FantasyData.lineupSlot player with
                        | Some s => s | None => "BENCH" end)) as (E & _).
  rewrite E. unfold listed_as_starter.
  destruct (FantasyData.lineupSlot player) as [s|]; [|reflexivity].
  now rewrite negb_orb.
Qed.

Lemma bench_flag (league : FantasyData.League) (player : FantasyData.Player)
      (row : string * string) :
  FantasyData.player_summary league player = Return row ->
  listed_on_bench player
  = FantasyData.in_strs (fst row) ["BE"; "IR"]
    && negb (FantasyData.in_strs (fst row) ["IR"]).
Proof.
  destruct row as (slot, text). intros H.
  apply player_summary_slot in H. subst slot. cbn [fst].
  destruct (slot_flags (match FantasyData.lineupSlot player with
                        | Some s => s | None => "BENCH" end)) as (E1 & E2).
  rewrite E1, E2. unfold listed_on_bench.
  destruct (FantasyData.lineupSlot player) as [s|]; [|reflexivity].
  destruct (String.eqb s "BE") eqn:Ebe; destruct (String.eqb s "IR") eqn:Eir;
    try reflexivity.
  apply String.eqb_eq in Ebe, Eir. congruence.
Qed.

Lemma prefix_marked (p s : string) : String.prefix p (p ++ s) = true.
Proof.
  induction p as [|c p IH]; simpl; [now destruct s|].
  destruct (ascii_dec c c); [exact IH|congruence].
Qed.

Lemma prefix_more (p s t : string) :
  String.prefix p s = true -> String.prefix p (s ++ t) = true.
Proof.
  revert s. induction p as [|c p IH]; intros s; simpl.
  - intros _. now destruct (s ++ t).
  - destruct s as [|d s]; simpl; [discriminate|].
    destruct (ascii_dec c d); [apply IH|discriminate].
Qed.

(** X10: [get_lightweight_roster_summary] raises exactly when the
    provider's record of some player of the roster has no name, with the
    [AttributeError] of that attribute; a missing position, projection,
    lineup slot or injury status never makes it raise. *)
Theorem X10_light_summary_raises
        (league : FantasyData.League) (team : FantasyData.Team) :
  (returned (FantasyData.get_lightweight_roster_summary league team) = false <->
   exists player, In player (roster_of team) /\ FantasyData.name player = None) /\
  (forall e,
      FantasyData.get_lightweight_roster_summary league team = Raise e ->
      e = AttributeError "'Player' object has no attribute 'name'").
Proof.
  unfold FantasyData.get_lightweight_roster_summary, FantasyData.roster_lines.
  fold (roster_of team).
  destruct (for_each (FantasyData.player_summary league) (roster_of team))
    as [rows|e] eqn:E; cbn [bind returned].
  - split; [|discriminate]. split; [discriminate|].
    intros (player & Hin & Hname).
    pose proof (for_each_returned (FantasyData.player_summary league) (roster_of team)) as Hr.
    rewrite E in Hr. cbn [returned] in Hr. symmetry in Hr.
    rewrite forallb_forall in Hr. specialize (Hr player Hin).
    apply (proj2 (player_summary_raises league player)) in Hname. congruence.
  - apply for_each_raises in E. destruct E as (player & Hin & Hraise). split.
    + split; [|reflexivity]. intros _. exists player. split; [exact Hin|].
      apply (player_summary_raises league). now rewrite Hraise.
    + intros e' H. inversion H; subst e'.
      unfold FantasyData.player_summary in Hraise.
      destruct (FantasyData.name player); [discriminate|]. now inversion Hraise.
Qed.

(** X11: when [get_lightweight_roster_summary] returns, its text has under
    STARTERS one line for each player of the roster whose lineup slot is
    neither BE nor IR and under BENCH, a section that is there only when
    it is not empty, one line for each player whose slot is BE, both in the
    order of the roster; players in the slot IR are left out.  A player
    without a lineup slot is listed under STARTERS, his line marked
    [BENCH:]. *)
Theorem X11_light_summary_lists
        (league : FantasyData.League) (team : FantasyData.Team) (text : string) :
  FantasyData.get_lightweight_roster_summary league team = Return text ->
  (exists starters bench,
      Forall2 (summary_line league) (filter listed_as_starter (roster_of team)) starters /\
      Forall2 (summary_line league) (filter listed_on_bench (roster_of team)) bench /\
      text = match bench with
             | [] => "STARTERS:" ++ newline ++ join_with newline starters
             | _ => ("STARTERS:" ++ newline ++ join_with newline starters) ++
                    newline ++ newline ++ "BENCH:" ++ newline ++
                    join_with newline bench
             end) /\
  (forall player line,
      In player (roster_of team) ->
      FantasyData.lineupSlot player = None ->
      summary_line league player line ->
      listed_as_starter player = true /\ String.prefix "BENCH: " line = true).
Proof.
  unfold FantasyData.get_lightweight_roster_summary, FantasyData.roster_lines.
  fold (roster_of team).
  destruct (for_each (FantasyData.player_summary league) (roster_of team))
    as [rows|e] eqn:E; cbn [bind]; [|discriminate].
  intros H. injection H as <-. apply for_each_returns in E. split.
  - eexists. eexists. split; [|split; [|reflexivity]].
    + apply Forall2_map_r.
      eapply Forall2_impl;
        [|apply (Forall2_filter _ listed_as_starter
                   (fun row => negb (FantasyData.in_strs (fst row) ["BE"; "IR"])));
          [|exact E]].
      * intros player (slot, line) Hrow. exists slot. exact Hrow.
      * intros player row Hrow. eapply starter_flag. exact Hrow.
    + apply Forall2_map_r.
      eapply Forall2_impl;
        [|apply (Forall2_filter _ listed_on_bench
                   (fun row => FantasyData.in_strs (fst row) ["BE"; "IR"]
                               && negb (FantasyData.in_strs (fst row) ["IR"])));
          [|exact E]].
      * intros player (slot, line) Hrow. exists slot. exact Hrow.
      * intros player row Hrow. eapply bench_flag. exact Hrow.
  - intros player line _ Hslot (slot & Hline). split.
    + unfold listed_as_starter. now rewrite Hslot.
    + unfold FantasyData.player_summary in Hline. rewrite Hslot in Hline.
      destruct (FantasyData.name player) as [nm|]; [|discriminate].
      injection Hline as _ <-. cbv zeta.
      change (FantasyData.in_strs "BENCH" ["BE"; "IR"]) with false. cbn [negb].
      pose proof (fun body => prefix_marked "BENCH: " body : 
                    String.prefix "BENCH: " ("BENCH" ++ ": " ++ body) = true) as Hp.
      destruct (FantasyData.get_player_bye_week player) as [week|];
        [destruct (week =? 0)|];
        destruct (FantasyData.injuryStatus player) as [s|];
        try destruct (String.eqb s "");
        first [apply Hp | apply prefix_more, Hp | apply prefix_more, prefix_more, Hp].
Qed.

(** The team [deep] of the sample league: six players, one of them without
    a lineup slot and one in the slot IR. *)
Lemma X11_light_summary_lists_witness :
  exists text starters bench,
    FantasyData.get_lightweight_roster_summary Sample.big_league Sample.deep = Return text /\
    Forall2 (summary_line Sample.big_league)
            (filter listed_as_starter (roster_of Sample.deep)) starters /\
    Forall2 (summary_line Sample.big_league)
            (filter listed_on_bench (roster_of Sample.deep)) bench /\
    List.length starters = 3%nat /\ List.length bench = 2%nat.
Proof.
  destruct (FantasyData.get_lightweight_roster_summary Sample.big_league Sample.deep)
    as [text|e] eqn:Hreturns; [|vm_compute in Hreturns; discriminate].
  destruct (X11_light_summary_lists Sample.big_league Sample.deep text Hreturns)
    as ((starters & bench & Hstarters & Hbench & _) & _).
  exists text, starters, bench. split; [reflexivity|].
  split; [exact Hstarters|]. split; [exact Hbench|].
  split.
  - now rewrite <- (Forall2_length Hstarters).
  - now rewrite <- (Forall2_length Hbench).
Defined.

(** ** [get_minimal_league_standings] *)

Section StableOrder.
Context {A K : Type} (before : K -> K -> bool) (key : A -> K) (p : A -> bool).
Hypothesis p_before :
  forall x y, p x = true -> p y = true -> before (key x) (key y) = true.

Lemma insert_stable_filter (x : A) (l : list A) :
  filter p (insert_stable before key x l) = filter p (x :: l).
Proof.
  induction l as [|y l IH]; [reflexivity|].
  cbn [insert_stable].
  destruct (before (key x) (key y)) eqn:E; [reflexivity|].
  cbn [filter] in *. rewrite IH.
  destruct (p x) eqn:Ex; destruct (p y) eqn:Ey; try reflexivity.
  rewrite (p_before x y Ex Ey) in E. discriminate.
Qed.

Lemma py_sorted_filter (l : list A) :
  filter p (py_sorted before key l) = filter p l.
Proof.
  induction l as [|x l IH]; [reflexivity|].
  cbn [py_sorted]. rewrite insert_stable_filter. cbn [filter]. now rewrite IH.
Qed.

End StableOrder.

Lemma insert_stable_map {A B K} (before : K -> K -> bool) (key : B -> K) (g : A -> B)
      (x : A) (l : list A) :
  insert_stable before key (g x) (map g l)
  = map g (insert_stable before (fun a => key (g a)) x l).
Proof.
  induction l as [|y l IH]; simpl; [reflexivity|].
  destruct (before (key (g x)) (key (g y))); simpl; [reflexivity|].
  now rewrite IH.
Qed.

Lemma py_sorted_map {A B K} (before : K -> K -> bool) (key : B -> K) (g : A -> B)
      (l : list A) :
  py_sorted before key (map g l) = map g (py_sorted before (fun a => key (g a)) l).
Proof.
  induction l as [|x l IH]; simpl; [reflexivity|].
  now rewrite IH, insert_stable_map.
Qed.

Lemma digits_field (d : Decimal.uint) (rest : string) :
  first_field "-" (NilEmpty.string_of_uint d ++ String "-" rest)
  = NilEmpty.string_of_uint d.
Proof.
  induction d; simpl; try rewrite IHd; reflexivity.
Qed.

Lemma number_field (d : Decimal.uint) (rest : string) :
  first_field "-" (NilZero.string_of_uint d ++ String "-" rest)
  = NilZero.string_of_uint d.
Proof.
  destruct d; try reflexivity; apply digits_field.
Qed.

Lemma py_int_unsigned (d : Decimal.uint) :
  py_int (NilZero.string_of_uint d) = Some (Z.of_uint d).
Proof.
  unfold py_int.
  change (NilZero.string_of_uint d) with (NilZero.string_of_int (Decimal.Pos d)).
  destruct d; [reflexivity|..];
    (rewrite NilZero.isi; [reflexivity|discriminate|discriminate]).
Qed.

(** The key of line 375 read back from the text of the record. *)
Lemma key_of_record (wins losses : Z) :
  py_int (first_field "-" (string_of_Z wins ++ "-" ++ string_of_Z losses))
  = if 0 <=? wins then Some wins else None.
Proof.
  unfold string_of_Z at 1.
  destruct wins as [|p|p]; cbn [Z.to_int NilZero.string_of_int Z.leb Z.compare].
  - reflexivity.
  - change ("-" ++ string_of_Z losses) with (String "-" (string_of_Z losses)).
    rewrite number_field, py_int_unsigned. f_equal.
    exact (DecimalZ.of_to (Z.pos p)).
  - reflexivity.
Qed.

Lemma standing_key_of (team : FantasyData.Team) :
  FantasyData.standing_key (FantasyData.standing_of team)
  = if 0 <=? FantasyData.wins team
    then Some (FantasyData.wins team, shown_points team)
    else None.
Proof.
  unfold FantasyData.standing_key, FantasyData.standing_of.
  cbn [FantasyData.st_record FantasyData.st_pts].
  rewrite key_of_record. now destruct (0 <=? FantasyData.wins team).
Qed.

Lemma keyed_teams (teams : list FantasyData.Team) :
  Forall (fun team => 0 <= FantasyData.wins team) teams ->
  FantasyData.keyed (map FantasyData.standing_of teams)
  = Some (map (fun team => (team_key team, FantasyData.standing_of team)) teams).
Proof.
  induction 1 as [|team teams Hw _ IH]; [reflexivity|].
  cbn [map FantasyData.keyed]. rewrite standing_key_of, IH.
  apply Z.leb_le in Hw. now rewrite Hw.
Qed.

Lemma keyed_negative (teams : list FantasyData.Team) :
  FantasyData.keyed (map FantasyData.standing_of teams) = None <->
  Exists (fun team => FantasyData.wins team < 0) teams.
Proof.
  induction teams as [|team teams IH]; cbn [map FantasyData.keyed].
  - split; [discriminate|]. intros H. inversion H.
  - rewrite standing_key_of.
    destruct (Z.leb_spec 0 (FantasyData.wins team)) as [Hw|Hw].
    + destruct (FantasyData.keyed (map FantasyData.standing_of teams)) as [kl|].
      * split; [discriminate|]. intros H. inversion H; subst; [lia|].
        apply IH in H1. discriminate.
      * split; [|reflexivity]. intros _. right. now apply IH.
    + split; [|reflexivity]. intros _. now left.
Qed.

Lemma key_ge_total (a b : Z * Q) :
  FantasyData.key_ge a b = false -> FantasyData.key_ge b a = true.
Proof.
  unfold FantasyData.key_ge. destruct a as (wa, pa), b as (wb, pb). cbn [fst snd].
  intros H. apply orb_false_iff in H. destruct H as (Hlt & Heq).
  apply Z.ltb_ge in Hlt.
  destruct (Z.ltb_spec wa wb) as [Hlt'|Hge]; [reflexivity|].
  assert (wa = wb) as -> by lia. rewrite Z.eqb_refl in *. cbn [orb andb] in *.
  destruct (Qle_bool pa pb) eqn:E; [reflexivity|].
  destruct (Qlt_le_dec pb pa) as [Hq|Hq].
  - apply Qlt_le_weak, Qle_bool_iff in Hq. congruence.
  - apply Qle_bool_iff in Hq. congruence.
Qed.

Lemma key_ge_spec (a b : Z * Q) :
  FantasyData.key_ge a b = true <->
  fst b < fst a \/ (fst b = fst a /\ (snd b <= snd a)%Q).
Proof.
  unfold FantasyData.key_ge.
  rewrite orb_true_iff, andb_true_iff, Z.ltb_lt, Z.eqb_eq, Qle_bool_iff.
  reflexivity.
Qed.

Lemma key_ge_trans (a b c : Z * Q) :
  FantasyData.key_ge a b = true -> FantasyData.key_ge b c = true ->
  FantasyData.key_ge a c = true.
Proof.
  rewrite !key_ge_spec.
  intros [H1|(H1 & H1')] [H2|(H2 & H2')]; try (left; lia).
  right. split; [lia|]. eapply Qle_trans; eassumption.
Qed.

Lemma standings_of_ranked (league : FantasyData.League) :
  Forall (fun team => 0 <= FantasyData.wins team) (FantasyData.teams league) ->
  FantasyData.ranked_standings league
  = Some (map FantasyData.standing_of
              (py_sorted FantasyData.key_ge team_key (FantasyData.teams league))).
Proof.
  intros H. unfold FantasyData.ranked_standings. rewrite (keyed_teams _ H).
  rewrite (py_sorted_map FantasyData.key_ge fst
             (fun team => (team_key team, FantasyData.standing_of team))).
  now rewrite map_map.
Qed.

(** X12: in a league where no team has a negative number of wins,
    [get_minimal_league_standings] returns one line for each team, ranked
    by wins and, among teams with as many wins, by points (rounded to one
    decimal), the highest first; teams that tie on both keep the order in
    which the league lists them. *)
Theorem X12_standings_ranked (league : FantasyData.League) :
  Forall (fun team => 0 <= FantasyData.wins team) (FantasyData.teams league) ->
  exists ranked,
    FantasyData.get_minimal_league_standings league
    = Some (join_with newline
              (FantasyData.standing_lines 1 (map FantasyData.standing_of ranked))) /\
    Permutation ranked (FantasyData.teams league) /\
    StronglySorted outranks ranked /\
    (forall team, filter (tied team) ranked = filter (tied team) (FantasyData.teams league)).
Proof.
  intros H.
  exists (py_sorted FantasyData.key_ge team_key (FantasyData.teams league)).
  split; [|split; [|split]].
  - unfold FantasyData.get_minimal_league_standings.
    now rewrite (standings_of_ranked _ H).
  - symmetry. apply py_sorted_perm.
  - eapply StronglySorted_weaken;
      [|apply (py_sorted_sorted FantasyData.key_ge team_key)].
    + intros a b Hab. apply key_ge_spec in Hab. exact Hab.
    + apply key_ge_total.
    + apply key_ge_trans.
  - intros team. apply py_sorted_filter.
    intros a b Ha Hb. unfold tied in Ha, Hb.
    apply andb_true_iff in Ha, Hb. destruct Ha as (Ha & Ha'), Hb as (Hb & Hb').
    apply Z.eqb_eq in Ha, Hb. apply Qeq_bool_iff in Ha', Hb'.
    apply key_ge_spec. right. cbn [team_key fst snd]. split; [lia|].
    rewrite <- Ha', <- Hb'. apply Qle_refl.
Qed.

(** The sample league of four teams. *)
Lemma X12_standings_ranked_witness :
  exists ranked,
    FantasyData.get_minimal_league_standings Sample.big_league
    = Some (join_with newline
              (FantasyData.standing_lines 1 (map FantasyData.standing_of ranked))) /\
    Permutation ranked (FantasyData.teams Sample.big_league) /\
    StronglySorted outranks ranked /\
    (forall team,
        filter (tied team) ranked = filter (tied team) (FantasyData.teams Sample.big_league)).
Proof.
  apply (X12_standings_ranked Sample.big_league).
  repeat constructor; vm_compute; discriminate.
Defined.

(** X13: [get_minimal_league_standings] raises the [ValueError] of its
    sort key exactly when some team of the league has a negative number of
    wins: the key reads the wins back from the text of the record, up to
    the first [-]. *)
Theorem X13_standings_value_error (league : FantasyData.League) :
  FantasyData.get_minimal_league_standings league = None <->
  Exists (fun team => FantasyData.wins team < 0) (FantasyData.teams league).
Proof.
  unfold FantasyData.get_minimal_league_standings, FantasyData.ranked_standings.
  rewrite <- keyed_negative.
  destruct (FantasyData.keyed _); split; (discriminate || reflexivity).
Qed.

(** ** [identify_my_team] *)

Lemma select_team_outcome (teams : list FantasyData.Member)
      (inputs : list FantasyData.typed) :
  match snd (FantasyData.select_team teams inputs) with
  | FantasyData.Identified team => In team teams
  | FantasyData.IndexError => teams = []
  | FantasyData.EOFError => Forall (selects_none teams) inputs
  end.
Proof.
  induction inputs as [|t inputs IH]; cbn [FantasyData.select_team].
  - constructor.
  - destruct t as [z| |].
    + destruct ((0 <=? z - 1) && (z - 1 <? Z.of_nat (List.length teams))) eqn:E.
      * cbn [snd]. apply andb_true_iff in E. destruct E as (E1 & E2).
        apply Z.leb_le in E1. apply Z.ltb_lt in E2.
        destruct (nth_error teams (Z.to_nat (z - 1))) as [team|] eqn:En.
        -- eapply nth_error_In. exact En.
        -- apply nth_error_None in En. lia.
      * destruct (FantasyData.select_team teams inputs) as (notices, r). cbn [snd] in *.
        destruct r; try exact IH.
        constructor; [|exact IH]. exists z. split; [reflexivity|].
        apply andb_false_iff in E. destruct E as [E|E].
        -- apply Z.leb_gt in E. lia.
        -- apply Z.ltb_ge in E. lia.
    + cbn [snd]. destruct teams; [reflexivity|now left].
    + cbn [snd]. destruct teams; [reflexivity|now left].
Qed.

(** X14: the team that [identify_my_team] returns is always one of the
    league's teams, whatever is typed; it ends with an [IndexError] only in
    a league without teams, and with the [EOFError] of [input] only when
    everything that was typed was a number that selects no team. *)
Theorem X14_identify_outcome
        (teams : list FantasyData.Member) (swid : string)
        (inputs : list FantasyData.typed) :
  match identified_team teams swid inputs with
  | FantasyData.Identified team => In team teams
  | FantasyData.IndexError => teams = []
  | FantasyData.EOFError => Forall (selects_none teams) inputs
  end.
Proof.
  unfold identified_team, FantasyData.identify_my_team.
  destruct (find _ teams) as [my_team|] eqn:E.
  - cbn [snd]. apply find_some in E. apply E.
  - pose proof (select_team_outcome teams inputs) as H.
    destruct (FantasyData.select_team teams inputs) as (notices, r). exact H.
Qed.

(** X15: when some team of the league is the user's (its owner is marked
    ['You'], or one of its owners has the SWID), [identify_my_team] returns
    the first such team in the order of the league, prints nothing and
    reads no input: what is typed makes no difference. *)
Theorem X15_identify_first_match
        (before after : list FantasyData.Member) (team : FantasyData.Member)
        (swid : string) (inputs : list FantasyData.typed) :
  FantasyData.is_mine (FantasyData.normalize_swid swid) team = true ->
  Forall (fun other => FantasyData.is_mine (FantasyData.normalize_swid swid) other = false)
         before ->
  FantasyData.identify_my_team (before ++ team :: after) swid inputs
  = ([], FantasyData.Identified team).
Proof.
  intros Hmine Hbefore. unfold FantasyData.identify_my_team.
  now rewrite (find_first _ before after team Hmine Hbefore).
Qed.

(** The second team of the sample league, found by an owner given as a
    string, the SWID typed in capitals and without braces. *)
Lemma X15_identify_first_match_witness :
  exists team,
    nth_error Sample.members 1 = Some team /\
    FantasyData.identify_my_team Sample.members "3333CCCC-44DD" [FantasyData.Interrupted]
    = ([], FantasyData.Identified team).
Proof.
  eexists. split; [reflexivity|].
  apply (X15_identify_first_match [_] [_] _ "3333CCCC-44DD" [FantasyData.Interrupted]).
  - reflexivity.
  - repeat constructor.
Defined.

Lemma string_rev_snoc (s : string) (c : ascii) :
  string_rev (s ++ String c "") = String c (string_rev s).
Proof.
  induction s as [|d s IH]; simpl; [reflexivity|]. now rewrite IH.
Qed.

Lemma lstrip_snoc (chars : list ascii) (s : string) (c : ascii) :
  in_chars c chars = true ->
  lstrip chars (s ++ String c "") = lstrip chars s ++ String c "" \/
  (lstrip chars (s ++ String c "") = "" /\ lstrip chars s = "").
Proof.
  intros Hc. induction s as [|d s IH]; simpl.
  - rewrite Hc. now right.
  - destruct (in_chars d chars); [exact IH|now left].
Qed.

Lemma py_strip_wrapped (chars : list ascii) (s : string) (c c' : ascii) :
  in_chars c chars = true -> in_chars c' chars = true ->
  py_strip chars (String c (s ++ String c' "")) = py_strip chars s.
Proof.
  intros Hc Hc'. unfold py_strip. cbn [lstrip]. rewrite Hc.
  destruct (lstrip_snoc chars s c' Hc') as [E|(E & E')]; rewrite E.
  - rewrite string_rev_snoc. cbn [lstrip]. now rewrite Hc'.
  - now rewrite E'.
Qed.

Lemma upper_char_brace (c : ascii) :
  in_chars (upper_char c) ["{"; "}"]%char = in_chars c ["{"; "}"]%char.
Proof.
  destruct c as [[] [] [] [] [] [] [] []]; reflexivity.
Qed.

Lemma upper_char_twice (c : ascii) : upper_char (upper_char c) = upper_char c.
Proof.
  destruct c as [[] [] [] [] [] [] [] []]; reflexivity.
Qed.

Lemma py_upper_app (s t : string) : py_upper (s ++ t) = py_upper s ++ py_upper t.
Proof.
  induction s as [|c s IH]; simpl; [reflexivity|]. now rewrite IH.
Qed.

Lemma py_upper_rev (s : string) : py_upper (string_rev s) = string_rev (py_upper s).
Proof.
  induction s as [|c s IH]; simpl; [reflexivity|].
  now rewrite py_upper_app, IH.
Qed.

Lemma py_upper_twice (s : string) : py_upper (py_upper s) = py_upper s.
Proof.
  induction s as [|c s IH]; simpl; [reflexivity|].
  now rewrite upper_char_twice, IH.
Qed.

Lemma lstrip_upper (s : string) :
  lstrip ["{"; "}"]%char (py_upper s) = py_upper (lstrip ["{"; "}"]%char s).
Proof.
  induction s as [|c s IH]; [reflexivity|].
  cbn [py_upper lstrip]. rewrite upper_char_brace.
  destruct (in_chars c ["{"; "}"]%char); [exact IH|reflexivity].
Qed.

Lemma py_strip_upper (s : string) :
  py_strip ["{"; "}"]%char (py_upper s) = py_upper (py_strip ["{"; "}"]%char s).
Proof.
  unfold py_strip.
  now rewrite lstrip_upper, <- py_upper_rev, lstrip_upper, <- py_upper_rev.
Qed.

Lemma normalize_swid_case (a b : string) :
  py_upper a = py_upper b ->
  FantasyData.normalize_swid a = FantasyData.normalize_swid b.
Proof.
  intros H. unfold FantasyData.normalize_swid.
  now rewrite <- !py_strip_upper, H.
Qed.

Lemma normalize_swid_braces (swid : string) :
  FantasyData.normalize_swid ("{" ++ swid ++ "}") = FantasyData.normalize_swid swid.
Proof.
  unfold FantasyData.normalize_swid.
  change ("{" ++ swid ++ "}") with (String "{" (swid ++ String "}" "")).
  now rewrite py_strip_wrapped.
Qed.

Lemma identified_by_normal_form (teams : list FantasyData.Member) (a b : string)
      (inputs : list FantasyData.typed) :
  FantasyData.normalize_swid a = FantasyData.normalize_swid b ->
  identified_team teams a inputs = identified_team teams b inputs.
Proof.
  intros H. unfold identified_team, FantasyData.identify_my_team. rewrite H.
  destruct (find _ teams); [reflexivity|].
  now destruct (FantasyData.select_team teams inputs).
Qed.

(** X16: [identify_my_team] compares SWIDs without their braces and
    without regard to case: two SWIDs that differ only in the case of
    their letters, or in that one is wrapped in braces, identify the same
    team on the same input, and so does a SWID already in normal form. *)
Theorem X16_identify_swid_normal_form
        (teams : list FantasyData.Member) (swid other : string)
        (inputs : list FantasyData.typed) :
  (py_upper swid = py_upper other ->
   identified_team teams swid inputs = identified_team teams other inputs) /\
  identified_team teams ("{" ++ swid ++ "}") inputs = identified_team teams swid inputs /\
  FantasyData.normalize_swid (py_upper swid) = FantasyData.normalize_swid swid.
Proof.
  split; [|split].
  - intros H. apply identified_by_normal_form. now apply normalize_swid_case.
  - apply identified_by_normal_form. apply normalize_swid_braces.
  - apply normalize_swid_case. apply py_upper_twice.
Qed.

(** Two spellings of the SWID of the first team of the sample league. *)
Lemma X16_identify_swid_normal_form_witness :
  identified_team Sample.members "1111aaaa-22BB" []
  = identified_team Sample.members "1111AAAA-22bb" [].
Proof.
  apply (proj1 (X16_identify_swid_normal_form Sample.members
                  "1111aaaa-22BB" "1111AAAA-22bb" [])).
  reflexivity.
Defined.

(** ** [analyze_with_openai]: arguments that are no object, and the
    requests of a run *)

(** X17: a tool call for one of the three local tools whose arguments are
    valid JSON but no object (an array, a number, a string, ...) ends the
    dispatch with the [AttributeError] of [tool_args.get]: the bare
    [except] of the driver covers [json.loads] only.  The handler is not
    called and no result is added. *)
Theorem X17_non_object_arguments
        (json_loads : string -> option pyval) (league : FantasyData.League)
        (call : tool_call) (outs : list function_call_output)
        (arguments : string) (v : pyval) :
  has_local_handler call = true ->
  tc_arguments call = Some arguments ->
  json_loads arguments = Some v ->
  is_object v = false ->
  exists ev,
    Main.dispatch json_loads league call outs
    = (ev, Raise (AttributeError "object has no attribute 'get'")) /\
    Forall is_print ev.
Proof.
  unfold has_local_handler, Main.dispatch, Main.parse_arguments.
  intros H Ha Hv Ho. rewrite Ha, Hv.
  destruct (tc_name call) as [tool_name|]; [|discriminate].
  destruct (String.eqb tool_name "") eqn:E0.
  { apply String.eqb_eq in E0. subst. discriminate. }
  unfold Main.execute_tool.
  destruct (String.eqb tool_name "get_waiver_wire") eqn:E1;
    [|destruct (String.eqb tool_name "get_team_details") eqn:E2;
      [|destruct (String.eqb tool_name "get_player_stats") eqn:E3]].
  4: { simpl in H. rewrite E1, E2, E3 in H. discriminate. }
  all: destruct v as [| | | | | |d]; try discriminate;
    destruct (py_truthy _); cbn;
    eexists; (split; [reflexivity|repeat constructor]).
Qed.

(** A call of [get_team_details] with the arguments [[1]]. *)
Lemma X17_non_object_arguments_witness :
  exists ev,
    Main.dispatch JsonLite.json_loads Sample.league Sample.array_call []
    = (ev, Raise (AttributeError "object has no attribute 'get'")) /\
    Forall is_print ev.
Proof.
  apply (X17_non_object_arguments JsonLite.json_loads Sample.league Sample.array_call []
           "[1]" (PyList [PyInt 1])); reflexivity.
Defined.





(** X19: the loop of [analyze_with_openai] has no limit of its own on the
    number of turns.  Against a host that answers every request with the
    same response, one that asks for tool calls whose execution returns,
    the loop is still running after any number of turns, and has called
    the host once in each of them: only a response without function calls,
    or an exception, ends it. *)
Theorem X19_loop_has_no_turn_limit
        (json_loads : string -> option pyval) (league : FantasyData.League)
        (instructions_text : string) (w : world)
        (response : Response) (outs : list function_call_output) :
  function_calls_of (output response) <> [] ->
  snd (Main.execute_function_calls json_loads league
         (function_calls_of (output response)) []) = Return outs ->
  (forall n req, host w n req = Return response) ->
  forall fuel n,
  exists ev,
    Main.conversation json_loads league instructions_text w fuel response n
    = (ev, (n + fuel)%nat, Return None) /\
    List.length (creates ev) = fuel.
Proof.
  intros Hcalls Hexec Hhost.
  induction fuel as [|fuel IH]; intros n.
  - exists []. split; [|reflexivity]. cbn. now rewrite Nat.add_0_r.
  - rewrite conversation_step. cbv zeta.
    pose proof (scan_output_calls (output response)) as (_ & Hscan).
    pose proof (execute_local json_loads league (function_calls_of (output response)) [])
      as Hlocal.
    destruct (function_calls_of (output response)) as [|call calls]; [congruence|].
    destruct (Main.execute_function_calls json_loads league (call :: calls) [])
      as (ev1 & r1). cbn [fst snd] in *. subst r1.
    rewrite (first_attempt_answers w _ n response (Hhost n _)).
    destruct (IH (S n)) as (ev3 & Hconv & Hlen). rewrite Hconv.
    eexists. split; [f_equal; f_equal; lia|].
    rewrite !creates_app. rewrite !length_app.
    rewrite (local_no_create (usage_events response))
      by apply print_is_local, usage_events_print.
    rewrite (local_no_create (fst (Main.scan_output (output response))))
      by apply print_is_local, Hscan.
    rewrite (local_no_create ev1) by exact Hlocal.
    cbn. now rewrite Hlen.
Qed.

(** A host that keeps asking for a tool without handler: after five turns
    the loop has made five calls and has not ended. *)
Lemma X19_loop_has_no_turn_limit_witness :
  exists ev,
    Main.conversation JsonLite.json_loads Sample.league Sample.instructions_text
                      (Sample.two_step_host Sample.asks_unknown Sample.asks_unknown)
                      5 Sample.asks_unknown 0%nat
    = (ev, 5%nat, Return None) /\
    List.length (creates ev) = 5%nat.
Proof.
  apply (X19_loop_has_no_turn_limit JsonLite.json_loads Sample.league
           Sample.instructions_text
           (Sample.two_step_host Sample.asks_unknown Sample.asks_unknown)
           Sample.asks_unknown [] ltac:(discriminate) eq_refl
           ltac:(intros [|n] req; reflexivity) 5%nat 0%nat).
Defined.

(** ** From the lineup of a team to the statistics of its players *)




